(** * Document structuring pipelines: the pattern path and the structured path

    A shallow embedding of [document_processor.py] (class
    [DocumentProcessor], the pattern path) and of
    [ai_document_processor.py] (class [AIDocumentProcessor], the
    structured path), with the parts of Python's [re], [datetime] and
    [json] modules that the two classes call, and the check that the
    sheet writer makes of a cell.

    Texts are strings over the 7-bit ASCII alphabet, on which the
    character classes and case mappings below are Python's; the other 128
    values of the type [ascii] belong to no class and have no case. *)

From Stdlib Require Import Bool Arith ZArith List Sorted String Ascii Lia.
From Stdlib Require Import DecimalString.
From Stdlib Require DecimalNat DecimalFacts.
Import ListNotations.
Open Scope string_scope.

(** ** Characters *)

Module Char.

Definition code (c : ascii) : nat := nat_of_ascii c.

Definition between (lo hi : nat) (c : ascii) : bool :=
  (Nat.leb lo (code c) && Nat.leb (code c) hi)%bool.

Definition is_digit (c : ascii) : bool := between 48 57 c.
Definition is_upper (c : ascii) : bool := between 65 90 c.
Definition is_lower (c : ascii) : bool := between 97 122 c.
Definition is_alpha (c : ascii) : bool := (is_upper c || is_lower c)%bool.

(** [str.isspace] on ASCII: TAB, LF, VT, FF, CR, the four separators
    FS, GS, RS, US, and the space. *)
Definition is_space (c : ascii) : bool :=
  (between 9 13 c || between 28 32 c)%bool.

(** [\w]: alphanumeric or the underscore. *)
Definition is_word (c : ascii) : bool :=
  (is_alpha c || is_digit c || Nat.eqb (code c) 95)%bool.

Definition to_upper (c : ascii) : ascii :=
  if is_lower c then ascii_of_nat (code c - 32) else c.

Definition to_lower (c : ascii) : ascii :=
  if is_upper c then ascii_of_nat (code c + 32) else c.

Definition newline : ascii := ascii_of_nat 10.

End Char.

(** ** Strings: the [str] methods the two classes call *)

Module Str.

Fixpoint chars (s : string) : list ascii :=
  match s with
  | EmptyString => []
  | String c s' => c :: chars s'
  end.

Fixpoint of_chars (l : list ascii) : string :=
  match l with
  | [] => EmptyString
  | c :: l' => String c (of_chars l')
  end.

(** [s.replace(a, b)] for a one-character [a]. *)
Fixpoint replace_char (a : ascii) (b : string) (s : string) : string :=
  match s with
  | EmptyString => EmptyString
  | String c s' =>
      if Ascii.eqb c a then b ++ replace_char a b s'
      else String c (replace_char a b s')
  end.

(** [s.title()]: a cased character is upper-cased when the character
    before it is not cased, and lower-cased when it is. *)
Fixpoint title_from (previous_is_cased : bool) (s : string) : string :=
  match s with
  | EmptyString => EmptyString
  | String c s' =>
      String (if previous_is_cased then Char.to_lower c else Char.to_upper c)
             (title_from (Char.is_alpha c) s')
  end.

Definition title (s : string) : string := title_from false s.

Fixpoint lstrip (s : string) : string :=
  match s with
  | String c s' => if Char.is_space c then lstrip s' else s
  | EmptyString => EmptyString
  end.

Fixpoint rstrip (s : string) : string :=
  match s with
  | EmptyString => EmptyString
  | String c s' =>
      match rstrip s' with
      | EmptyString => if Char.is_space c then EmptyString else String c EmptyString
      | r => String c r
      end
  end.

(** [s.strip()] *)
Definition strip (s : string) : string := rstrip (lstrip s).

(** [str(n)] for a non-negative integer. *)
Definition of_nat (n : nat) : string := NilEmpty.string_of_uint (Nat.to_uint n).

(** [str(z)] for an integer. *)
Definition of_Z (z : Z) : string :=
  match z with
  | Zneg p => "-" ++ of_nat (Pos.to_nat p)
  | _ => of_nat (Z.to_nat z)
  end.

End Str.

(** ** Regular expressions: the fragment of [re] the patterns use

    Backtracking matching in the priority order of Python's engine:
    a greedy quantifier tries the longer repetition first, a lazy one the
    shorter first, an alternation its left branch first, and [search]
    the leftmost start first. *)

Module Re.

Inductive cls : Type :=
| Lit (c : ascii)          (* an ordinary or escaped character *)
| LitCI (c : ascii)        (* a letter under IGNORECASE *)
| Range (lo hi : ascii)    (* [lo-hi] *)
| Word                     (* \w *)
| Space                    (* \s *)
| Digit                    (* \d *)
| Dot                      (* .  without DOTALL *)
| DotAll.                  (* .  with DOTALL *)

Definition cls_match (k : cls) (c : ascii) : bool :=
  match k with
  | Lit a => Ascii.eqb c a
  | LitCI a => Ascii.eqb (Char.to_lower c) (Char.to_lower a)
  | Range lo hi => Char.between (Char.code lo) (Char.code hi) c
  | Word => Char.is_word c
  | Space => Char.is_space c
  | Digit => Char.is_digit c
  | Dot => negb (Ascii.eqb c Char.newline)
  | DotAll => true
  end.

Inductive regex : Type :=
| Eps
| Chr (k : cls)
| Bol                                   (* ^ *)
| Seq (r1 r2 : regex)
| Alt (r1 r2 : regex)                   (* r1|r2 *)
| Opt (r : regex)                       (* (?:r)? *)
| Rep (greedy : bool) (lo : nat) (hi : option nat) (k : cls)
                                        (* k+  k*  k*?  k{n} *)
| Grp (n : nat) (r : regex).            (* the n-th capturing group *)

(** The captured groups: number and text, latest first. *)
Definition caps : Type := list (nat * string).

Section Matcher.

Context {R : Type}.

(** A continuation receives the rest of the input, the position reached
    and the groups captured so far. *)
Definition cont : Type := list ascii -> nat -> caps -> option R.

Definition hi_pred (hi : option nat) : option nat :=
  match hi with Some h => Some (Nat.pred h) | None => None end.

Definition hi_open (hi : option nat) : bool :=
  match hi with Some O => false | _ => true end.

Definition orelse (a : option R) (b : unit -> option R) : option R :=
  match a with Some x => Some x | None => b tt end.

Fixpoint rep (greedy : bool) (k : cls) (lo : nat) (hi : option nat)
    (s : list ascii) (pos : nat) (cs : caps) (kont : cont) : option R :=
  let stop (_ : unit) :=
    match lo with O => kont s pos cs | S _ => None end in
  match s with
  | c :: s' =>
      if (cls_match k c && hi_open hi)%bool then
        let more (_ : unit) :=
          rep greedy k (Nat.pred lo) (hi_pred hi) s' (S pos) cs kont in
        if greedy then orelse (more tt) stop else orelse (stop tt) more
      else stop tt
  | [] => stop tt
  end.

Definition taken (s s' : list ascii) : string :=
  Str.of_chars (firstn (List.length s - List.length s') s).

Fixpoint run (r : regex) (s : list ascii) (pos : nat) (cs : caps)
    (kont : cont) : option R :=
  match r with
  | Eps => kont s pos cs
  | Chr k =>
      match s with
      | c :: s' => if cls_match k c then kont s' (S pos) cs else None
      | [] => None
      end
  | Bol => match pos with O => kont s pos cs | S _ => None end
  | Seq r1 r2 =>
      run r1 s pos cs (fun s1 p1 c1 => run r2 s1 p1 c1 kont)
  | Alt r1 r2 =>
      orelse (run r1 s pos cs kont) (fun _ => run r2 s pos cs kont)
  | Opt r1 =>
      orelse (run r1 s pos cs kont) (fun _ => kont s pos cs)
  | Rep greedy lo hi k => rep greedy k lo hi s pos cs kont
  | Grp n r1 =>
      run r1 s pos cs (fun s1 p1 c1 => kont s1 p1 ((n, taken s s1) :: c1))
  end.

End Matcher.

(** A match object: where the match starts, its text (group 0) and its
    groups. *)
Record match_obj : Type := MatchObj {
  m_start : nat;
  m_text : string;
  m_caps : caps
}.

Fixpoint lookup (n : nat) (cs : caps) : option string :=
  match cs with
  | [] => None
  | (i, t) :: cs' => if Nat.eqb i n then Some t else lookup n cs'
  end.

(** [m.group(n)]; the patterns here have no group that a match can leave
    unset, for which Python gives [None]. *)
Definition group (m : match_obj) (n : nat) : string :=
  match n with
  | O => m_text m
  | _ => match lookup n (m_caps m) with Some t => t | None => "" end
  end.

Definition match_at (r : regex) (s : list ascii) (pos : nat) : option match_obj :=
  run r s pos [] (fun s' _ cs => Some (MatchObj pos (taken s s') cs)).

Fixpoint search_from (r : regex) (s : list ascii) (pos : nat) : option match_obj :=
  match match_at r s pos with
  | Some m => Some m
  | None =>
      match s with
      | [] => None
      | _ :: s' => search_from r s' (S pos)
      end
  end.

(** [re.search(r, text)] *)
Definition search (r : regex) (text : string) : option match_obj :=
  search_from r (Str.chars text) 0.

(** [re.match(r, text)] followed by the test that the match ends where
    the text ends, as [_strptime] does. *)
Definition fullmatch (r : regex) (text : string) : option caps :=
  run r (Str.chars text) 0 []
      (fun s' _ cs => match s' with [] => Some cs | _ :: _ => None end).

(** *** Pattern shorthands *)

Fixpoint lit (s : string) : regex :=
  match s with
  | EmptyString => Eps
  | String c EmptyString => Chr (Lit c)
  | String c s' => Seq (Chr (Lit c)) (lit s')
  end.

Fixpoint lit_ci (s : string) : regex :=
  match s with
  | EmptyString => Eps
  | String c EmptyString => Chr (LitCI c)
  | String c s' => Seq (Chr (LitCI c)) (lit_ci s')
  end.

Fixpoint seq (rs : list regex) : regex :=
  match rs with
  | [] => Eps
  | [r] => r
  | r :: rs' => Seq r (seq rs')
  end.

Fixpoint alt (rs : list regex) : regex :=
  match rs with
  | [] => Eps
  | [r] => r
  | r :: rs' => Alt r (alt rs')
  end.

Definition plus (k : cls) : regex := Rep true 1 None k.
Definition star (k : cls) : regex := Rep true 0 None k.
Definition star_lazy (k : cls) : regex := Rep false 0 None k.
Definition exactly (n : nat) (k : cls) : regex := Rep true n (Some n) k.

Definition ws : regex := plus Space.        (* \s+ *)
Definition w : regex := plus Word.          (* \w+ *)
Definition d : regex := plus Digit.         (* \d+ *)

End Re.

(** ** Rows, log entries and exceptions *)

(** A Python float, kept as the expression that makes it: [float(s)] of a
    matched literal, or such a float divided by an integer.  The model
    computes no floating-point arithmetic. *)
Inductive pyfloat : Type :=
| FloatOfStr (s : string)
| FloatDiv (f : pyfloat) (n : Z).

Inductive value : Type :=
| VStr (s : string)
| VFloat (f : pyfloat).

(** One output record, the dict [{"#": .., "Key": .., "Value": ..,
    "Comments": ..}], its keys in this order at every place that builds
    one. *)
Record row : Type := Row {
  num : Z;
  Key : string;
  Value : value;
  Comments : string
}.

(** The exceptions the two classes raise or let through.
    [IllegalCharacterError] is the sheet writer's, raised on the cell text
    it carries. *)
Inductive exn : Type :=
| ValueError (msg : string)
| TypeError (msg : string)
| KeyError (key : string)
| OSError (msg : string)
| IllegalCharacterError (cell : string).

Inductive section : Type :=
| Personal | Professional | Education | Certifications | Technical.

Inductive sink : Type := Excel | Json.

(** The messages appended to [processing_log]. *)
Inductive log_entry : Type :=
| LogLoaded (path : string)         (* Loaded content from {path} *)
| LogLoadError (e : exn)            (* Error loading file: {e} *)
| LogStart                          (* Starting document processing... *)
| LogExtracted (s : section)        (* {s} extracted successfully *)
| LogExtractError (s : section) (e : exn)
                                    (* Error extracting {s}: {e} *)
| LogComplete (n : nat)             (* Processing complete! Extracted {n} records. *)
| LogSaved (filename : string)      (* Data saved to {filename} *)
| LogSaveError (k : sink) (e : exn).  (* Error saving to {k}: {e} *)

(** The status a log entry reports: the check-mark and rocket entries
    report success, the cross-mark entries an error. *)
Definition is_error (l : log_entry) : bool :=
  match l with
  | LogLoadError _ | LogExtractError _ _ | LogSaveError _ _ => true
  | _ => false
  end.

(** ** Dates: [datetime.strptime(s, "%B %d, %Y")] and
    [strftime("%Y-%m-%d 00:00:00")] *)

Module Date.

Import Re.

Definition month_names : list string :=
  ["january"; "february"; "march"; "april"; "may"; "june"; "july";
   "august"; "september"; "october"; "november"; "december"].

(** The alternation [_strptime] builds for [%B]: the names of the C
    locale, the longest first. *)
Definition month_re : regex :=
  alt (map lit_ci
    ["september"; "february"; "november"; "december"; "january"; "october";
     "august"; "march"; "april"; "june"; "july"; "may"]).

(** [%d] is [3[0-1]|[1-2]\d|0[1-9]|[1-9]| [1-9]]. *)
Definition day_re : regex :=
  alt [Seq (Chr (Lit "3")) (Chr (Range "0" "1"));
       Seq (Chr (Range "1" "2")) (Chr Digit);
       Seq (Chr (Lit "0")) (Chr (Range "1" "9"));
       Chr (Range "1" "9");
       Seq (Chr (Lit " ")) (Chr (Range "1" "9"))].

(** [%Y] is [\d\d\d\d]; white space in the format is [\s+]. *)
Definition format_re : regex :=
  seq [Grp 1 month_re; ws; Grp 2 day_re; Chr (Lit ","); ws;
       Grp 3 (seq [Chr Digit; Chr Digit; Chr Digit; Chr Digit])].

Definition lower (s : string) : string :=
  Str.of_chars (map Char.to_lower (Str.chars s)).

Fixpoint index_of (x : string) (l : list string) (i : nat) : option nat :=
  match l with
  | [] => None
  | y :: l' => if String.eqb x y then Some i else index_of x l' (S i)
  end.

(** [int(s)] of a string of decimal digits, spaces before them skipped. *)
Fixpoint int_of (acc : nat) (s : string) : nat :=
  match s with
  | EmptyString => acc
  | String c s' =>
      if Char.is_digit c then int_of (10 * acc + (Char.code c - 48)) s'
      else int_of acc s'
  end.

Definition is_leap (y : nat) : bool :=
  ((y mod 4 =? 0) && (negb (y mod 100 =? 0) || (y mod 400 =? 0)))%bool%nat.

Definition days_in_month (y m : nat) : nat :=
  match m with
  | 2 => if is_leap y then 29 else 28
  | 4 | 6 | 9 | 11 => 30
  | _ => 31
  end.

Record date : Type := MkDate { year : nat; month : nat; day : nat }.

(** [None] stands for the [ValueError] that [strptime] raises: the text
    does not match the format, or does not end where the match ends, or
    names a day the month does not have, or the year 0. *)
Definition strptime (s : string) : option date :=
  match fullmatch format_re s with
  | None => None
  | Some cs =>
      match lookup 1 cs, lookup 2 cs, lookup 3 cs with
      | Some b, Some dd, Some yy =>
          match index_of (lower b) month_names 1 with
          | None => None
          | Some m =>
              let y := int_of 0 yy in
              let dn := int_of 0 dd in
              if ((1 <=? y) && (1 <=? dn) && (dn <=? days_in_month y m))%bool%nat
              then Some (MkDate y m dn) else None
          end
      | _, _, _ => None
      end
  end.

Fixpoint zeros (n : nat) : string :=
  match n with O => "" | S n' => "0" ++ zeros n' end.

(** A number printed in at least [width] digits. *)
Definition pad (width n : nat) : string :=
  let t := Str.of_nat n in zeros (width - String.length t) ++ t.

(** [strftime("%Y-%m-%d 00:00:00")]: month and day in two digits, the
    year as the C library of Linux prints [%Y], in as many digits as it
    has (the year 989 is [989], not [0989]). *)
Definition strftime (dt : date) : string :=
  Str.of_nat (year dt) ++ "-" ++ pad 2 (month dt) ++ "-" ++ pad 2 (day dt)
  ++ " 00:00:00".

(** The shape shared by the four date fields of the pattern path:
    <<
      try:    obj = datetime.strptime(s, "%B %d, %Y")
              out = obj.strftime("%Y-%m-%d 00:00:00")
      except: out = fallback
    >> *)
Definition iso_or (fallback : string) (s : string) : string :=
  match strptime s with
  | Some dt => strftime dt
  | None => fallback
  end.

End Date.

(** ** The pattern text of a regular expression

    [show] prints a pattern the way the source writes it, so that each
    pattern below can be compared with its text in the source. *)

Module ReShow.

Import Re.

Definition special (c : ascii) : bool :=
  existsb (Ascii.eqb c)
    ["."; "+"; "*"; "?"; "("; ")"; "["; "]"; "{"; "}"; "^"; "$"; "|"; "\"]%char.

Definition one (c : ascii) : string := String c EmptyString.

Definition show_cls (k : cls) : string :=
  match k with
  | Lit c => if special c then "\" ++ one c else one c
  | LitCI c => one c
  | Range lo hi => "[" ++ one lo ++ "-" ++ one hi ++ "]"
  | Word => "\w"
  | Space => "\s"
  | Digit => "\d"
  | Dot | DotAll => "."
  end.

Definition show_quant (greedy : bool) (lo : nat) (hi : option nat) : string :=
  match greedy, lo, hi with
  | true, 1, None => "+"
  | false, 1, None => "+?"
  | true, 0, None => "*"
  | false, 0, None => "*?"
  | _, _, Some h =>
      (if Nat.eqb lo h then "{" ++ Str.of_nat lo ++ "}"
       else "{" ++ Str.of_nat lo ++ "," ++ Str.of_nat h ++ "}")
      ++ (if greedy then "" else "?")
  | _, _, None => "{" ++ Str.of_nat lo ++ ",}" ++ (if greedy then "" else "?")
  end.

Fixpoint show (r : regex) : string :=
  match r with
  | Eps => ""
  | Chr k => show_cls k
  | Bol => "^"
  | Seq r1 r2 => show r1 ++ show r2
  | Alt r1 r2 => show r1 ++ "|" ++ show r2
  | Opt r1 => "(?:" ++ show r1 ++ ")?"
  | Rep greedy lo hi k => show_cls k ++ show_quant greedy lo hi
  | Grp _ r1 => "(" ++ show r1 ++ ")"
  end.

End ReShow.

(** ** The pattern path: class [DocumentProcessor] *)

Module DocumentProcessor.

Import Re.

(** *** The patterns, in the order of their [re.search] calls *)

(** [\w+\s+\d+,\s+\d+], the date text inside four of the patterns *)
Definition date_text : regex := seq [w; ws; d; lit ","; ws; d].

(** [\d+(?:,\d+)?] *)
Definition amount : regex := Seq d (Opt (Seq (lit ",") d)).

(** [\d+\.\d+] *)
Definition decimal : regex := seq [d; lit "."; d].

Definition name_pattern : regex :=
  seq [Bol; Grp 1 w; ws; Grp 2 w; ws; lit "was"; ws; lit "born"].

Definition dob_pattern : regex :=
  seq [lit "born"; ws; lit "on"; ws; Grp 1 date_text].

Definition birth_pattern : regex :=
  seq [lit "born"; ws; lit "on"; ws; star_lazy Dot; lit ","; ws; Grp 1 d;
       lit ","; ws; lit "in"; ws; Grp 2 w; lit ","; ws; Grp 3 w].

Definition age_pattern : regex :=
  seq [lit "making"; ws; lit "him"; ws; Grp 1 d; ws; lit "years"; ws; lit "old"].

Definition blood_pattern : regex :=
  seq [lit "O+"; ws; lit "blood"; ws; lit "group"].

Definition nationality_pattern : regex :=
  seq [lit "As"; ws; lit "an"; ws; Grp 1 w; ws; lit "national"].

Definition first_job_pattern : regex :=
  seq [lit "professional"; ws; lit "journey"; ws; lit "began"; ws; lit "on"; ws;
       Grp 1 date_text; star_lazy Dot; lit "as"; ws; lit "a"; ws;
       Grp 2 (star_lazy Dot); ws; lit "with"; ws; lit "an"; ws; lit "annual"; ws;
       lit "salary"; ws; lit "of"; ws; Grp 3 amount; ws; Grp 4 w].

Definition current_job_pattern : regex :=
  seq [lit "current"; ws; lit "role"; ws; lit "at"; ws; Grp 1 (star_lazy Dot); ws;
       lit "beginning"; ws; lit "on"; ws; Grp 2 date_text; star_lazy Dot;
       lit "as"; ws; lit "a"; ws; Grp 3 (star_lazy Dot); ws; lit "earning"; ws;
       Grp 4 amount; ws; Grp 5 w].

Definition prev_job_pattern : regex :=
  seq [lit "worked"; ws; lit "at"; ws; Grp 1 (star_lazy Dot); ws; lit "from"; ws;
       Grp 2 date_text; star_lazy Dot; Grp 3 (exactly 4 Digit)].

Definition prev_designation_pattern : regex :=
  seq [lit "at"; ws; lit "LakeCorp"; ws; lit "Solutions"; star Dot;
       lit "starting"; ws; lit "as"; ws; lit "a"; ws; Grp 1 (star_lazy Dot); ws;
       lit "and"].

Definition hs_pattern : regex :=
  seq [lit "high"; ws; lit "school"; ws; lit "education"; ws; lit "at"; ws;
       Grp 1 (star_lazy Dot); lit ","; ws; lit "where"; ws; lit "he"; ws;
       lit "completed"].

Definition year12_pattern : regex :=
  seq [lit "12th"; ws; lit "standard"; ws; lit "in"; ws; Grp 1 d].

Definition score12_pattern : regex :=
  seq [lit "outstanding"; ws; Grp 1 decimal; lit "%"; ws; lit "overall"; ws;
       lit "score"].

Definition ug_pattern : regex :=
  seq [lit "B.Tech"; ws; lit "in"; ws; Grp 1 (seq [w; ws; w])].

Definition ug_college_pattern : regex :=
  seq [lit "prestigious"; ws; Grp 1 (seq [w; ws; w]); lit ","; ws;
       lit "graduating"].

Definition ug_year_pattern : regex :=
  seq [lit "graduating"; ws; lit "with"; ws; lit "honors"; ws; lit "in"; ws;
       Grp 1 d].

Definition ug_cgpa_pattern : regex :=
  seq [lit "CGPA"; ws; lit "of"; ws; Grp 1 decimal; ws; lit "on"; ws; lit "a"; ws;
       lit "10-point"; ws; lit "scale"].

Definition grad_pattern : regex :=
  seq [lit "M.Tech"; ws; lit "in"; ws; Grp 1 (seq [w; ws; w])].

Definition grad_college_pattern : regex :=
  seq [lit "IIT"; ws; lit "Bombay,"; ws; lit "where"; ws; lit "he"; ws;
       lit "earned"].

Definition grad_cgpa_pattern : regex :=
  seq [lit "achieving"; ws; lit "an"; ws; lit "exceptional"; ws; lit "CGPA"; ws;
       lit "of"; ws; Grp 1 decimal].

Definition aws_pattern : regex :=
  seq [lit "AWS"; ws; lit "Solutions"; ws; lit "Architect"; ws; lit "exam"; ws;
       lit "in"; ws; Grp 1 d; ws; lit "with"; ws; lit "a"; ws; lit "score"; ws;
       lit "of"; ws; Grp 2 d].

Definition azure_pattern : regex :=
  seq [lit "Azure"; ws; lit "Data"; ws; lit "Engineer"; ws; lit "certification"; ws;
       lit "in"; ws; Grp 1 d; ws; lit "with"; ws; Grp 2 d; ws; lit "points"].

Definition pmp_pattern : regex :=
  seq [lit "Project"; ws; lit "Management"; ws; lit "Professional"; ws;
       lit "certification,"; ws; lit "obtained"; ws; lit "in"; ws; Grp 1 d].

Definition safe_pattern : regex :=
  seq [lit "SAFe"; ws; lit "Agilist"; ws; lit "certification"; ws; lit "earned"; ws;
       lit "him"; ws; lit "an"; ws; lit "outstanding"; ws; Grp 1 d; lit "%"].

(** compiled with [re.DOTALL] *)
Definition tech_pattern : regex :=
  seq [lit "In"; ws; lit "terms"; ws; lit "of"; ws; lit "technical"; ws;
       lit "proficiency"; star DotAll].

Definition patterns : list regex :=
  [name_pattern; dob_pattern; birth_pattern; age_pattern; blood_pattern;
   nationality_pattern; first_job_pattern; current_job_pattern;
   prev_job_pattern; prev_designation_pattern; hs_pattern; year12_pattern;
   score12_pattern; ug_pattern; ug_college_pattern; ug_year_pattern;
   ug_cgpa_pattern; grad_pattern; grad_college_pattern; grad_cgpa_pattern;
   aws_pattern; azure_pattern; pmp_pattern; safe_pattern; tech_pattern].

(** *** The object and its methods *)

(** [self.text_content] is [None] until a text is given or loaded. *)
Record processor : Type := Processor {
  text_content : option string;
  extracted_data : list row;
  processing_log : list log_entry
}.

(** [DocumentProcessor(text_content)] *)
Definition init (text : option string) : processor :=
  Processor text [] [].

Definition log (l : log_entry) (p : processor) : processor :=
  Processor (text_content p) (extracted_data p) (processing_log p ++ [l]).

Definition append (rs : list row) (p : processor) : processor :=
  Processor (text_content p) (extracted_data p ++ rs) (processing_log p).

(** [if m: ...]: the rows appended under a match, none without one. *)
Definition when {A : Type} (m : option A) (rows : A -> list row) : list row :=
  match m with
  | Some x => rows x
  | None => []
  end.

Definition pink_city : string :=
  "Born and raised in the Pink City of India, his birthplace provides valuable regional profiling context".

Definition personal_rows (text : string) : list row :=
  when (search name_pattern text) (fun m =>
    [Row 1 "First Name" (VStr (group m 1)) "";
     Row 2 "Last Name" (VStr (group m 2)) ""])
  ++ when (search dob_pattern text) (fun m =>
    [Row 3 "Date of Birth"
       (VStr (Date.iso_or "1989-03-15 00:00:00" (group m 1))) ""])
  ++ when (search birth_pattern text) (fun m =>
    [Row 4 "Birth City" (VStr (group m 2)) pink_city;
     Row 5 "Birth State" (VStr (group m 3)) pink_city])
  ++ when (search age_pattern text) (fun m =>
    [Row 6 "Age" (VStr (group m 1 ++ " years"))
       "As on year 2024. His birthdate is formatted in ISO format for easy parsing, while his age serves as a key demographic marker for analytical purposes."])
  ++ when (search blood_pattern text) (fun _ =>
    [Row 7 "Blood Group" (VStr "O+") "Emergency contact purposes."])
  ++ when (search nationality_pattern text) (fun m =>
    [Row 8 "Nationality" (VStr (group m 1))
       "Citizenship status is important for understanding his work authorization and visa requirements across different employment opportunities."]).

Definition professional_rows (text : string) : list row :=
  when (search first_job_pattern text) (fun m =>
    [Row 9 "Joining Date of first professional role"
       (VStr (Date.iso_or "2012-07-01 00:00:00" (group m 1))) "";
     Row 10 "Designation of first professional role" (VStr (group m 2)) "";
     Row 11 "Salary of first professional role"
       (VStr (Str.replace_char "," "" (group m 3))) "";
     Row 12 "Salary currency of first professional role" (VStr (group m 4)) ""])
  ++ when (search current_job_pattern text) (fun m =>
    [Row 13 "Current Organization" (VStr (group m 1)) "";
     Row 14 "Current Joining Date"
       (VStr (Date.iso_or "2021-06-15 00:00:00" (group m 2))) "";
     Row 15 "Current Designation" (VStr (group m 3)) "";
     Row 16 "Current Salary" (VStr (Str.replace_char "," "" (group m 4)))
       "This salary progression from his starting compensation to his current peak salary of 2,800,000 INR represents a substantial eight-fold increase over his twelve-year career span.";
     Row 17 "Current Salary Currency" (VStr (group m 5)) ""])
  ++ when (search prev_job_pattern text) (fun m =>
    ([Row 18 "Previous Organization" (VStr (group m 1)) "";
     Row 19 "Previous Joining Date"
       (VStr (Date.iso_or "2018-02-01 00:00:00" (group m 2))) "";
     Row 20 "Previous end year" (VStr (group m 3)) ""]
    ++ when (search prev_designation_pattern text) (fun m' =>
      [Row 21 "Previous Starting Designation" (VStr (group m' 1))
         "Promoted in 2019"]))%list).

Definition education_rows (text : string) : list row :=
  when (search hs_pattern text) (fun m =>
    [Row 22 "High School" (VStr (group m 1)) ""])
  ++ when (search year12_pattern text) (fun m =>
    [Row 23 "12th standard pass out year" (VStr (group m 1))
       "His core subjects included Mathematics, Physics, Chemistry, and Computer Science, demonstrating his early aptitude for technical disciplines."])
  ++ when (search score12_pattern text) (fun m =>
    [Row 24 "12th overall board score"
       (VFloat (FloatDiv (FloatOfStr (group m 1)) 100)) "Outstanding achievement"])
  ++ when (search ug_pattern text) (fun m =>
    [Row 25 "Undergraduate degree" (VStr ("B.Tech (" ++ group m 1 ++ ")")) ""])
  ++ when (search ug_college_pattern text) (fun m =>
    [Row 26 "Undergraduate college" (VStr (group m 1)) ""])
  ++ when (search ug_year_pattern text) (fun m =>
    [Row 27 "Undergraduate year" (VStr (group m 1))
       "Graduating with honors and ranking 15th among 120 students in his class."])
  ++ when (search ug_cgpa_pattern text) (fun m =>
    [Row 28 "Undergraduate CGPA" (VFloat (FloatOfStr (group m 1)))
       "On a 10-point scale"])
  ++ when (search grad_pattern text) (fun m =>
    [Row 29 "Graduation degree" (VStr ("M.Tech (" ++ group m 1 ++ ")")) ""])
  ++ when (search grad_college_pattern text) (fun _ =>
    [Row 30 "Graduation college" (VStr "IIT Bombay")
       "Continued academic excellence at IIT Bombay"])
  ++ [Row 31 "Graduation year" (VStr "2013") ""]
  ++ when (search grad_cgpa_pattern text) (fun m =>
    [Row 32 "Graduation CGPA" (VFloat (FloatOfStr (group m 1)))
       "Considered exceptional and scoring 95 out of 100 for his final year thesis project."]).

Definition certification_rows (text : string) : list row :=
  when (search aws_pattern text) (fun m =>
    [Row 33 "Certifications 1" (VStr "AWS Solutions Architect")
       ("Vijay's commitment to continuous learning is evident through his impressive certification scores. He passed the AWS Solutions Architect exam in "
        ++ group m 1 ++ " with a score of " ++ group m 2 ++ " out of 1000")])
  ++ when (search azure_pattern text) (fun m =>
    [Row 34 "Certifications 2" (VStr "Azure Data Engineer")
       ("Pursued in the year " ++ group m 1 ++ " with " ++ group m 2 ++ " points.")])
  ++ when (search pmp_pattern text) (fun m =>
    [Row 35 "Certifications 3" (VStr "Project Management Professional certification")
       ("Obtained in " ++ group m 1 ++ ", was achieved with an "
        ++ String (ascii_of_nat 34) "Above Target" ++ String (ascii_of_nat 34)
             " rating from PMI, These certifications complement his practical experience and demonstrate his expertise across multiple technology platforms.")])
  ++ when (search safe_pattern text) (fun m =>
    [Row 36 "Certifications 4" (VStr "SAFe Agilist certification")
       ("Earned him an outstanding " ++ group m 1
        ++ "% score. Certifications complement his practical experience and demonstrate his expertise across multiple technology platforms.")]).

Definition technical_rows (text : string) : list row :=
  when (search tech_pattern text) (fun m =>
    [Row 37 "Technical Proficiency" (VStr "") (Str.strip (group m 0))]).

(** The body shared by the five [extract_*] methods:
    <<
      try:
          ... re.search(.., self.text_content) ... self.extracted_data.append(..)
          self.processing_log.append("... extracted successfully")
      except Exception as e:
          self.processing_log.append(f"Error extracting ...: {str(e)}")
    >>
    On a text nothing in the body raises.  With no text the first
    [re.search] raises [TypeError], before any row is appended. *)
Definition extract (s : section) (rows : string -> list row) (p : processor)
  : processor :=
  match text_content p with
  | Some text => log (LogExtracted s) (append (rows text) p)
  | None =>
      log (LogExtractError s (TypeError "expected string or bytes-like object")) p
  end.

Definition extract_personal_info : processor -> processor :=
  extract Personal personal_rows.
Definition extract_professional_info : processor -> processor :=
  extract Professional professional_rows.
Definition extract_education_info : processor -> processor :=
  extract Education education_rows.
Definition extract_certifications : processor -> processor :=
  extract Certifications certification_rows.
Definition extract_technical_proficiency : processor -> processor :=
  extract Technical technical_rows.

(** The outcome of a method that may raise: the exception or the value
    returned, and the object as the method leaves it. *)
Definition outcome (A : Type) : Type := (exn + A) * processor.

(** [not self.text_content]: no text, or the empty text. *)
Definition no_text (p : processor) : bool :=
  match text_content p with
  | None | Some EmptyString => true
  | Some (String _ _) => false
  end.

(** [process_all] returns [self.extracted_data], the very list the object
    goes on appending to; the value given here is what that list holds
    when the method returns. *)
Definition process_all (p : processor) : outcome (list row) :=
  if no_text p then
    (inl (ValueError "No text content provided. Please load content first."), p)
  else
    let p := log LogStart p in
    let p := extract_personal_info p in
    let p := extract_professional_info p in
    let p := extract_education_info p in
    let p := extract_certifications p in
    let p := extract_technical_proficiency p in
    let p := log (LogComplete (List.length (extracted_data p))) p in
    (inr (extracted_data p), p).

(** *** Files *)

(** What one output file holds: the sheet that
    [pd.DataFrame(rows).to_excel(.., index=False)] writes (the header
    [#, Key, Value, Comments] and one line a row), or the value that
    [json.dump] serialises; module [JsonText] gives the text of the
    latter.  [Unfinished] is what a sheet writer that raised has left
    under the name, an incomplete sheet or what was there before,
    depending on the version of the writer; the model says nothing of
    what it holds. *)
Inductive file : Type :=
| Sheet (header : list string) (lines : list row)
| JsonFile (data : list row)
| TextFile (content : string)
| Unfinished.

Definition files : Type := list (string * file).

Fixpoint read (name : string) (fs : files) : option file :=
  match fs with
  | [] => None
  | (n, f) :: fs' => if String.eqb n name then Some f else read name fs'
  end.

Definition write (name : string) (f : file) (fs : files) : files :=
  (name, f) :: fs.

Definition no_data : exn :=
  ValueError "No data to save. Please process document first.".

(** [load_from_file].  [opened] is what
    [open(file_path, 'r', encoding='utf-8')] and [file.read()] give: the
    text of the file, or the exception they raise (an [OSError] for a
    file that is missing or may not be read, the [ValueError] that is
    [UnicodeDecodeError] for bytes that are not UTF-8).  The text becomes
    the object's; an exception is logged and raised again, the object
    otherwise as it was. *)
Definition load_from_file (path : string) (opened : exn + string)
    (p : processor) : outcome unit :=
  match opened with
  | inr t =>
      (inr tt,
       log (LogLoaded path)
           (Processor (Some t) (extracted_data p) (processing_log p)))
  | inl e => (inl e, log (LogLoadError e) p)
  end.

(** *** The sheet writer

    [to_excel(.., engine='openpyxl')] hands every cell to openpyxl, whose
    [check_string] keeps the first 32767 characters of a text and then
    refuses it, raising [IllegalCharacterError], when one of them is a
    control character of [[\000-\010]|[\013-\014]|[\016-\037]]: every
    code below 32 but tab, line feed and carriage return. *)
Definition illegal_character (c : ascii) : bool :=
  let n := nat_of_ascii c in
  ((n <=? 8) || (n =? 11) || (n =? 12) || ((14 <=? n) && (n <=? 31)))%nat%bool.

Definition sheet_cell (s : string) : string :=
  String.substring 0 (N.to_nat 32767) s.

Definition refused (s : string) : bool :=
  existsb illegal_character (Str.chars (sheet_cell s)).

(** The texts among the cells under the header, in the order the frame
    is written: column after column. *)
Definition cell_texts (rows : list row) : list string :=
  (map Key rows
   ++ flat_map (fun r => match Value r with
                         | VStr s => [s]
                         | VFloat _ => []
                         end) rows
   ++ map Comments rows)%list.

Definition sheet_line (r : row) : row :=
  Row (num r) (sheet_cell (Key r))
      (match Value r with
       | VStr s => VStr (sheet_cell s)
       | VFloat f => VFloat f
       end)
      (sheet_cell (Comments r)).

(** [pd.DataFrame(rows).to_excel(filename, index=False,
    engine='openpyxl')]: the sheet, or the exception of the first cell
    refused.  A frame made from no rows has no columns. *)
Definition to_excel (rows : list row) : exn + file :=
  match find refused (cell_texts rows) with
  | Some s => inl (IllegalCharacterError (sheet_cell s))
  | None =>
      inr (Sheet (match rows with
                  | [] => []
                  | _ :: _ => ["#"; "Key"; "Value"; "Comments"]
                  end)
                 (map sheet_line rows))
  end.

(** [save_to_excel] and [save_to_json]: with no rows the [ValueError] is
    logged and raised again before the file is opened; an exception of
    the sheet writer is logged and raised again as well. *)
Definition save_to_excel (filename : string) (p : processor) (fs : files)
  : outcome unit * files :=
  match extracted_data p with
  | [] => ((inl no_data, log (LogSaveError Excel no_data) p), fs)
  | _ :: _ =>
      match to_excel (extracted_data p) with
      | inr sheet =>
          ((inr tt, log (LogSaved filename) p), write filename sheet fs)
      | inl e =>
          ((inl e, log (LogSaveError Excel e) p),
           write filename Unfinished fs)
      end
  end.

Definition save_to_json (filename : string) (p : processor) (fs : files)
  : outcome unit * files :=
  match extracted_data p with
  | [] => ((inl no_data, log (LogSaveError Json no_data) p), fs)
  | _ :: _ =>
      ((inr tt, log (LogSaved filename) p),
       write filename (JsonFile (extracted_data p)) fs)
  end.

(** [get_processing_summary], without the accuracy text *)
Definition get_processing_summary (p : processor) : nat * list log_entry :=
  (List.length (extracted_data p), processing_log p).

(** The run of [demo_usage] on a text: build the object, process, save the
    two files; an exception ends the run where it is raised. *)
Definition run (text : string) (fs : files) : outcome (list row) * files :=
  let p := init (Some text) in
  match process_all p with
  | (inl e, p) => ((inl e, p), fs)
  | (inr results, p) =>
      match save_to_excel "Output.xlsx" p fs with
      | ((inl e, p), fs) => ((inl e, p), fs)
      | ((inr _, p), fs) =>
          match save_to_json "extracted_data.json" p fs with
          | ((inl e, p), fs) => ((inl e, p), fs)
          | ((inr _, p), fs) => ((inr results, p), fs)
          end
      end
  end.

End DocumentProcessor.

(** ** The structured path: class [AIDocumentProcessor] *)

Module AIDocumentProcessor.

(** A [dict] from [str] to [str], its items in insertion order. *)
Definition dict : Type := list (string * string).

(** [d.get(key)] *)
Fixpoint get (key : string) (d : dict) : option string :=
  match d with
  | [] => None
  | (k, v) :: d' => if String.eqb k key then Some v else get key d'
  end.

(** [d.get(key, default)] *)
Definition get_or (d : dict) (key default : string) : string :=
  match get key d with
  | Some v => v
  | None => default
  end.

(** The nested value that [simulate_ai_extraction] returns and
    [structure_ai_output] reads, one field for each key the latter
    subscripts.  The records are the shape the method needs of its
    argument: every key it subscripts is there and holds a dict, a list
    of dicts or a string as the method uses it, and the values of the
    dicts are strings; only the keys inside the dicts are left open.  On
    a [Dict[str, Any]] of another shape the method raises at the first
    subscript or call that fails; such arguments are no values of these
    types, and what is proved of [structure_ai_output] is proved of
    arguments of this shape. *)
Record career : Type := Career {
  first_role : dict;
  current_role : dict;
  previous_role : dict
}.

Record schooling : Type := Schooling {
  high_school : string;
  passout_year_12th : string;       (* "12th_passout_year" *)
  board_score_12th : string;        (* "12th_board_score" *)
  undergraduate : dict;
  graduation : dict
}.

Record ai_data : Type := AiData {
  personal_info : dict;
  professional_career : career;
  education : schooling;
  certifications : list dict;
  technical_proficiency : string
}.

(** The argument is not read. *)
Definition simulate_ai_extraction (text_content : string) : ai_data :=
  AiData
    [("first_name", "Vijay");
     ("last_name", "Kumar");
     ("date_of_birth", "1989-03-15 00:00:00");
     ("birth_city", "Jaipur");
     ("birth_state", "Rajasthan");
     ("age", "35 years");
     ("blood_group", "O+");
     ("nationality", "Indian")]
    (Career
       [("joining_date", "2012-07-01 00:00:00");
        ("designation", "Junior Developer");
        ("salary", "350000");
        ("currency", "INR")]
       [("organization", "Resse Analytics");
        ("joining_date", "2021-06-15 00:00:00");
        ("designation", "Senior Data Engineer");
        ("salary", "2800000");
        ("currency", "INR")]
       [("organization", "LakeCorp Solutions");
        ("joining_date", "2018-02-01 00:00:00");
        ("end_year", "2021");
        ("starting_designation", "Data Analyst")])
    (Schooling
       "St. Xavier's School, Jaipur"
       "2007"
       "0.925"
       [("degree", "B.Tech (Computer Science)");
        ("college", "IIT Delhi");
        ("year", "2011");
        ("cgpa", "8.7")]
       [("degree", "M.Tech (Data Science)");
        ("college", "IIT Bombay");
        ("year", "2013");
        ("cgpa", "9.2")])
    [[("name", "AWS Solutions Architect"); ("year", "2019");
      ("score", "920 out of 1000")];
     [("name", "Azure Data Engineer"); ("year", "2020");
      ("score", "875 points")];
     [("name", "Project Management Professional certification");
      ("year", "2021"); ("rating", "Above Target")];
     [("name", "SAFe Agilist certification"); ("score", "98%")]]
    "In terms of technical proficiency, Vijay rates himself highly across various skills, with SQL expertise at a perfect 10 out of 10, reflecting his daily usage since 2012. His Python proficiency scores 9 out of 10, backed by over seven years of practical experience, while his machine learning capabilities rate 8 out of 10, representing five years of hands-on implementation. His cloud platform expertise, including AWS and Azure certifications, also rates 9 out of 10 with more than four years of experience, and his data visualization skills in Power BI and Tableau score 8 out of 10, establishing him as an expert in the field.".

(** *** The label tables *)

Definition key_mapping : dict :=
  [("first_name", "First Name");
   ("last_name", "Last Name");
   ("date_of_birth", "Date of Birth");
   ("birth_city", "Birth City");
   ("birth_state", "Birth State");
   ("age", "Age");
   ("blood_group", "Blood Group");
   ("nationality", "Nationality")].

Definition format_key_name (key : string) : string :=
  get_or key_mapping key (Str.title (Str.replace_char "_" " " key)).

Definition first_role_mapping : dict :=
  [("joining_date", "Joining Date of first professional role");
   ("designation", "Designation of first professional role");
   ("salary", "Salary of first professional role");
   ("currency", "Salary currency of first professional role")].

Definition format_first_role_key (key : string) : string :=
  get_or first_role_mapping key key.

Definition current_role_mapping : dict :=
  [("organization", "Current Organization");
   ("joining_date", "Current Joining Date");
   ("designation", "Current Designation");
   ("salary", "Current Salary");
   ("currency", "Current Salary Currency")].

Definition format_current_role_key (key : string) : string :=
  get_or current_role_mapping key key.

Definition previous_role_mapping : dict :=
  [("organization", "Previous Organization");
   ("joining_date", "Previous Joining Date");
   ("end_year", "Previous end year");
   ("starting_designation", "Previous Starting Designation")].

Definition format_previous_role_key (key : string) : string :=
  get_or previous_role_mapping key key.

Definition undergraduate_mapping : dict :=
  [("degree", "Undergraduate degree");
   ("college", "Undergraduate college");
   ("year", "Undergraduate year");
   ("cgpa", "Undergraduate CGPA")].

Definition format_undergraduate_key (key : string) : string :=
  get_or undergraduate_mapping key key.

Definition graduation_mapping : dict :=
  [("degree", "Graduation degree");
   ("college", "Graduation college");
   ("year", "Graduation year");
   ("cgpa", "Graduation CGPA")].

Definition format_graduation_key (key : string) : string :=
  get_or graduation_mapping key key.

(** *** The comment tables *)

Definition personal_comments : dict :=
  [("birth_city", "Born and raised in the Pink City of India, his birthplace provides valuable regional profiling context");
   ("birth_state", "Born and raised in the Pink City of India, his birthplace provides valuable regional profiling context");
   ("age", "As on year 2024. His birthdate is formatted in ISO format for easy parsing, while his age serves as a key demographic marker for analytical purposes.");
   ("blood_group", "Emergency contact purposes.");
   ("nationality", "Citizenship status is important for understanding his work authorization and visa requirements across different employment opportunities.")].

Definition professional_comments : dict :=
  [("current_salary", "This salary progression from his starting compensation to his current peak salary of 2,800,000 INR represents a substantial eight-fold increase over his twelve-year career span.");
   ("previous_starting_designation", "Promoted in 2019")].

Definition education_comments : dict :=
  [("12th_passout_year", "His core subjects included Mathematics, Physics, Chemistry, and Computer Science, demonstrating his early aptitude for technical disciplines.");
   ("12th_board_score", "Outstanding achievement");
   ("undergraduate_year", "Graduating with honors and ranking 15th among 120 students in his class.");
   ("undergraduate_cgpa", "On a 10-point scale");
   ("graduation_cgpa", "Considered exceptional and scoring 95 out of 100 for his final year thesis project.");
   ("graduation_college", "Continued academic excellence at IIT Bombay")].

(** [certification_comments.get(i, "")], the table keyed by 0, 1, 2, 3 *)
Definition certification_comments (i : nat) : string :=
  match i with
  | 0 => "Vijay's commitment to continuous learning is evident through his impressive certification scores. He passed the AWS Solutions Architect exam in 2019 with a score of 920 out of 1000"
  | 1 => "Pursued in the year 2020 with 875 points."
  | 2 => "Obtained in 2021, was achieved with an "
         ++ String (ascii_of_nat 34) "Above Target" ++ String (ascii_of_nat 34)
              " rating from PMI, These certifications complement his practical experience and demonstrate his expertise across multiple technology platforms."
  | 3 => "Earned him an outstanding 98% score. Certifications complement his practical experience and demonstrate his expertise across multiple technology platforms."
  | _ => ""
  end.

(** *** [structure_ai_output] *)

(** The two locals the method threads through its loops:
    [structured_data] and [record_num]. *)
Definition acc : Type := (list row * Z)%type.

(** [structured_data.append({"#": record_num, ..})] *)
Definition put (key value comment : string) (a : acc) : acc :=
  (fst a ++ [Row (snd a) key (VStr value) comment], snd a)%list.

(** [record_num += 1] *)
Definition bump (a : acc) : acc := (fst a, (snd a + 1)%Z).

(** [for key, value in d.items(): append; record_num += 1] *)
Definition each_item (label comment : string -> string) (d : dict) (a : acc)
  : acc :=
  fold_left (fun a kv => bump (put (label (fst kv)) (snd kv) (comment (fst kv)) a))
            d a.

(** [for i, cert in enumerate(certs)]: [cert["name"]] raises [KeyError]
    when a certification has no name. *)
Fixpoint each_certification (i : nat) (certs : list dict) (a : acc)
  : exn + acc :=
  match certs with
  | [] => inr a
  | cert :: certs' =>
      match get "name" cert with
      | None => inl (KeyError "name")
      | Some name =>
          each_certification (S i) certs'
            (bump (put ("Certifications " ++ Str.of_nat (i + 1)) name
                       (certification_comments i) a))
      end
  end.

Definition structure_ai_output (d : ai_data) : exn + list row :=
  let a : acc := ([], 1%Z) in
  let a := each_item format_key_name (fun k => get_or personal_comments k "")
             (personal_info d) a in
  let a := each_item format_first_role_key (fun _ => "")
             (first_role (professional_career d)) a in
  let a := each_item format_current_role_key
             (fun k => get_or professional_comments ("current_" ++ k) "")
             (current_role (professional_career d)) a in
  let a := each_item format_previous_role_key
             (fun k => get_or professional_comments ("previous_" ++ k) "")
             (previous_role (professional_career d)) a in
  let a := bump (put "High School" (high_school (education d)) "" a) in
  let a := bump (put "12th standard pass out year"
                     (passout_year_12th (education d))
                     (get_or education_comments "12th_passout_year" "") a) in
  let a := bump (put "12th overall board score"
                     (board_score_12th (education d))
                     (get_or education_comments "12th_board_score" "") a) in
  let a := each_item format_undergraduate_key
             (fun k => get_or education_comments ("undergraduate_" ++ k) "")
             (undergraduate (education d)) a in
  let a := each_item format_graduation_key
             (fun k => get_or education_comments ("graduation_" ++ k) "")
             (graduation (education d)) a in
  match each_certification 0 (certifications d) a with
  | inl e => inl e
  | inr a =>
      inr (fst (put "Technical Proficiency" "" (technical_proficiency d) a))
  end.

(** [process_document]: the text goes to [simulate_ai_extraction] only. *)
Definition process_document (text_content : string) : exn + list row :=
  structure_ai_output (simulate_ai_extraction text_content).

(** The object: [self.api_key], [self.processed_data] and
    [self.ai_analysis], which no method writes after [__init__]. *)
Record ai_processor : Type := AiProcessor {
  api_key : option string;
  processed_data : list row;
  ai_analysis : dict
}.

(** [api_key or os.getenv("GEMINI_API_KEY")] *)
Definition init (key env_key : option string) : ai_processor :=
  AiProcessor
    (match key with
     | Some (String _ _) => key
     | _ => env_key
     end) [] [].

(** [self.process_document(text_content)]: the rows, and the object as
    the call leaves it. *)
Definition process_document_on (self : ai_processor) (text_content : string)
  : (exn + list row) * ai_processor :=
  (process_document text_content, self).

(** [save_to_excel] and [save_to_json] write the rows they are given;
    [save_to_excel] lets the sheet writer's exception through. *)
Definition save_to_excel (data : list row) (filename : string)
    (fs : DocumentProcessor.files) : (exn + unit) * DocumentProcessor.files :=
  match DocumentProcessor.to_excel data with
  | inr sheet => (inr tt, DocumentProcessor.write filename sheet fs)
  | inl e =>
      (inl e, DocumentProcessor.write filename DocumentProcessor.Unfinished fs)
  end.

Definition save_to_json (data : list row) (filename : string)
    (fs : DocumentProcessor.files) : DocumentProcessor.files :=
  DocumentProcessor.write filename (DocumentProcessor.JsonFile data) fs.

End AIDocumentProcessor.

(** ** JSON text: [json.dump(.., indent=2, default=str, ensure_ascii=False)]
    and [json.load] *)

Module JsonText.

(** The Python values that the two classes hand to [json.dump] and that
    [json.load] gives back; a [dict] is its items in insertion order. *)
#[warnings="-register-all"]
Inductive json : Type :=
| JNull
| JBool (b : bool)
| JInt (z : Z)
| JFloat (f : pyfloat)
| JStr (s : string)
| JArr (items : list json)
| JObj (members : list (string * json)).

Definition json_of_value (v : value) : json :=
  match v with
  | VStr s => JStr s
  | VFloat f => JFloat f
  end.

(** A row as the dict it is. *)
Definition json_of_row (r : row) : json :=
  JObj [("#", JInt (num r)); ("Key", JStr (Key r));
        ("Value", json_of_value (Value r)); ("Comments", JStr (Comments r))].

Definition json_of_rows (rows : list row) : json :=
  JArr (map json_of_row rows).

Definition dq : ascii := ascii_of_nat 34.      (* the double quote *)
Definition bs : ascii := ascii_of_nat 92.      (* the backslash *)

Definition one (c : ascii) : string := String c EmptyString.

(** *** The encoder *)

Definition hex_digit (n : nat) : ascii :=
  match get n "0123456789abcdef" with
  | Some c => c
  | None => "0"%char
  end.

(** [ESCAPE_DCT]: the quote, the backslash and the control characters. *)
Definition escape_char (c : ascii) : string :=
  if Ascii.eqb c dq then String bs (one dq)
  else if Ascii.eqb c bs then String bs (one bs)
  else if Ascii.eqb c (ascii_of_nat 10) then String bs "n"
  else if Ascii.eqb c (ascii_of_nat 13) then String bs "r"
  else if Ascii.eqb c (ascii_of_nat 9) then String bs "t"
  else if Ascii.eqb c (ascii_of_nat 8) then String bs "b"
  else if Ascii.eqb c (ascii_of_nat 12) then String bs "f"
  else if Nat.ltb (Char.code c) 32 then
    String bs (String "u" (String "0" (String "0"
      (String (hex_digit (Char.code c / 16))
              (one (hex_digit (Char.code c mod 16)))))))
  else one c.

Fixpoint escape (s : string) : string :=
  match s with
  | EmptyString => EmptyString
  | String c s' => escape_char c ++ escape s'
  end.

(** [encode_basestring], as [ensure_ascii=False] selects it *)
Definition encode_str (s : string) : string :=
  String dq (escape s ++ one dq).

Fixpoint spaces (n : nat) : string :=
  match n with
  | O => EmptyString
  | S n' => String " " (spaces n')
  end.

(** A new line and the indentation of a nesting level, two spaces each *)
Definition newline_indent (level : nat) : string :=
  String Char.newline (spaces (2 * level)).

Section Encoder.

(** [floatstr]: the text written for a float, [float.__repr__] or one of
    [NaN], [Infinity], [-Infinity]. *)
Variable float_text : pyfloat -> string.

(** [_iterencode] with [indent=2] and the separators [,] and [: ]: the
    items of a list or dict each on a line of their own, indented one
    level more, with a comma between two of them. *)
Fixpoint encode (level : nat) (v : json) : string :=
  match v with
  | JNull => "null"
  | JBool true => "true"
  | JBool false => "false"
  | JInt z => Str.of_Z z
  | JFloat f => float_text f
  | JStr s => encode_str s
  | JArr [] => "[]"
  | JArr xs =>
      "[" ++ newline_indent (S level)
      ++ String.concat ("," ++ newline_indent (S level))
           (map (encode (S level)) xs)
      ++ newline_indent level ++ "]"
  | JObj [] => "{}"
  | JObj ms =>
      "{" ++ newline_indent (S level)
      ++ String.concat ("," ++ newline_indent (S level))
           (map (fun kv => encode_str (fst kv) ++ ": " ++ encode (S level) (snd kv))
                ms)
      ++ newline_indent level ++ "}"
  end.

(** The text [json.dump(rows, f, indent=2, default=str,
    ensure_ascii=False)] writes; [default] is never called on rows, whose
    values are strings, integers and floats. *)
Definition dump (rows : list row) : string :=
  encode 0 (json_of_rows rows).

End Encoder.

(** *** The decoder *)

(** [WHITESPACE]: space, TAB, LF, CR *)
Definition is_ws (c : ascii) : bool :=
  (Ascii.eqb c " " || Ascii.eqb c (ascii_of_nat 9)
   || Ascii.eqb c (ascii_of_nat 10) || Ascii.eqb c (ascii_of_nat 13))%bool.

Fixpoint skip_ws (s : string) : string :=
  match s with
  | String c s' => if is_ws c then skip_ws s' else s
  | EmptyString => EmptyString
  end.

Definition hex_value (c : ascii) : option nat :=
  if Char.is_digit c then Some (Char.code c - 48)
  else if Char.between 97 102 c then Some (Char.code c - 87)
  else if Char.between 65 70 c then Some (Char.code c - 55)
  else None.

(** [BACKSLASH]: the character after a backslash *)
Definition unescape (c : ascii) : option ascii :=
  if Ascii.eqb c dq then Some dq
  else if Ascii.eqb c bs then Some bs
  else if Ascii.eqb c "/" then Some "/"%char
  else if Ascii.eqb c "b" then Some (ascii_of_nat 8)
  else if Ascii.eqb c "f" then Some (ascii_of_nat 12)
  else if Ascii.eqb c "n" then Some (ascii_of_nat 10)
  else if Ascii.eqb c "r" then Some (ascii_of_nat 13)
  else if Ascii.eqb c "t" then Some (ascii_of_nat 9)
  else None.

Definition cons_to (c : ascii) (r : option (string * string))
  : option (string * string) :=
  match r with
  | Some (t, rest) => Some (String c t, rest)
  | None => None
  end.

(** [scanstring] in strict mode, from after the opening quote: the text
    of the string and what follows the closing quote.  A [\uXXXX] escape
    above the alphabet of the model is given as a failure. *)
Fixpoint scanstring (s : string) : option (string * string) :=
  match s with
  | EmptyString => None
  | String c s' =>
      if Ascii.eqb c dq then Some (EmptyString, s')
      else if Ascii.eqb c bs then
        match s' with
        | EmptyString => None
        | String e s'' =>
            if Ascii.eqb e "u" then
              match s'' with
              | String h1 (String h2 (String h3 (String h4 s3))) =>
                  match hex_value h1, hex_value h2, hex_value h3, hex_value h4 with
                  | Some a, Some b, Some c', Some d =>
                      let n := ((a * 16 + b) * 16 + c') * 16 + d in
                      if Nat.ltb n 256 then cons_to (ascii_of_nat n) (scanstring s3)
                      else None
                  | _, _, _, _ => None
                  end
              | _ => None
              end
            else
              match unescape e with
              | Some ch => cons_to ch (scanstring s'')
              | None => None
              end
        end
      else if Nat.ltb (Char.code c) 32 then None
      else cons_to c (scanstring s')
  end.

(** The longest run of digits at the head *)
Fixpoint span_digits (s : string) : string * string :=
  match s with
  | String c s' =>
      if Char.is_digit c then
        let (ds, rest) := span_digits s' in (String c ds, rest)
      else (EmptyString, s)
  | EmptyString => (EmptyString, EmptyString)
  end.

(** [NUMBER_RE]: an optional minus sign and either [0] or a digit from 1
    to 9 followed by digits; then, each optional, a fraction [\.[0-9]+]
    and an exponent [[eE][-+]?[0-9]+]. *)
Definition int_part (s : string) : option (string * string) :=
  match s with
  | String c s' =>
      if Ascii.eqb c "0" then Some ("0", s')
      else if Char.is_digit c then
        let (ds, rest) := span_digits s' in Some (String c ds, rest)
      else None
  | EmptyString => None
  end.

Definition frac_part (s : string) : string * string :=
  match s with
  | String c s' =>
      if Ascii.eqb c "." then
        match span_digits s' with
        | (EmptyString, _) => (EmptyString, s)
        | (ds, rest) => (String c ds, rest)
        end
      else (EmptyString, s)
  | EmptyString => (EmptyString, s)
  end.

Definition exp_digits (prefix : string) (whole s : string) : string * string :=
  match span_digits s with
  | (EmptyString, _) => (EmptyString, whole)
  | (ds, rest) => (prefix ++ ds, rest)
  end.

Definition exp_part (s : string) : string * string :=
  match s with
  | String e s' =>
      if (Ascii.eqb e "e" || Ascii.eqb e "E")%bool then
        match s' with
        | String g s'' =>
            if (Ascii.eqb g "-" || Ascii.eqb g "+")%bool
            then exp_digits (String e (one g)) s s''
            else exp_digits (one e) s s'
        | EmptyString => (EmptyString, s)
        end
      else (EmptyString, s)
  | EmptyString => (EmptyString, s)
  end.

(** [int(text)] of a run of digits *)
Definition int_of_digits (ds : string) : option Z :=
  match NilEmpty.uint_of_string ds with
  | Some d => Some (Z.of_nat (Nat.of_uint d))
  | None => None
  end.

(** [match_number]: an integer when the text has no fraction and no
    exponent, otherwise [float] of the text. *)
Definition scan_number (s : string) : option (json * string) :=
  let (sign, s1) :=
    match s with
    | String c s' => if Ascii.eqb c "-" then ("-", s') else (EmptyString, s)
    | EmptyString => (EmptyString, s)
    end in
  match int_part s1 with
  | None => None
  | Some (ip, s2) =>
      let (frac, s3) := frac_part s2 in
      let (ex, s4) := exp_part s3 in
      match frac, ex with
      | EmptyString, EmptyString =>
          match int_of_digits ip with
          | Some z =>
              Some (JInt (match sign with EmptyString => z | _ => (- z)%Z end), s4)
          | None => None
          end
      | _, _ => Some (JFloat (FloatOfStr (sign ++ ip ++ frac ++ ex)), s4)
      end
  end.

(** [s[idx:idx+n] == word] *)
Fixpoint strip_prefix (word s : string) : option string :=
  match word, s with
  | EmptyString, _ => Some s
  | String a w', String b s' => if Ascii.eqb a b then strip_prefix w' s' else None
  | String _ _, EmptyString => None
  end.

(** [dict(pairs)]: a key met again keeps its place and takes the new
    value. *)
Fixpoint dict_set (k : string) (v : json) (ms : list (string * json))
  : list (string * json) :=
  match ms with
  | [] => [(k, v)]
  | (k', v') :: ms' =>
      if String.eqb k' k then (k', v) :: ms' else (k', v') :: dict_set k v ms'
  end.

Section Scanner.

(** [scan_once] on the nested values *)
Variable scan : string -> option (json * string).

(** The loop of [JSONArray], from the first value on *)
Fixpoint array_loop (n : nat) (s : string) : option (list json * string) :=
  match n with
  | O => None
  | S n' =>
      match scan s with
      | None => None
      | Some (v, s1) =>
          match skip_ws s1 with
          | String c r =>
              if Ascii.eqb c "]" then Some ([v], r)
              else if Ascii.eqb c "," then
                match array_loop n' (skip_ws r) with
                | Some (vs, r') => Some (v :: vs, r')
                | None => None
                end
              else None
          | EmptyString => None
          end
      end
  end.

Definition parse_array (n : nat) (s : string) : option (json * string) :=
  match skip_ws s with
  | String c r =>
      if Ascii.eqb c "]" then Some (JArr [], r)
      else
        match array_loop n (skip_ws s) with
        | Some (vs, r') => Some (JArr vs, r')
        | None => None
        end
  | EmptyString => None
  end.

(** The loop of [JSONObject], from after the opening quote of a key *)
Fixpoint object_loop (n : nat) (s : string) (acc : list (string * json))
  : option (list (string * json) * string) :=
  match n with
  | O => None
  | S n' =>
      match scanstring s with
      | None => None
      | Some (k, s1) =>
          match skip_ws s1 with
          | String c s2 =>
              if Ascii.eqb c ":" then
                match scan (skip_ws s2) with
                | None => None
                | Some (v, s3) =>
                    let acc' := dict_set k v acc in
                    match skip_ws s3 with
                    | String c' r =>
                        if Ascii.eqb c' "}" then Some (acc', r)
                        else if Ascii.eqb c' "," then
                          match skip_ws r with
                          | String q r' =>
                              if Ascii.eqb q dq then object_loop n' r' acc'
                              else None
                          | EmptyString => None
                          end
                        else None
                    | EmptyString => None
                    end
                end
              else None
          | EmptyString => None
          end
      end
  end.

Definition parse_object (n : nat) (s : string) : option (json * string) :=
  match skip_ws s with
  | String c r =>
      if Ascii.eqb c "}" then Some (JObj [], r)
      else if Ascii.eqb c dq then
        match object_loop n r [] with
        | Some (ms, r') => Some (JObj ms, r')
        | None => None
        end
      else None
  | EmptyString => None
  end.

End Scanner.

Definition constant (word : string) (v : json) (s : string)
  : option (json * string) :=
  match strip_prefix word s with
  | Some rest => Some (v, rest)
  | None => None
  end.

(** [scan_once]; the fuel bounds the nesting and the length of the
    loops, and the length of the text is enough of it. *)
Fixpoint scan_once (fuel : nat) (s : string) : option (json * string) :=
  match fuel with
  | O => None
  | S fuel' =>
      match s with
      | EmptyString => None
      | String c s' =>
          if Ascii.eqb c dq then
            match scanstring s' with
            | Some (t, rest) => Some (JStr t, rest)
            | None => None
            end
          else if Ascii.eqb c "{" then parse_object (scan_once fuel') fuel' s'
          else if Ascii.eqb c "[" then parse_array (scan_once fuel') fuel' s'
          else if Ascii.eqb c "n" then constant "null" JNull s
          else if Ascii.eqb c "t" then constant "true" (JBool true) s
          else if Ascii.eqb c "f" then constant "false" (JBool false) s
          else
            match scan_number s with
            | Some r => Some r
            | None =>
                if Ascii.eqb c "N" then constant "NaN" (JFloat (FloatOfStr "nan")) s
                else if Ascii.eqb c "I" then
                  constant "Infinity" (JFloat (FloatOfStr "inf")) s
                else if Ascii.eqb c "-" then
                  constant "-Infinity" (JFloat (FloatOfStr "-inf")) s
                else None
            end
      end
  end.

(** [json.load]: one value, white space around it, and nothing more *)
Definition loads (s : string) : option json :=
  match scan_once (String.length s) (skip_ws s) with
  | Some (v, rest) =>
      match skip_ws rest with
      | EmptyString => Some v
      | String _ _ => None
      end
  | None => None
  end.

End JsonText.

(** ** Vocabulary of the properties *)

(** The numbers 1, 2, ..., n. *)
Definition one_to (n : nat) : list Z := map Z.of_nat (seq 1 n).

(** [subseq l m]: [l] is [m] with some of its elements left out. *)
Inductive subseq {A : Type} : list A -> list A -> Prop :=
| subseq_nil : subseq [] []
| subseq_skip : forall x l m, subseq l m -> subseq l (x :: m)
| subseq_take : forall x l m, subseq l m -> subseq (x :: l) (x :: m).

(** The rows one pass of the five [extract_*] methods appends. *)
Definition all_rows (text : string) : list row :=
  DocumentProcessor.personal_rows text
  ++ DocumentProcessor.professional_rows text
  ++ DocumentProcessor.education_rows text
  ++ DocumentProcessor.certification_rows text
  ++ DocumentProcessor.technical_rows text.

(** The log entries one successful [process_all] appends when it leaves
    [n] rows in the object. *)
Definition run_log (n : nat) : list log_entry :=
  [LogStart; LogExtracted Personal; LogExtracted Professional;
   LogExtracted Education; LogExtracted Certifications;
   LogExtracted Technical; LogComplete n].

(** The invariant of the loops of [structure_ai_output]: the rows so far
    are numbered from 1, and [record_num] is the next number. *)
Definition numbered (a : AIDocumentProcessor.acc) : Prop :=
  map num (fst a) = one_to (List.length (fst a))
  /\ snd a = (Z.of_nat (List.length (fst a)) + 1)%Z.

(** The text of the scenario about Alice Smith. *)
Definition alice_text : string :=
  "Alice Smith was born on June 5, 1990, in Pune, Maharashtra, making him 34 years old as of 2024.".

(** The four date fields of the pattern path: the pattern, the group
    that holds the date text, and the number, the key and the fallback
    value of the row. *)
Record date_field : Type := DateField {
  df_pattern : Re.regex;
  df_group : nat;
  df_num : Z;
  df_key : string;
  df_fallback : string
}.

Definition date_fields : list date_field :=
  [DateField DocumentProcessor.dob_pattern 1 3
     "Date of Birth" "1989-03-15 00:00:00";
   DateField DocumentProcessor.first_job_pattern 1 9
     "Joining Date of first professional role" "2012-07-01 00:00:00";
   DateField DocumentProcessor.current_job_pattern 2 14
     "Current Joining Date" "2021-06-15 00:00:00";
   DateField DocumentProcessor.prev_job_pattern 2 19
     "Previous Joining Date" "2018-02-01 00:00:00"].

(** A text whose date of birth is no date. *)
Definition bad_date_text : string := "He was born on Foo 99, 1990.".

(** The field rules of the pattern path: the pattern searched, the
    pattern of the enclosing [if], if any, and the keys of the rows
    appended when both are found. *)
Record field_rule : Type := FieldRule {
  fr_pattern : Re.regex;
  fr_guard : option Re.regex;
  fr_keys : list string
}.

Definition field_rules : list field_rule :=
  [FieldRule DocumentProcessor.name_pattern None ["First Name"; "Last Name"];
   FieldRule DocumentProcessor.dob_pattern None ["Date of Birth"];
   FieldRule DocumentProcessor.birth_pattern None ["Birth City"; "Birth State"];
   FieldRule DocumentProcessor.age_pattern None ["Age"];
   FieldRule DocumentProcessor.blood_pattern None ["Blood Group"];
   FieldRule DocumentProcessor.nationality_pattern None ["Nationality"];
   FieldRule DocumentProcessor.first_job_pattern None
     ["Joining Date of first professional role";
      "Designation of first professional role";
      "Salary of first professional role";
      "Salary currency of first professional role"];
   FieldRule DocumentProcessor.current_job_pattern None
     ["Current Organization"; "Current Joining Date"; "Current Designation";
      "Current Salary"; "Current Salary Currency"];
   FieldRule DocumentProcessor.prev_job_pattern None
     ["Previous Organization"; "Previous Joining Date"; "Previous end year"];
   FieldRule DocumentProcessor.prev_designation_pattern
     (Some DocumentProcessor.prev_job_pattern) ["Previous Starting Designation"];
   FieldRule DocumentProcessor.hs_pattern None ["High School"];
   FieldRule DocumentProcessor.year12_pattern None ["12th standard pass out year"];
   FieldRule DocumentProcessor.score12_pattern None ["12th overall board score"];
   FieldRule DocumentProcessor.ug_pattern None ["Undergraduate degree"];
   FieldRule DocumentProcessor.ug_college_pattern None ["Undergraduate college"];
   FieldRule DocumentProcessor.ug_year_pattern None ["Undergraduate year"];
   FieldRule DocumentProcessor.ug_cgpa_pattern None ["Undergraduate CGPA"];
   FieldRule DocumentProcessor.grad_pattern None ["Graduation degree"];
   FieldRule DocumentProcessor.grad_college_pattern None ["Graduation college"];
   FieldRule DocumentProcessor.grad_cgpa_pattern None ["Graduation CGPA"];
   FieldRule DocumentProcessor.aws_pattern None ["Certifications 1"];
   FieldRule DocumentProcessor.azure_pattern None ["Certifications 2"];
   FieldRule DocumentProcessor.pmp_pattern None ["Certifications 3"];
   FieldRule DocumentProcessor.safe_pattern None ["Certifications 4"];
   FieldRule DocumentProcessor.tech_pattern None ["Technical Proficiency"]].

Definition is_match (r : Re.regex) (text : string) : bool :=
  match Re.search r text with
  | Some _ => true
  | None => false
  end.

(** The rule is found: its pattern matches, and so does the pattern of
    the enclosing [if]. *)
Definition rule_matches (r : field_rule) (text : string) : bool :=
  (is_match (fr_pattern r) text
   && match fr_guard r with
      | Some g => is_match g text
      | None => true
      end)%bool.

(** The log entries that speak of the run as a whole or of a whole
    section, and of no single field. *)
Definition about_sections (l : log_entry) : bool :=
  match l with
  | LogStart | LogExtracted _ | LogComplete _ => true
  | _ => false
  end.

(** What may follow a number in a text: nothing, or a character that no
    number contains. *)
Definition delimited (rest : string) : bool :=
  match rest with
  | EmptyString => true
  | String c _ =>
      negb (Char.is_digit c || Ascii.eqb c "." || Ascii.eqb c "e"
            || Ascii.eqb c "E" || Ascii.eqb c "+" || Ascii.eqb c "-")
  end.

(** The text written for a float is a JSON number with a fraction or an
    exponent, as [float.__repr__] gives for a finite float. *)
Definition is_float_token (t : string) : bool :=
  match JsonText.scan_number t with
  | Some (JsonText.JFloat (FloatOfStr t'), EmptyString) => String.eqb t' t
  | _ => false
  end.

(** A row as [json.load] gives it back: a float is [float] of the text
    written for it. *)
Definition reread_value (float_text : pyfloat -> string) (v : value) : value :=
  match v with
  | VStr s => VStr s
  | VFloat f => VFloat (FloatOfStr (float_text f))
  end.

Definition reread (float_text : pyfloat -> string) (r : row) : row :=
  Row (num r) (Key r) (reread_value float_text (Value r)) (Comments r).

(** The rows whose values are all strings, as on the structured path. *)
Definition all_strings (rows : list row) : bool :=
  forallb (fun r => match Value r with VStr _ => true | VFloat _ => false end) rows.

(** The characters a number can start with *)
Definition number_head (c : ascii) : bool :=
  (Char.is_digit c || Ascii.eqb c "-")%bool.

(** [reads scan text v]: before a delimiter the text is read as [v], and
    it does not start with white space. *)
Definition reads (scan : string -> option (JsonText.json * string))
    (text : string) (v : JsonText.json) : Prop :=
  forall tail, delimited tail = true ->
    scan (text ++ tail) = Some (v, tail)
    /\ JsonText.skip_ws (text ++ tail) = (text ++ tail)%string.

(** The text written for the value of a row *)
Definition value_text (float_text : pyfloat -> string) (v : value) : string :=
  match v with
  | VStr s => JsonText.encode_str s
  | VFloat f => float_text f
  end.

(** The floats among the values are written as JSON numbers. *)
Definition value_ok (float_text : pyfloat -> string) (v : value) : bool :=
  match v with
  | VStr _ => true
  | VFloat f => is_float_token (float_text f)
  end.

(** The texts of the rows of a list, a comma and a new line between two
    of them *)
Definition json_items (float_text : pyfloat -> string) (rows : list row)
  : string :=
  String.concat ("," ++ JsonText.newline_indent 1)
    (map (JsonText.encode float_text 1) (map JsonText.json_of_row rows)).

(** The row that needs no match *)
Definition graduation_year : row := Row 31 "Graduation year" (VStr "2013") "".

(** [infix t s]: the characters [t] stand somewhere in [s], side by
    side. *)
Definition infix (t s : list ascii) : Prop :=
  exists pre post, s = (pre ++ t ++ post)%list.

(** [substring t text]: what Python writes [t in text]. *)
Definition substring (t text : string) : Prop :=
  infix (Str.chars t) (Str.chars text).

(** The captured groups are all cut out of [s]. *)
Definition caps_within (s : list ascii) (cs : Re.caps) : Prop :=
  Forall (fun nt => infix (Str.chars (snd nt)) s) cs.

(** What [Re.run] hands to its continuation when it gives a result: a
    tail of the input, and the groups it had with new ones before them,
    each cut out of the input. *)
Definition reaches {R : Type} (s : list ascii) (cs : Re.caps)
    (kont : @Re.cont R) (res : R) : Prop :=
  exists pre s' pos' new,
    s = (pre ++ s')%list /\ caps_within s new
    /\ kont s' pos' (new ++ cs)%list = Some res.

(** The number and the key of the 37 fields of the pattern path *)
Definition field_table : list (Z * string) :=
  [(1, "First Name"); (2, "Last Name"); (3, "Date of Birth");
   (4, "Birth City"); (5, "Birth State"); (6, "Age"); (7, "Blood Group");
   (8, "Nationality");
   (9, "Joining Date of first professional role");
   (10, "Designation of first professional role");
   (11, "Salary of first professional role");
   (12, "Salary currency of first professional role");
   (13, "Current Organization"); (14, "Current Joining Date");
   (15, "Current Designation"); (16, "Current Salary");
   (17, "Current Salary Currency");
   (18, "Previous Organization"); (19, "Previous Joining Date");
   (20, "Previous end year"); (21, "Previous Starting Designation");
   (22, "High School"); (23, "12th standard pass out year");
   (24, "12th overall board score"); (25, "Undergraduate degree");
   (26, "Undergraduate college"); (27, "Undergraduate year");
   (28, "Undergraduate CGPA"); (29, "Graduation degree");
   (30, "Graduation college"); (31, "Graduation year");
   (32, "Graduation CGPA");
   (33, "Certifications 1"); (34, "Certifications 2");
   (35, "Certifications 3"); (36, "Certifications 4");
   (37, "Technical Proficiency")]%Z.

Definition num_key (r : row) : Z * string := (num r, Key r).

(** The keys of the rows whose value is a group of the match as it
    stands, with nothing added, removed or converted *)
Definition verbatim_keys : list string :=
  ["First Name"; "Last Name"; "Birth City"; "Birth State"; "Nationality";
   "Designation of first professional role";
   "Salary currency of first professional role";
   "Current Organization"; "Current Designation"; "Current Salary Currency";
   "Previous Organization"; "Previous end year";
   "Previous Starting Designation"; "High School";
   "12th standard pass out year"; "Undergraduate college";
   "Undergraduate year"].

Definition salary_keys : list string :=
  ["Salary of first professional role"; "Current Salary"].

Definition has_char (c : ascii) (s : string) : bool :=
  existsb (Ascii.eqb c) (Str.chars s).

Fixpoint distinct (l : list string) : bool :=
  match l with
  | [] => true
  | x :: l' => (negb (existsb (String.eqb x) l') && distinct l')%bool
  end.

(** A text in which the pattern of the starting designation is found
    and that of the previous job is not *)
Definition designation_only_text : string :=
  "at LakeCorp Solutions starting as a Data Analyst and".

(** A text with the first job of the sample document on one line *)
Definition first_job_text : string :=
  "professional journey began on July 1, 2012, when he joined his first company as a Junior Developer with an annual salary of 350,000 INR.".

(** The names of the certifications, as far as they have one *)
Definition has_name (cert : AIDocumentProcessor.dict) : bool :=
  match AIDocumentProcessor.get "name" cert with
  | Some _ => true
  | None => false
  end.

Definition name_of (cert : AIDocumentProcessor.dict) : string :=
  AIDocumentProcessor.get_or cert "name" "".

(** The values of the nested data in the order [structure_ai_output]
    visits them: the personal information, the first, the current and
    the previous role, the three school fields, the undergraduate and
    the graduation record, the names of the certifications, and the
    empty value of the last row. *)
Definition values_in_order (d : AIDocumentProcessor.ai_data) : list string :=
  (map snd (AIDocumentProcessor.personal_info d)
   ++ map snd (AIDocumentProcessor.first_role (AIDocumentProcessor.professional_career d))
   ++ map snd (AIDocumentProcessor.current_role (AIDocumentProcessor.professional_career d))
   ++ map snd (AIDocumentProcessor.previous_role (AIDocumentProcessor.professional_career d))
   ++ [AIDocumentProcessor.high_school (AIDocumentProcessor.education d);
       AIDocumentProcessor.passout_year_12th (AIDocumentProcessor.education d);
       AIDocumentProcessor.board_score_12th (AIDocumentProcessor.education d)]
   ++ map snd (AIDocumentProcessor.undergraduate (AIDocumentProcessor.education d))
   ++ map snd (AIDocumentProcessor.graduation (AIDocumentProcessor.education d))
   ++ map name_of (AIDocumentProcessor.certifications d)
   ++ [EmptyString])%list.

(** The labels in the same order *)
Definition keys_in_order (d : AIDocumentProcessor.ai_data) : list string :=
  (map (fun kv => AIDocumentProcessor.format_key_name (fst kv))
       (AIDocumentProcessor.personal_info d)
   ++ map (fun kv => AIDocumentProcessor.format_first_role_key (fst kv))
        (AIDocumentProcessor.first_role (AIDocumentProcessor.professional_career d))
   ++ map (fun kv => AIDocumentProcessor.format_current_role_key (fst kv))
        (AIDocumentProcessor.current_role (AIDocumentProcessor.professional_career d))
   ++ map (fun kv => AIDocumentProcessor.format_previous_role_key (fst kv))
        (AIDocumentProcessor.previous_role (AIDocumentProcessor.professional_career d))
   ++ ["High School"; "12th standard pass out year"; "12th overall board score"]
   ++ map (fun kv => AIDocumentProcessor.format_undergraduate_key (fst kv))
        (AIDocumentProcessor.undergraduate (AIDocumentProcessor.education d))
   ++ map (fun kv => AIDocumentProcessor.format_graduation_key (fst kv))
        (AIDocumentProcessor.graduation (AIDocumentProcessor.education d))
   ++ map (fun i => ("Certifications " ++ Str.of_nat (i + 1))%string)
        (seq 0 (List.length (AIDocumentProcessor.certifications d)))
   ++ ["Technical Proficiency"])%list.

(** Nested data in which the second certification has no name *)
Definition nameless_data : AIDocumentProcessor.ai_data :=
  AIDocumentProcessor.AiData
    [("first_name", "Vijay")]
    (AIDocumentProcessor.Career [] [] [])
    (AIDocumentProcessor.Schooling "" "" "" [] [])
    [[("name", "AWS Solutions Architect")]; [("year", "2020")]]
    "".

(** A text with the previous job of the sample document on one line *)
Definition previous_job_text : string :=
  "he worked at LakeCorp Solutions from February 1, 2018, to 2021, starting as a Data Analyst and earning a promotion".

(** A text without the control characters that the sheet writer
    refuses. *)
Definition clean (s : string) : bool :=
  negb (existsb DocumentProcessor.illegal_character (Str.chars s)).

Definition row_clean (r : row) : bool :=
  (clean (Key r)
   && match Value r with VStr s => clean s | VFloat _ => true end
   && clean (Comments r))%bool.

(** The previous job of the sample document, a form feed in the name of
    the organisation *)
Definition form_feed_text : string :=
  "he worked at Lake"
  ++ String (ascii_of_nat 12) "Corp from February 1, 2018, to 2021".

(** The field of key [k] is written on [text]: the rule that appends it
    is found, or it is the field that is appended without a match. *)
Definition found (text : string) (k : string) : bool :=
  (String.eqb k "Graduation year"
   || existsb (fun r => existsb (String.eqb k) (fr_keys r) && rule_matches r text)
        field_rules)%bool.

(** The fields of the table that are written on [text], in table order. *)
Definition fields_found (text : string) : list (Z * string) :=
  filter (fun nk => found text (snd nk)) field_table.

(** The four certifications of the pattern path: the pattern searched,
    and the number, the label and the name written in the row. *)
Definition pattern_certifications : list (Re.regex * (Z * string * value)) :=
  [(DocumentProcessor.aws_pattern,
    (33%Z, "Certifications 1", VStr "AWS Solutions Architect"));
   (DocumentProcessor.azure_pattern,
    (34%Z, "Certifications 2", VStr "Azure Data Engineer"));
   (DocumentProcessor.pmp_pattern,
    (35%Z, "Certifications 3",
     VStr "Project Management Professional certification"));
   (DocumentProcessor.safe_pattern,
    (36%Z, "Certifications 4", VStr "SAFe Agilist certification"))].

Definition labelled (r : row) : Z * string * value := (num r, Key r, Value r).

(** A text that names the second certification only *)
Definition azure_text : string :=
  "the Azure Data Engineer certification in 2020 with 875 points".

(** The text of a file, as [f.read()] gives it: for the JSON file, the
    text that [json.dump] writes.  A sheet is no text. *)
Definition file_text (float_text : pyfloat -> string)
    (f : DocumentProcessor.file) : option string :=
  match f with
  | DocumentProcessor.JsonFile data => Some (JsonText.dump float_text data)
  | DocumentProcessor.TextFile t => Some t
  | _ => None
  end.

(** [json.load] on the file of that name *)
Definition load_json (float_text : pyfloat -> string) (name : string)
    (fs : DocumentProcessor.files) : option JsonText.json :=
  match DocumentProcessor.read name fs with
  | Some f =>
      match file_text float_text f with
      | Some t => JsonText.loads t
      | None => None
      end
  | None => None
  end.

(** * Properties *)

Open Scope list_scope.

(** ** The patterns are those of the source *)

Lemma pattern_texts :
  map ReShow.show DocumentProcessor.patterns =
  ["^(\w+)\s+(\w+)\s+was\s+born";
   "born\s+on\s+(\w+\s+\d+,\s+\d+)";
   "born\s+on\s+.*?,\s+(\d+),\s+in\s+(\w+),\s+(\w+)";
   "making\s+him\s+(\d+)\s+years\s+old";
   "O\+\s+blood\s+group";
   "As\s+an\s+(\w+)\s+national";
   "professional\s+journey\s+began\s+on\s+(\w+\s+\d+,\s+\d+).*?as\s+a\s+(.*?)\s+with\s+an\s+annual\s+salary\s+of\s+(\d+(?:,\d+)?)\s+(\w+)";
   "current\s+role\s+at\s+(.*?)\s+beginning\s+on\s+(\w+\s+\d+,\s+\d+).*?as\s+a\s+(.*?)\s+earning\s+(\d+(?:,\d+)?)\s+(\w+)";
   "worked\s+at\s+(.*?)\s+from\s+(\w+\s+\d+,\s+\d+).*?(\d{4})";
   "at\s+LakeCorp\s+Solutions.*starting\s+as\s+a\s+(.*?)\s+and";
   "high\s+school\s+education\s+at\s+(.*?),\s+where\s+he\s+completed";
   "12th\s+standard\s+in\s+(\d+)";
   "outstanding\s+(\d+\.\d+)%\s+overall\s+score";
   "B\.Tech\s+in\s+(\w+\s+\w+)";
   "prestigious\s+(\w+\s+\w+),\s+graduating";
   "graduating\s+with\s+honors\s+in\s+(\d+)";
   "CGPA\s+of\s+(\d+\.\d+)\s+on\s+a\s+10-point\s+scale";
   "M\.Tech\s+in\s+(\w+\s+\w+)";
   "IIT\s+Bombay,\s+where\s+he\s+earned";
   "achieving\s+an\s+exceptional\s+CGPA\s+of\s+(\d+\.\d+)";
   "AWS\s+Solutions\s+Architect\s+exam\s+in\s+(\d+)\s+with\s+a\s+score\s+of\s+(\d+)";
   "Azure\s+Data\s+Engineer\s+certification\s+in\s+(\d+)\s+with\s+(\d+)\s+points";
   "Project\s+Management\s+Professional\s+certification,\s+obtained\s+in\s+(\d+)";
   "SAFe\s+Agilist\s+certification\s+earned\s+him\s+an\s+outstanding\s+(\d+)%";
   "In\s+terms\s+of\s+technical\s+proficiency.*"].
Proof. vm_compute. reflexivity. Qed.

(** ** Subsequences *)

Section Subseq.

Context {A : Type}.

Lemma subseq_refl (l : list A) : subseq l l.
Proof. induction l; constructor; assumption. Qed.

Lemma subseq_nil_l (l : list A) : subseq [] l.
Proof. induction l; constructor; assumption. Qed.

Lemma subseq_app (l1 l2 m1 m2 : list A) :
  subseq l1 m1 -> subseq l2 m2 -> subseq (l1 ++ l2) (m1 ++ m2).
Proof.
  intros H1 H2. induction H1; simpl.
  - assumption.
  - apply subseq_skip, IHsubseq.
  - apply subseq_take, IHsubseq.
Qed.

Lemma subseq_length (l m : list A) : subseq l m -> (List.length l <= List.length m)%nat.
Proof. induction 1; simpl; lia. Qed.

Lemma subseq_In (l m : list A) x : subseq l m -> In x l -> In x m.
Proof.
  induction 1; simpl; intros Hin.
  - assumption.
  - right. auto.
  - destruct Hin as [-> | Hin]; [left; reflexivity | right; auto].
Qed.

(** A subsequence as long as the whole is the whole. *)
Lemma subseq_full (l m : list A) :
  subseq l m -> List.length l = List.length m -> l = m.
Proof.
  induction 1; simpl; intros Hlen.
  - reflexivity.
  - apply subseq_length in H. lia.
  - f_equal. apply IHsubseq. lia.
Qed.

Lemma subseq_sorted (R : A -> A -> Prop) (l m : list A) :
  subseq l m -> StronglySorted R m -> StronglySorted R l.
Proof.
  induction 1; intros Hs.
  - constructor.
  - inversion Hs; subst. auto.
  - inversion Hs as [| ? ? Hs' Hall]; subst. constructor; [auto |].
    rewrite Forall_forall in *. intros y Hy. apply Hall.
    eapply subseq_In; eassumption.
Qed.

End Subseq.

(** ** One pass of the pattern path *)

Module PatternFacts.

Import DocumentProcessor.

Lemma no_text_false (p : processor) (text : string) :
  text_content p = Some text -> text <> "" -> no_text p = false.
Proof.
  intros H Hne. unfold no_text. rewrite H.
  destruct text; [contradiction | reflexivity].
Qed.

(** One [extract_*] method on an object that has a text. *)
Lemma extract_on_text (s : section) (rows : string -> list row)
    (text : string) (data : list row) (lg : list log_entry) :
  extract s rows (Processor (Some text) data lg)
  = Processor (Some text) (data ++ rows text) (lg ++ [LogExtracted s]).
Proof. reflexivity. Qed.

(** On a text that is not empty [process_all] returns: it appends the
    rows of the five sections and seven log entries. *)
Lemma process_all_appends (p : processor) (text : string) :
  text_content p = Some text -> text <> "" ->
  process_all p =
  (inr (extracted_data p ++ all_rows text),
   Processor (Some text) (extracted_data p ++ all_rows text)
     (processing_log p
      ++ run_log (List.length (extracted_data p ++ all_rows text)))).
Proof.
  intros H Hne. destruct p as [tc data lg].
  cbn [text_content] in H. subst tc.
  unfold process_all.
  rewrite (no_text_false (Processor (Some text) data lg) text eq_refl Hne).
  cbv zeta.
  unfold extract_personal_info, extract_professional_info,
    extract_education_info, extract_certifications,
    extract_technical_proficiency.
  change (log LogStart (Processor (Some text) data lg))
    with (Processor (Some text) data (lg ++ [LogStart])).
  rewrite !extract_on_text.
  unfold log. cbn [text_content extracted_data processing_log].
  unfold all_rows, run_log.
  repeat rewrite <- app_assoc. reflexivity.
Qed.

Lemma process_all_fresh (text : string) :
  text <> "" ->
  process_all (init (Some text)) =
  (inr (all_rows text),
   Processor (Some text) (all_rows text)
     (run_log (List.length (all_rows text)))).
Proof.
  intros Hne.
  rewrite (process_all_appends (init (Some text)) text eq_refl Hne).
  reflexivity.
Qed.

Lemma process_all_no_text (p : processor) :
  no_text p = true ->
  process_all p =
  (inl (ValueError "No text content provided. Please load content first."), p).
Proof. intros H. unfold process_all. rewrite H. reflexivity. Qed.

(** A block under [if m:] whose rows carry fixed numbers. *)
Lemma when_nums {X : Type} (o : option X) (f : X -> list row) (ns : list Z) :
  (forall x, map num (f x) = ns) -> subseq (map num (when o f)) ns.
Proof.
  intros H. destruct o; simpl.
  - rewrite H. apply subseq_refl.
  - apply subseq_nil_l.
Qed.

Ltac nums_block :=
  repeat rewrite map_app;
  repeat first
    [ apply (subseq_app (A := Z))
    | apply when_nums; intros; reflexivity
    | apply subseq_refl ].

Lemma personal_nums (text : string) :
  subseq (map num (personal_rows text)) ([1; 2] ++ [3] ++ [4; 5] ++ [6] ++ [7] ++ [8])%Z.
Proof. unfold personal_rows. nums_block. Qed.

Lemma previous_nums (text : string) (m : Re.match_obj) :
  subseq
    (map num
       ([Row 18 "Previous Organization" (VStr (Re.group m 1)) "";
         Row 19 "Previous Joining Date"
           (VStr (Date.iso_or "2018-02-01 00:00:00" (Re.group m 2))) "";
         Row 20 "Previous end year" (VStr (Re.group m 3)) ""]
        ++ when (Re.search prev_designation_pattern text) (fun m' =>
             [Row 21 "Previous Starting Designation" (VStr (Re.group m' 1))
                "Promoted in 2019"])))
    ([18; 19; 20] ++ [21])%Z.
Proof. nums_block. Qed.

Lemma professional_nums (text : string) :
  subseq (map num (professional_rows text))
         ([9; 10; 11; 12] ++ [13; 14; 15; 16; 17] ++ [18; 19; 20] ++ [21])%Z.
Proof.
  unfold professional_rows. repeat rewrite map_app.
  apply (subseq_app (A := Z)); [nums_block |].
  apply (subseq_app (A := Z)); [nums_block |].
  destruct (Re.search prev_job_pattern text) as [m |]; cbn [when].
  - apply previous_nums.
  - apply subseq_nil_l.
Qed.

Lemma education_nums (text : string) :
  subseq (map num (education_rows text))
         ([22] ++ [23] ++ [24] ++ [25] ++ [26] ++ [27] ++ [28] ++ [29] ++ [30]
          ++ [31] ++ [32])%Z.
Proof. unfold education_rows. nums_block. Qed.

Lemma certification_nums (text : string) :
  subseq (map num (certification_rows text)) ([33] ++ [34] ++ [35] ++ [36])%Z.
Proof. unfold certification_rows. nums_block. Qed.

Lemma technical_nums (text : string) :
  subseq (map num (technical_rows text)) [37]%Z.
Proof. unfold technical_rows. nums_block. Qed.

(** Every row carries the number of its field: the numbers of one pass
    are 1, ..., 37 with those of the missing fields left out. *)
Lemma all_rows_nums (text : string) :
  subseq (map num (all_rows text)) (one_to 37).
Proof.
  unfold all_rows. repeat rewrite map_app.
  change (one_to 37) with
    (([1; 2] ++ [3] ++ [4; 5] ++ [6] ++ [7] ++ [8])
     ++ ([9; 10; 11; 12] ++ [13; 14; 15; 16; 17] ++ [18; 19; 20] ++ [21])
     ++ ([22] ++ [23] ++ [24] ++ [25] ++ [26] ++ [27] ++ [28] ++ [29] ++ [30]
         ++ [31] ++ [32])
     ++ ([33] ++ [34] ++ [35] ++ [36]) ++ [37])%Z.
  repeat apply (subseq_app (A := Z));
    auto using personal_nums, professional_nums, education_nums,
      certification_nums, technical_nums.
Qed.

(** A run of [process_all] on a new object that returns has a text that
    is not empty, and returns the rows of one pass. *)
Lemma fresh_run_rows (text : string) (rows : list row) (p : processor) :
  process_all (init (Some text)) = (inr rows, p) ->
  text <> "" /\ rows = all_rows text
  /\ p = Processor (Some text) (all_rows text) (run_log (List.length (all_rows text))).
Proof.
  intros H.
  assert (Hne : text <> "").
  { intros ->. discriminate H. }
  rewrite (process_all_fresh text Hne) in H.
  injection H as <- <-. auto.
Qed.

End PatternFacts.

(** ** The loops of the structured path *)

Module StructuredFacts.

Import AIDocumentProcessor.

Lemma one_to_S (n : nat) : one_to (S n) = one_to n ++ [Z.of_nat (S n)].
Proof. unfold one_to. rewrite seq_S, map_app. reflexivity. Qed.

Lemma one_to_length (n : nat) : List.length (one_to n) = n.
Proof. unfold one_to. rewrite length_map, length_seq. reflexivity. Qed.

Lemma one_to_sorted (n : nat) : StronglySorted Z.lt (one_to n).
Proof.
  unfold one_to. generalize 1%nat. induction n as [| n IH]; intros s; simpl.
  - constructor.
  - constructor; [apply IH |].
    rewrite Forall_forall. intros z Hz.
    apply in_map_iff in Hz. destruct Hz as [k [<- Hk]].
    apply in_seq in Hk. lia.
Qed.

Lemma one_to_bounds (n : nat) z : In z (one_to n) -> (1 <= z <= Z.of_nat n)%Z.
Proof.
  unfold one_to. intros Hz. apply in_map_iff in Hz.
  destruct Hz as [k [<- Hk]]. apply in_seq in Hk. lia.
Qed.

Lemma numbered_start : numbered ([], 1%Z).
Proof. split; reflexivity. Qed.

Lemma numbered_step key value comment (a : acc) :
  numbered a -> numbered (bump (put key value comment a)).
Proof.
  intros [Hn Hs]. unfold numbered, bump, put. cbn [fst snd].
  rewrite map_app, length_app, Nat.add_1_r, one_to_S. cbn [map num List.length].
  split.
  - rewrite Hn, Hs. f_equal. f_equal. lia.
  - lia.
Qed.

Lemma numbered_each_item label comment (d : dict) (a : acc) :
  numbered a -> numbered (each_item label comment d a).
Proof.
  unfold each_item. revert a.
  induction d as [| kv d IH]; intros a Ha; simpl.
  - assumption.
  - apply IH, numbered_step, Ha.
Qed.

Lemma numbered_each_certification (certs : list dict) :
  forall i a a', each_certification i certs a = inr a' ->
  numbered a -> numbered a'.
Proof.
  induction certs as [| cert certs IH]; intros i a a' H Ha; simpl in H.
  - injection H as <-. assumption.
  - destruct (get "name" cert) as [name |]; [| discriminate].
    eapply IH; [eassumption |]. apply numbered_step, Ha.
Qed.

(** The last row takes the next number. *)
Lemma numbered_last key value comment (a : acc) :
  numbered a ->
  map num (fst (put key value comment a))
  = one_to (List.length (fst (put key value comment a))).
Proof.
  intros Ha. generalize (numbered_step key value comment a Ha).
  intros [Hn _]. exact Hn.
Qed.

Lemma structure_ai_output_numbered (d : ai_data) (rows : list row) :
  structure_ai_output d = inr rows ->
  map num rows = one_to (List.length rows).
Proof.
  unfold structure_ai_output. intros H.
  match type of H with
  | match each_certification _ _ ?a0 with _ => _ end = _ =>
      assert (Ha0 : numbered a0)
        by (repeat first [ apply numbered_each_item | apply numbered_step
                         | apply numbered_start ]);
      destruct (each_certification 0 (certifications d) a0) as [e | a] eqn:Hc
  end; [discriminate |].
  injection H as <-.
  apply numbered_last.
  eapply numbered_each_certification; eassumption.
Qed.

End StructuredFacts.

(** ** C2: the empty text *)

Module EmptyInput.

Import DocumentProcessor.

(** C2.  On the empty text the run raises the [ValueError] of
    [process_all] before anything else happens: the object still holds
    no row and no log entry, and the files are as they were.  The same
    holds with no text at all; and on an object without rows each of the
    two save methods raises without writing its file. *)
Theorem empty_input_is_fatal (fs : files) (filename : string) :
  run "" fs
  = ((inl (ValueError "No text content provided. Please load content first."),
      Processor (Some "") [] []), fs)
  /\ process_all (init None)
     = (inl (ValueError "No text content provided. Please load content first."),
        Processor None [] [])
  /\ save_to_excel filename (init (Some "")) fs
     = ((inl no_data, Processor (Some "") [] [LogSaveError Excel no_data]), fs)
  /\ save_to_json filename (init (Some "")) fs
     = ((inl no_data, Processor (Some "") [] [LogSaveError Json no_data]), fs).
Proof. repeat split. Qed.

End EmptyInput.

(** ** C5: the scenario about Alice Smith *)

Module Scenario.

Import DocumentProcessor.

(** C5, as the code has it.  Every pattern is tried on every text, and
    each row carries the number of its field: on the text of the
    scenario the run yields First Name and Last Name with the numbers 1
    and 2, the date of birth with 3, Birth City and Birth State with 4
    and 5, the age with 6, and the row of the graduation year, which
    needs no match, with 31. *)
Theorem alice_rows :
  fst (process_all (init (Some alice_text)))
  = inr [Row 1 "First Name" (VStr "Alice") "";
         Row 2 "Last Name" (VStr "Smith") "";
         Row 3 "Date of Birth" (VStr "1990-06-05 00:00:00") "";
         Row 4 "Birth City" (VStr "Pune") pink_city;
         Row 5 "Birth State" (VStr "Maharashtra") pink_city;
         Row 6 "Age" (VStr "34 years")
           "As on year 2024. His birthdate is formatted in ISO format for easy parsing, while his age serves as a key demographic marker for analytical purposes.";
         Row 31 "Graduation year" (VStr "2013") ""].
Proof. vm_compute. reflexivity. Qed.

(** C5 as stated fails: the numbers of the rows are 1, 2, 3, 4, 5, 6, 31
    and not 1, 2, 3, 4; the rows of Pune and Maharashtra have the
    numbers 4 and 5. *)
Lemma alice_rows_counterexample :
  exists rows,
    fst (process_all (init (Some alice_text))) = inr rows
    /\ map num rows = [1; 2; 3; 4; 5; 6; 31]%Z
    /\ map num rows <> [1; 2; 3; 4]%Z
    /\ map num (filter (fun r => String.eqb (Key r) "Birth City"
                                 || String.eqb (Key r) "Birth State")%bool rows)
       = [4; 5]%Z.
Proof.
  eexists. split; [apply alice_rows |].
  repeat split. discriminate.
Qed.

End Scenario.

(** ** C6: the structured path does not read the text *)

Module ConstantExtraction.

Import AIDocumentProcessor.

(** C6.  Whatever the two texts, the extracted data are the same value
    and the rows are the same 37 rows. *)
Theorem structured_path_ignores_text (text1 text2 : string) :
  simulate_ai_extraction text1 = simulate_ai_extraction text2
  /\ process_document text1 = process_document text2
  /\ exists rows, process_document text1 = inr rows
                  /\ List.length rows = 37%nat.
Proof.
  split; [reflexivity |]. split; [reflexivity |].
  destruct (process_document text1) as [e | rows] eqn:H.
  - discriminate H.
  - exists rows. split; [reflexivity |].
    injection H as <-. reflexivity.
Qed.

End ConstantExtraction.

(** ** C3: a date text that does not parse *)

Module DateFallback.

Import DocumentProcessor PatternFacts.

Ltac find_in :=
  lazymatch goal with
  | |- In _ (_ ++ _) => apply in_or_app; ((left; find_in) || (right; find_in))
  | |- In _ (_ :: _) => (left; reflexivity) || (right; find_in)
  end.

Lemma run_log_no_error (n : nat) : existsb is_error (run_log n) = false.
Proof. reflexivity. Qed.

(** C3, as the code has it.  When the date text a pattern has matched
    does not parse, the row of the field holds the fallback value written
    at that place of the extractor, and the failure leaves no trace in
    the log: the log of the run is the start entry, the success entries
    of the five sections and the count of rows, none of them an error
    entry. *)
Theorem malformed_date_falls_back
    (f : date_field) (text : string) (m : Re.match_obj)
    (rows : list row) (p : processor) :
  In f date_fields ->
  process_all (init (Some text)) = (inr rows, p) ->
  Re.search (df_pattern f) text = Some m ->
  Date.strptime (Re.group m (df_group f)) = None ->
  In (Row (df_num f) (df_key f) (VStr (df_fallback f)) "") rows
  /\ processing_log p = run_log (List.length rows)
  /\ existsb is_error (processing_log p) = false.
Proof.
  intros Hf Hrun Hm Hparse.
  apply fresh_run_rows in Hrun. destruct Hrun as (_ & -> & ->).
  cbn [processing_log]. split; [| split; [reflexivity | apply run_log_no_error]].
  unfold date_fields in Hf. cbn [In] in Hf.
  destruct Hf as [<- | [<- | [<- | [<- | []]]]];
    cbn [df_pattern df_group df_num df_key df_fallback] in *;
    unfold all_rows, personal_rows, professional_rows;
    rewrite Hm; cbn [when]; unfold Date.iso_or; rewrite Hparse; find_in.
Qed.

Lemma malformed_date_falls_back_witness :
  In (Row 3 "Date of Birth" (VStr "1989-03-15 00:00:00") "")
     (all_rows bad_date_text)
  /\ existsb is_error (run_log 2) = false.
Proof.
  destruct (malformed_date_falls_back
              (DateField dob_pattern 1 3 "Date of Birth" "1989-03-15 00:00:00")
              bad_date_text
              (Re.MatchObj 7 "born on Foo 99, 1990" [(1%nat, "Foo 99, 1990")])
              (all_rows bad_date_text)
              (Processor (Some bad_date_text) (all_rows bad_date_text) (run_log 2)))
    as (Hin & _ & Hlog).
  - left. reflexivity.
  - vm_compute. reflexivity.
  - vm_compute. reflexivity.
  - vm_compute. reflexivity.
  - split; assumption.
Defined.

(** C3 as stated fails in its second half: the date text [Foo 99, 1990]
    is matched and does not parse, the row holds the fallback, and the
    log holds the seven entries of any run, with no entry for the
    failure. *)
Lemma malformed_date_counterexample :
  exists m rows p,
    Re.search dob_pattern bad_date_text = Some m
    /\ Re.group m 1 = "Foo 99, 1990"
    /\ Date.strptime (Re.group m 1) = None
    /\ process_all (init (Some bad_date_text)) = (inr rows, p)
    /\ rows = [Row 3 "Date of Birth" (VStr "1989-03-15 00:00:00") "";
               Row 31 "Graduation year" (VStr "2013") ""]
    /\ processing_log p
       = [LogStart; LogExtracted Personal; LogExtracted Professional;
          LogExtracted Education; LogExtracted Certifications;
          LogExtracted Technical; LogComplete 2]
    /\ existsb is_error (processing_log p) = false.
Proof.
  eexists. eexists. eexists.
  split; [vm_compute; reflexivity |].
  split; [reflexivity |].
  split; [vm_compute; reflexivity |].
  split; [vm_compute; reflexivity |].
  repeat split.
Qed.

End DateFallback.

(** ** C7: running twice *)

Module Rerun.

Import DocumentProcessor PatternFacts.

(** What [process_all] returns depends on the text and on the rows the
    object already holds, not on its log. *)
Lemma process_all_result (p : processor) :
  fst (process_all p)
  = match text_content p with
    | Some (String c t) => inr (extracted_data p ++ all_rows (String c t))
    | _ => inl (ValueError "No text content provided. Please load content first.")
    end.
Proof.
  destruct (text_content p) as [[| c t] |] eqn:H.
  - rewrite process_all_no_text; [reflexivity |].
    unfold no_text. rewrite H. reflexivity.
  - rewrite (process_all_appends p (String c t) H); [reflexivity | discriminate].
  - rewrite process_all_no_text; [reflexivity |].
    unfold no_text. rewrite H. reflexivity.
Qed.

(** C7, as the code has it.  Two runs of the pattern path on the same
    text, each on an object that holds no rows yet (as a new object
    does), return the same rows, whatever the logs of the two objects.
    The structured path returns the same rows on every call, whatever
    the object, and leaves the object as it was.  A second [process_all]
    on the same object does not repeat the first: the rows of the first
    stay in the object and the second returns them followed by the rows
    of its own pass. *)
Theorem reruns_agree
    (text : string) (p1 p2 : processor)
    (self1 self2 : AIDocumentProcessor.ai_processor)
    (rows : list row) (p1' : processor) :
  text_content p1 = Some text -> text_content p2 = Some text ->
  extracted_data p1 = [] -> extracted_data p2 = [] ->
  process_all p1 = (inr rows, p1') ->
  fst (process_all p2) = inr rows
  /\ fst (AIDocumentProcessor.process_document_on self1 text)
     = fst (AIDocumentProcessor.process_document_on self2 text)
  /\ snd (AIDocumentProcessor.process_document_on self1 text) = self1
  /\ fst (process_all p1') = inr (rows ++ rows).
Proof.
  intros H1 H2 E1 E2 Hrun.
  assert (Hne : text <> "").
  { intros ->. rewrite process_all_no_text in Hrun; [discriminate |].
    unfold no_text. rewrite H1. reflexivity. }
  rewrite (process_all_appends p1 text H1 Hne) in Hrun.
  rewrite E1 in Hrun. cbn [app] in Hrun. injection Hrun as <- <-.
  split.
  { rewrite (process_all_appends p2 text H2 Hne), E2. reflexivity. }
  split; [reflexivity |]. split; [reflexivity |].
  rewrite (process_all_appends (Processor (Some text) _ _) text eq_refl Hne).
  reflexivity.
Qed.

Lemma reruns_agree_witness :
  fst (process_all (Processor (Some "x") [] [LogLoaded "input.txt"]))
  = inr [Row 31 "Graduation year" (VStr "2013") ""]
  /\ fst (process_all (Processor (Some "x")
                         [Row 31 "Graduation year" (VStr "2013") ""] (run_log 1)))
     = inr [Row 31 "Graduation year" (VStr "2013") "";
            Row 31 "Graduation year" (VStr "2013") ""].
Proof.
  destruct (reruns_agree "x" (init (Some "x"))
              (Processor (Some "x") [] [LogLoaded "input.txt"])
              (AIDocumentProcessor.init None None)
              (AIDocumentProcessor.init (Some "key") None)
              [Row 31 "Graduation year" (VStr "2013") ""]
              (Processor (Some "x")
                 [Row 31 "Graduation year" (VStr "2013") ""] (run_log 1)))
    as (Hsame & _ & _ & Htwice).
  - reflexivity.
  - reflexivity.
  - reflexivity.
  - reflexivity.
  - vm_compute. reflexivity.
  - split; assumption.
Defined.

(** C7 as stated fails for two runs on one object: on the text [x] the
    first [process_all] returns one row and the second returns two, and
    the JSON files saved after each run differ. *)
Lemma rerun_counterexample :
  exists rows1 p1 rows2 p2,
    process_all (init (Some "x")) = (inr rows1, p1)
    /\ process_all p1 = (inr rows2, p2)
    /\ rows1 = [Row 31 "Graduation year" (VStr "2013") ""]
    /\ rows2 = [Row 31 "Graduation year" (VStr "2013") "";
                Row 31 "Graduation year" (VStr "2013") ""]
    /\ rows2 <> rows1
    /\ snd (save_to_json "extracted_data.json" p2 [])
       <> snd (save_to_json "extracted_data.json" p1 []).
Proof.
  eexists. eexists. eexists. eexists.
  split; [vm_compute; reflexivity |].
  split; [vm_compute; reflexivity |].
  split; [reflexivity |]. split; [reflexivity |].
  split; [discriminate |]. vm_compute. discriminate.
Qed.

End Rerun.

(** ** C9: the rows of the certifications *)

Module CertificationRows.

Import AIDocumentProcessor StructuredFacts.

Lemma each_item_length label comment (d : dict) (a : acc) :
  snd (each_item label comment d a) = (snd a + Z.of_nat (List.length d))%Z
  /\ List.length (fst (each_item label comment d a))
     = (List.length (fst a) + List.length d)%nat.
Proof.
  unfold each_item. revert a.
  induction d as [| kv d IH]; intros a; simpl.
  - split; lia.
  - destruct (IH (bump (put (label (fst kv)) (snd kv) (comment (fst kv)) a)))
      as [IH1 IH2].
    rewrite IH1, IH2. unfold bump, put. cbn [fst snd].
    rewrite length_app. cbn [List.length]. split; lia.
Qed.

(** The loop over the certifications appends one row for each, in the
    order of the list: the [j]-th one (from 0) is numbered [j] after the
    number the loop starts with, is labelled with the position counted
    from 1, and holds the name. *)
Lemma each_certification_rows (certs : list dict) :
  forall i a a',
    each_certification i certs a = inr a' ->
    exists mid,
      fst a' = fst a ++ mid
      /\ snd a' = (snd a + Z.of_nat (List.length certs))%Z
      /\ List.length mid = List.length certs
      /\ forall j cert,
           nth_error certs j = Some cert ->
           exists name,
             get "name" cert = Some name
             /\ nth_error mid j
                = Some (Row (snd a + Z.of_nat j)
                            ("Certifications " ++ Str.of_nat (i + j + 1))
                            (VStr name) (certification_comments (i + j))).
Proof.
  induction certs as [| cert certs IH]; intros i a a' H; simpl in H.
  - injection H as <-. exists []. rewrite app_nil_r.
    split; [reflexivity |].
    split; [cbn [List.length Z.of_nat]; rewrite Z.add_0_r; reflexivity |].
    split; [reflexivity |].
    intros j c Hj. destruct j; discriminate Hj.
  - destruct (get "name" cert) as [name |] eqn:Hname; [| discriminate].
    apply IH in H. destruct H as (mid & Hfst & Hsnd & Hlen & Hnth).
    unfold bump, put in Hfst, Hsnd, Hnth. cbn [fst snd] in Hfst, Hsnd, Hnth.
    exists (Row (snd a) ("Certifications " ++ Str.of_nat (i + 1)) (VStr name)
                (certification_comments i) :: mid).
    split; [rewrite Hfst, <- app_assoc; reflexivity |].
    split; [rewrite Hsnd; cbn [List.length]; lia |].
    split; [cbn [List.length]; lia |].
    intros j c Hj. destruct j as [| j]; cbn [nth_error] in *.
    + injection Hj as <-. exists name. split; [assumption |].
      rewrite Z.add_0_r, Nat.add_0_r. reflexivity.
    + destruct (Hnth j c Hj) as (name' & Hn' & Hrow).
      exists name'. split; [assumption |]. rewrite Hrow.
      replace (S i + j + 1)%nat with (i + S j + 1)%nat by lia.
      replace (S i + j)%nat with (i + S j)%nat by lia.
      replace (snd a + 1 + Z.of_nat j)%Z with (snd a + Z.of_nat (S j))%Z by lia.
      reflexivity.
Qed.

(** On the pattern path a certification that is found has its own
    number, label and name, whichever of the others are found. *)
Lemma certification_labels_fixed (text : string) :
  map labelled (DocumentProcessor.certification_rows text)
  = map snd (filter (fun c => is_match (fst c) text) pattern_certifications).
Proof.
  unfold DocumentProcessor.certification_rows, pattern_certifications.
  cbn [filter fst]. unfold is_match.
  destruct (Re.search DocumentProcessor.aws_pattern text),
    (Re.search DocumentProcessor.azure_pattern text),
    (Re.search DocumentProcessor.pmp_pattern text),
    (Re.search DocumentProcessor.safe_pattern text); reflexivity.
Qed.

(** C9, as the code has it.  The label is [Certifications N], with an s.
    For every list of certifications that all have a name, the rows of
    the structured path are some rows, then one row for each
    certification in the order of the list, then the last row; the row
    of the certification at position [j] (from 0) is labelled
    [Certifications j+1], holds its name, and has the number of its
    place among all the rows.  On the pattern path the label does not
    follow the position: each of the four certifications has its own
    number, label and name, and the rows are those of the certifications
    whose pattern is found, in the order of the four. *)
Theorem certification_rows_in_order
    (d : ai_data) (rows : list row) (text : string) :
  structure_ai_output d = inr rows ->
  (exists before mid last,
     rows = before ++ mid ++ [last]
     /\ List.length mid = List.length (certifications d)
     /\ forall j cert,
          nth_error (certifications d) j = Some cert ->
          exists name,
            get "name" cert = Some name
            /\ nth_error mid j
               = Some (Row (Z.of_nat (List.length before) + 1 + Z.of_nat j)
                           ("Certifications " ++ Str.of_nat (j + 1))
                           (VStr name) (certification_comments j)))
  /\ map labelled (DocumentProcessor.certification_rows text)
     = map snd (filter (fun c => is_match (fst c) text) pattern_certifications).
Proof.
  intros H. split; [| apply certification_labels_fixed].
  unfold structure_ai_output in H.
  match type of H with
  | match each_certification _ _ ?a0 with _ => _ end = _ =>
      assert (Ha0 : numbered a0)
        by (repeat first [ apply numbered_each_item | apply numbered_step
                         | apply numbered_start ]);
      remember a0 as a eqn:Ea; clear Ea;
      destruct (each_certification 0 (certifications d) a) as [e | a'] eqn:Hc
  end; [discriminate |].
  injection H as <-.
  apply each_certification_rows in Hc.
  destruct Hc as (mid & Hfst & _ & Hlen & Hnth).
  destruct Ha0 as [_ Hs].
  exists (fst a), mid,
    (Row (snd a') "Technical Proficiency" (VStr "") (technical_proficiency d)).
  unfold put. cbn [fst]. split; [rewrite Hfst, <- app_assoc; reflexivity |].
  split; [assumption |].
  intros j cert Hj. destruct (Hnth j cert Hj) as (name & Hname & Hrow).
  exists name. split; [assumption |]. rewrite Hrow, Hs. reflexivity.
Qed.

Lemma certification_rows_in_order_witness :
  (exists before mid last,
     match process_document "" with inr rows => rows | inl _ => [] end
     = before ++ mid ++ [last]
     /\ List.length mid = 4%nat
     /\ nth_error mid 1
        = Some (Row (Z.of_nat (List.length before) + 1 + 1) "Certifications 2"
                  (VStr "Azure Data Engineer") (certification_comments 1)))
  /\ map labelled (DocumentProcessor.certification_rows azure_text)
     = [(34%Z, "Certifications 2"%string, VStr "Azure Data Engineer")].
Proof.
  destruct (certification_rows_in_order (simulate_ai_extraction "")
              (match process_document "" with inr rows => rows | inl _ => [] end)
              azure_text)
    as [(before & mid & last & Hrows & Hlen & Hnth) Hfixed].
  - vm_compute. reflexivity.
  - split.
    + exists before, mid, last. split; [exact Hrows |]. split; [exact Hlen |].
      destruct (Hnth 1%nat [("name", "Azure Data Engineer"); ("year", "2020");
                            ("score", "875 points")]%string eq_refl)
        as (name & Hname & Hrow).
      vm_compute in Hname. injection Hname as <-. exact Hrow.
    + rewrite Hfixed. vm_compute. reflexivity.
Defined.

(** C9 as stated fails on the label: the rows of the four certifications
    of the structured path are labelled [Certifications 1] to
    [Certifications 4], and no row is labelled [Certification 1]. *)
Lemma certification_label_counterexample :
  exists rows,
    process_document "" = inr rows
    /\ map Key (firstn 4 (skipn 32 rows))
       = ["Certifications 1"; "Certifications 2";
          "Certifications 3"; "Certifications 4"]%string
    /\ map num (firstn 4 (skipn 32 rows)) = [33; 34; 35; 36]%Z
    /\ map Value (firstn 4 (skipn 32 rows))
       = [VStr "AWS Solutions Architect"; VStr "Azure Data Engineer";
          VStr "Project Management Professional certification";
          VStr "SAFe Agilist certification"]
    /\ existsb (fun r => String.eqb (Key r) "Certification 1") rows = false.
Proof.
  eexists. split; [vm_compute; reflexivity |].
  split; [vm_compute; reflexivity |].
  split; [vm_compute; reflexivity |].
  split; vm_compute; reflexivity.
Qed.

End CertificationRows.

(** ** C10: the label of a key that is in no table *)

Module Labels.

Import AIDocumentProcessor.

Lemma get_or_none (d : dict) (key default : string) :
  get key d = None -> get_or d key default = default.
Proof. unfold get_or. intros ->. reflexivity. Qed.

Lemma get_or_some (d : dict) (key default v : string) :
  get key d = Some v -> get_or d key default = v.
Proof. unfold get_or. intros ->. reflexivity. Qed.

(** Replacing the underscores changes the underscores and nothing else. *)
Lemma replace_underscores_chars (s : string) :
  Str.chars (Str.replace_char "_" " " s)
  = map (fun c => if Ascii.eqb c "_" then " "%char else c) (Str.chars s).
Proof.
  induction s as [| c s IH]; simpl; [reflexivity |].
  destruct (Ascii.eqb c "_"); simpl; rewrite IH; reflexivity.
Qed.

(** Title-casing keeps the length: each character is mapped to one
    character. *)
Lemma title_from_length (s : string) :
  forall b, String.length (Str.title_from b s) = String.length s.
Proof. induction s as [| c s IH]; intros b; simpl; [| rewrite IH]; reflexivity. Qed.

Lemma title_example :
  Str.title (Str.replace_char "_" " " "12th_passout_year") = "12Th Passout Year".
Proof. reflexivity. Qed.

(** C10, as the code has it.  A key of the personal information that is
    not in the label table is shown with its underscores replaced by
    spaces and the result title-cased.  A key of the first, the current
    or the previous role, of the undergraduate or of the graduation
    record that is not in the table of that record is shown as it is. *)
Theorem label_fallback (key : string) :
  (get key key_mapping = None ->
   format_key_name key = Str.title (Str.replace_char "_" " " key))
  /\ (get key first_role_mapping = None -> format_first_role_key key = key)
  /\ (get key current_role_mapping = None -> format_current_role_key key = key)
  /\ (get key previous_role_mapping = None -> format_previous_role_key key = key)
  /\ (get key undergraduate_mapping = None -> format_undergraduate_key key = key)
  /\ (get key graduation_mapping = None -> format_graduation_key key = key).
Proof. repeat split; intros H; apply get_or_none; exact H. Qed.

Lemma label_fallback_witness :
  format_key_name "bonus_amount" = "Bonus Amount"
  /\ format_first_role_key "bonus_amount" = "bonus_amount"
  /\ format_current_role_key "bonus_amount" = "bonus_amount"
  /\ format_previous_role_key "bonus_amount" = "bonus_amount"
  /\ format_undergraduate_key "bonus_amount" = "bonus_amount"
  /\ format_graduation_key "bonus_amount" = "bonus_amount".
Proof.
  destruct (label_fallback "bonus_amount") as (H1 & H2 & H3 & H4 & H5 & H6).
  split; [rewrite (H1 eq_refl); reflexivity |].
  split; [exact (H2 eq_refl) |].
  split; [exact (H3 eq_refl) |].
  split; [exact (H4 eq_refl) |].
  split; [exact (H5 eq_refl) |].
  exact (H6 eq_refl).
Defined.

(** C10 as stated fails outside the personal information: the key
    [bonus_amount] is in no table, and as a key of the first role its
    label is [bonus_amount], not [Bonus Amount]. *)
Lemma label_fallback_counterexample :
  get "bonus_amount" first_role_mapping = None
  /\ format_first_role_key "bonus_amount" = "bonus_amount"
  /\ Str.title (Str.replace_char "_" " " "bonus_amount") = "Bonus Amount"
  /\ format_first_role_key "bonus_amount"
     <> Str.title (Str.replace_char "_" " " "bonus_amount").
Proof. repeat split. discriminate. Qed.

End Labels.

(** ** Fields whose pattern is not found, and the run of [demo_usage] *)

Module NoMatch.

Import DocumentProcessor PatternFacts.

(** The row of the graduation year needs no match: no run on a text is
    without rows. *)
Lemma graduation_year_always (text : string) : In graduation_year (all_rows text).
Proof.
  unfold all_rows, education_rows.
  apply in_or_app; right. apply in_or_app; right. apply in_or_app; left.
  do 9 (apply in_or_app; right).
  apply in_or_app; left. left. reflexivity.
Qed.

Lemma all_rows_not_nil (text : string) : all_rows text <> [].
Proof.
  intros H. generalize (graduation_year_always text). rewrite H. intros [].
Qed.

(** The run of [demo_usage] on a text that is not empty: [process_all]
    returns the rows of one pass; the sheet writer then takes them or
    refuses a cell, and in the latter case the run ends there, before
    the JSON file is opened. *)
Lemma run_result (text : string) (fs : files) :
  text <> "" ->
  run text fs
  = match find refused (cell_texts (all_rows text)) with
    | None =>
        ((inr (all_rows text),
          Processor (Some text) (all_rows text)
            (run_log (List.length (all_rows text))
             ++ [LogSaved "Output.xlsx"; LogSaved "extracted_data.json"])),
         write "extracted_data.json" (JsonFile (all_rows text))
           (write "Output.xlsx"
              (Sheet ["#"; "Key"; "Value"; "Comments"]
                 (map sheet_line (all_rows text))) fs))
    | Some s =>
        ((inl (IllegalCharacterError (sheet_cell s)),
          Processor (Some text) (all_rows text)
            (run_log (List.length (all_rows text))
             ++ [LogSaveError Excel (IllegalCharacterError (sheet_cell s))])),
         write "Output.xlsx" Unfinished fs)
    end.
Proof.
  intros Hne. unfold run. rewrite (process_all_fresh text Hne).
  unfold save_to_excel, save_to_json, to_excel, log.
  cbn [extracted_data text_content processing_log].
  pose proof (all_rows_not_nil text) as Hnil.
  destruct (all_rows text) as [| r rows] eqn:E; [contradiction |].
  destruct (find refused (cell_texts (r :: rows))) as [s |]; [reflexivity |].
  cbn [extracted_data text_content processing_log].
  rewrite <- app_assoc. reflexivity.
Qed.

Ltac absent H :=
  repeat match type of H with
    | In _ (_ ++ _) => apply in_app_or in H; destruct H as [H | H]
    | In _ (when None _) => destruct H
    | In _ (when (Some _) _) => cbn [when] in H
    | In _ (when ?o _) => destruct o; cbn [when] in H
    | In _ (_ :: _) =>
        destruct H as [H | H];
        [subst; cbn [Key In]; intuition discriminate |]
    | In _ [] => destruct H
    end.

(** The keys of a rule whose pattern is not found are the key of no row. *)
Lemma unmatched_keys_absent (text : string) (r : field_rule) (x : row) :
  In r field_rules -> Re.search (fr_pattern r) text = None ->
  In x (all_rows text) -> ~ In (Key x) (fr_keys r).
Proof.
  intros Hr Hnone Hx.
  unfold all_rows, personal_rows, professional_rows, education_rows,
    certification_rows, technical_rows in Hx.
  unfold field_rules in Hr. cbn [In] in Hr.
  repeat (destruct Hr as [<- | Hr];
          [cbn [fr_pattern fr_keys] in *; rewrite Hnone in Hx; absent Hx |]).
  destruct Hr.
Qed.

Ltac find_key :=
  lazymatch goal with
  | |- In _ (map _ (_ ++ _)) => rewrite map_app; find_key
  | |- In _ (_ ++ _) => apply in_or_app; ((left; find_key) || (right; find_key))
  | |- In _ (map _ (_ :: _)) => cbn [map Key]; find_key
  | |- In _ (_ :: _) => (left; reflexivity) || (right; find_key)
  end.

Lemma is_match_true (r : Re.regex) (text : string) :
  is_match r text = true -> exists m, Re.search r text = Some m.
Proof.
  unfold is_match. destruct (Re.search r text) as [m |]; [eauto | discriminate].
Qed.

(** The keys of a rule that is found are keys of rows. *)
Lemma matched_keys_present (text : string) (r : field_rule) (k : string) :
  In r field_rules -> rule_matches r text = true ->
  In k (fr_keys r) -> In k (map Key (all_rows text)).
Proof.
  intros Hr Hm Hk.
  unfold all_rows, personal_rows, professional_rows, education_rows,
    certification_rows, technical_rows.
  unfold field_rules in Hr. cbn [In] in Hr.
  unfold rule_matches in Hm. apply andb_prop in Hm. destruct Hm as [Hm Hg].
  apply is_match_true in Hm. destruct Hm as [m Hm].
  repeat (destruct Hr as [<- | Hr];
          [cbn [fr_pattern fr_keys fr_guard] in *;
           try (apply is_match_true in Hg; destruct Hg as [m' Hg]; rewrite Hg);
           rewrite Hm; cbn [when]; cbn [In] in Hk;
           repeat (destruct Hk as [<- | Hk]; [find_key |]); destruct Hk |]).
  destruct Hr.
Qed.

End NoMatch.


(** ** The JSON text and its reading *)

Module JsonFacts.

Import JsonText DecimalNat DecimalFacts.

Local Open Scope string_scope.

Lemma append_assoc (a b c : string) : ((a ++ b) ++ c = a ++ (b ++ c))%string.
Proof. induction a as [| x a IH]; simpl; [| rewrite IH]; reflexivity. Qed.

Lemma append_nil_r (a : string) : (a ++ "")%string = a.
Proof. induction a as [| x a IH]; simpl; [| rewrite IH]; reflexivity. Qed.

(** *** Strings *)

Lemma scanstring_escape_char (c : ascii) (tail : string) :
  scanstring (escape_char c ++ tail) = cons_to c (scanstring tail).
Proof.
  destruct c as [[] [] [] [] [] [] [] []]; reflexivity.
Qed.

(** Reading an escaped string gives the string back. *)
Lemma scanstring_escape (s rest : string) :
  scanstring (escape s ++ String dq rest) = Some (s, rest).
Proof.
  induction s as [| c s IH]; [reflexivity |].
  cbn [escape]. rewrite append_assoc, scanstring_escape_char, IH. reflexivity.
Qed.

Lemma scan_once_str (k : nat) (s rest : string) :
  scan_once (S k) (encode_str s ++ rest) = Some (JStr s, rest).
Proof.
  unfold encode_str. cbn [append]. rewrite append_assoc. cbn [append one].
  cbn [scan_once]. change (Ascii.eqb dq dq) with true. cbn iota.
  rewrite scanstring_escape. reflexivity.
Qed.

(** *** Numbers *)

Lemma delimited_head (c : ascii) (rest : string) :
  delimited (String c rest) = true ->
  Char.is_digit c = false /\ Ascii.eqb c "." = false
  /\ Ascii.eqb c "e" = false /\ Ascii.eqb c "E" = false
  /\ Ascii.eqb c "+" = false /\ Ascii.eqb c "-" = false.
Proof.
  cbn [delimited]. intros H. apply negb_true_iff in H.
  repeat (apply orb_false_iff in H; destruct H as [H ?]).
  repeat split; assumption.
Qed.

Lemma span_digits_delimited (rest : string) :
  delimited rest = true -> span_digits rest = (EmptyString, rest).
Proof.
  destruct rest as [| c rest]; [reflexivity |].
  intros H. apply delimited_head in H. destruct H as (Hd & _).
  cbn [span_digits]. rewrite Hd. reflexivity.
Qed.

Lemma span_digits_app (s rest : string) :
  delimited rest = true ->
  span_digits (s ++ rest)
  = (fst (span_digits s), (snd (span_digits s) ++ rest)%string).
Proof.
  intros H. induction s as [| c s IH].
  - cbn [append]. rewrite (span_digits_delimited rest H). reflexivity.
  - cbn [append span_digits]. destruct (Char.is_digit c); [| reflexivity].
    rewrite IH. destruct (span_digits s). reflexivity.
Qed.

Lemma int_part_app (s rest ip r : string) :
  delimited rest = true -> int_part s = Some (ip, r) ->
  int_part (s ++ rest) = Some (ip, (r ++ rest)%string).
Proof.
  intros H. destruct s as [| c s]; [discriminate |].
  cbn [append int_part]. destruct (Ascii.eqb c "0").
  - intros [= <- <-]. reflexivity.
  - destruct (Char.is_digit c); [| discriminate].
    rewrite (span_digits_app s rest H). destruct (span_digits s) as [ds r'].
    cbn [fst snd]. intros [= <- <-]. reflexivity.
Qed.

Lemma frac_part_app (s rest : string) :
  delimited rest = true ->
  frac_part (s ++ rest) = (fst (frac_part s), (snd (frac_part s) ++ rest)%string).
Proof.
  intros H. destruct s as [| c s].
  - cbn [append frac_part fst snd]. destruct rest as [| c rest]; [reflexivity |].
    apply delimited_head in H. destruct H as (_ & Hdot & _).
    cbn [frac_part]. rewrite Hdot. reflexivity.
  - cbn [append frac_part]. destruct (Ascii.eqb c "."); [| reflexivity].
    rewrite (span_digits_app s rest H). destruct (span_digits s) as [[| d ds] r'];
      reflexivity.
Qed.

Lemma exp_digits_app (prefix whole s rest : string) :
  delimited rest = true ->
  exp_digits prefix (whole ++ rest) (s ++ rest)
  = (fst (exp_digits prefix whole s),
     (snd (exp_digits prefix whole s) ++ rest)%string).
Proof.
  intros H. unfold exp_digits. rewrite (span_digits_app s rest H).
  destruct (span_digits s) as [[| d ds] r']; reflexivity.
Qed.

Lemma exp_part_app (s rest : string) :
  delimited rest = true ->
  exp_part (s ++ rest) = (fst (exp_part s), (snd (exp_part s) ++ rest)%string).
Proof.
  intros H. destruct s as [| e s].
  - cbn [append exp_part fst snd]. destruct rest as [| c rest]; [reflexivity |].
    pose proof (delimited_head c rest H) as (_ & _ & He & HE & _).
    cbn [exp_part]. rewrite He, HE. reflexivity.
  - cbn [append exp_part].
    destruct (Ascii.eqb e "e" || Ascii.eqb e "E")%bool; [| reflexivity].
    destruct s as [| g s].
    + cbn [append]. destruct rest as [| c rest]; [reflexivity |].
      pose proof (delimited_head c rest H) as (Hd & _ & _ & _ & Hp & Hm).
      rewrite Hm, Hp. cbn [orb].
      unfold exp_digits. cbn [span_digits]. rewrite Hd. reflexivity.
    + cbn [append].
      destruct (Ascii.eqb g "-" || Ascii.eqb g "+")%bool.
      * apply (exp_digits_app _ (String e (String g s)) s rest H).
      * apply (exp_digits_app _ (String e (String g s)) (String g s) rest H).
Qed.

(** A number read from a text is read the same when a delimiter and
    more text follow. *)
Lemma scan_number_app (t rest r : string) (v : json) :
  delimited rest = true -> scan_number t = Some (v, r) ->
  scan_number (t ++ rest) = Some (v, (r ++ rest)%string).
Proof.
  intros H. unfold scan_number.
  assert (Hbody : forall sign s1,
    match int_part s1 with
    | None => None
    | Some (ip, s2) =>
        let (frac, s3) := frac_part s2 in
        let (ex, s4) := exp_part s3 in
        match frac, ex with
        | EmptyString, EmptyString =>
            match int_of_digits ip with
            | Some z =>
                Some (JInt (match sign with EmptyString => z | _ => (- z)%Z end), s4)
            | None => None
            end
        | _, _ => Some (JFloat (FloatOfStr (sign ++ ip ++ frac ++ ex)), s4)
        end
    end = Some (v, r) ->
    match int_part (s1 ++ rest) with
    | None => None
    | Some (ip, s2) =>
        let (frac, s3) := frac_part s2 in
        let (ex, s4) := exp_part s3 in
        match frac, ex with
        | EmptyString, EmptyString =>
            match int_of_digits ip with
            | Some z =>
                Some (JInt (match sign with EmptyString => z | _ => (- z)%Z end), s4)
            | None => None
            end
        | _, _ => Some (JFloat (FloatOfStr (sign ++ ip ++ frac ++ ex)), s4)
        end
    end = Some (v, (r ++ rest)%string)).
  { intros sign s1. destruct (int_part s1) as [[ip s2] |] eqn:Hi; [| discriminate].
    rewrite (int_part_app s1 rest ip s2 H Hi).
    rewrite (frac_part_app s2 rest H). destruct (frac_part s2) as [frac s3].
    cbn [fst snd].
    rewrite (exp_part_app s3 rest H). destruct (exp_part s3) as [ex s4].
    cbn [fst snd].
    destruct frac, ex; try (intros [= <- <-]; reflexivity).
    destruct (int_of_digits ip); [| discriminate].
    intros [= <- <-]. reflexivity. }
  destruct t as [| c t].
  - discriminate.
  - cbn [append]. destruct (Ascii.eqb c "-").
    + exact (Hbody "-"%string t).
    + exact (Hbody EmptyString (String c t)).
Qed.

Lemma scan_number_head (c : ascii) (s : string) (r : json * string) :
  scan_number (String c s) = Some r -> number_head c = true.
Proof.
  unfold scan_number, number_head.
  destruct (Ascii.eqb c "-") eqn:Hm; [rewrite orb_true_r; reflexivity |].
  cbn [int_part]. destruct (Ascii.eqb c "0") eqn:H0.
  - apply Ascii.eqb_eq in H0. subst c. reflexivity.
  - destruct (Char.is_digit c); [reflexivity | discriminate].
Qed.

Lemma scan_once_number_head (k : nat) (c : ascii) (s : string)
    (r : json * string) :
  number_head c = true -> scan_number (String c s) = Some r ->
  scan_once (S k) (String c s) = Some r.
Proof.
  intros Hc Hn. cbn [scan_once]. rewrite Hn.
  destruct c as [[] [] [] [] [] [] [] []]; try discriminate Hc; reflexivity.
Qed.

(** A number followed by a delimiter is read as that number. *)
Lemma scan_once_number (k : nat) (t rest : string) (v : json) :
  delimited rest = true -> scan_number t = Some (v, EmptyString) ->
  scan_once (S k) (t ++ rest) = Some (v, rest).
Proof.
  intros Hd Hn. pose proof (scan_number_app t rest _ v Hd Hn) as Happ.
  cbn [append] in Happ.
  destruct t as [| c t]; [discriminate Hn |].
  apply scan_once_number_head; [| exact Happ].
  apply (scan_number_head c t _ Hn).
Qed.

(** *** Integers *)

Lemma digits_span (d : Decimal.uint) :
  span_digits (NilEmpty.string_of_uint d) = (NilEmpty.string_of_uint d, EmptyString).
Proof.
  induction d; cbn [NilEmpty.string_of_uint span_digits];
    [reflexivity | ..];
    change (Char.is_digit _) with true; cbn iota; rewrite IHd; reflexivity.
Qed.

(** The digits of a number start with 0 only when the number is 0. *)
Lemma normal_no_leading_zero (d d' : Decimal.uint) :
  Decimal.unorm d = d -> d = Decimal.D0 d' -> d' = Decimal.Nil.
Proof.
  intros Hn ->. rewrite unorm_D0 in Hn. unfold Decimal.unorm in Hn.
  destruct (Decimal.nzhead d') eqn:Hz;
    try (exfalso; rewrite <- Hz in Hn; exact (nzhead_nonzero _ _ Hn)).
  injection Hn as <-. reflexivity.
Qed.

Lemma int_part_digits (d : Decimal.uint) :
  Decimal.unorm d = d ->
  int_part (NilEmpty.string_of_uint d) = Some (NilEmpty.string_of_uint d, EmptyString).
Proof.
  intros Hn. destruct d eqn:Hd;
    try (cbn [NilEmpty.string_of_uint int_part];
         change (Ascii.eqb _ "0") with false; change (Char.is_digit _) with true;
         cbn iota; rewrite digits_span; reflexivity).
  - discriminate Hn.
  - rewrite (normal_no_leading_zero _ u Hn eq_refl). reflexivity.
Qed.

Lemma of_nat_normal (n : nat) : Decimal.unorm (Nat.to_uint n) = Nat.to_uint n.
Proof. rewrite <- (Unsigned.of_to n) at 2. rewrite Unsigned.to_of. reflexivity. Qed.

Lemma int_part_of_nat (n : nat) :
  int_part (Str.of_nat n) = Some (Str.of_nat n, EmptyString).
Proof. apply int_part_digits, of_nat_normal. Qed.

Lemma int_of_digits_of_nat (n : nat) :
  int_of_digits (Str.of_nat n) = Some (Z.of_nat n).
Proof.
  unfold int_of_digits, Str.of_nat. rewrite NilEmpty.usu, Unsigned.of_to.
  reflexivity.
Qed.

(** The text of a natural number starts with a digit. *)
Lemma of_nat_head (n : nat) :
  exists c t, Str.of_nat n = String c t /\ Ascii.eqb c "-" = false.
Proof.
  unfold Str.of_nat. pose proof (of_nat_normal n) as Hn.
  destruct (Nat.to_uint n); [discriminate Hn | ..];
    cbn [NilEmpty.string_of_uint]; eexists; eexists; split; reflexivity.
Qed.

Lemma scan_number_of_nat (n : nat) :
  scan_number (Str.of_nat n) = Some (JInt (Z.of_nat n), EmptyString).
Proof.
  destruct (of_nat_head n) as (c & t & Ht & Hc).
  unfold scan_number. rewrite Ht, Hc, <- Ht.
  rewrite int_part_of_nat. cbn [frac_part exp_part].
  rewrite int_of_digits_of_nat. reflexivity.
Qed.

(** The text of an integer is read as that integer. *)
Lemma scan_number_of_Z (z : Z) :
  scan_number (Str.of_Z z) = Some (JInt z, EmptyString).
Proof.
  destruct z as [| p | p]; unfold Str.of_Z.
  - reflexivity.
  - rewrite scan_number_of_nat, Z2Nat.id by lia. reflexivity.
  - unfold scan_number. cbn [append].
    change (Ascii.eqb "-" "-") with true. cbn iota.
    rewrite int_part_of_nat. cbn [frac_part exp_part].
    rewrite int_of_digits_of_nat, positive_nat_Z. reflexivity.
Qed.

Lemma scan_once_int (k : nat) (z : Z) (rest : string) :
  delimited rest = true ->
  scan_once (S k) (Str.of_Z z ++ rest) = Some (JInt z, rest).
Proof. intros H. apply scan_once_number; [exact H | apply scan_number_of_Z]. Qed.

(** *** White space *)

Lemma skip_ws_spaces (n : nat) (s : string) :
  skip_ws (spaces n ++ s) = skip_ws s.
Proof. induction n as [| n IH]; [reflexivity |]. cbn. exact IH. Qed.

Lemma skip_ws_indent (level : nat) (s : string) :
  skip_ws (newline_indent level ++ s) = skip_ws s.
Proof. unfold newline_indent. cbn. apply skip_ws_spaces. Qed.

Lemma skip_ws_str (s rest : string) :
  skip_ws (encode_str s ++ rest) = (encode_str s ++ rest)%string.
Proof. reflexivity. Qed.

Lemma number_head_not_ws (c : ascii) : number_head c = true -> is_ws c = false.
Proof.
  destruct c as [[] [] [] [] [] [] [] []]; try discriminate; reflexivity.
Qed.

Lemma skip_ws_number (t rest : string) (r : json * string) :
  scan_number t = Some r -> skip_ws (t ++ rest) = (t ++ rest)%string.
Proof.
  destruct t as [| c t]; [discriminate |]. intros H.
  apply scan_number_head in H. apply number_head_not_ws in H.
  cbn [append skip_ws]. rewrite H. reflexivity.
Qed.

(** *** One value after a key *)

Lemma reads_str (k : nat) (s : string) :
  reads (scan_once (S k)) (encode_str s) (JStr s).
Proof. intros tail _. split; [apply scan_once_str | apply skip_ws_str]. Qed.

Lemma reads_number (k : nat) (t : string) (v : json) :
  scan_number t = Some (v, EmptyString) -> reads (scan_once (S k)) t v.
Proof.
  intros H tail Hd. split.
  - apply scan_once_number; assumption.
  - eapply skip_ws_number; eassumption.
Qed.

Lemma reads_int (k : nat) (z : Z) :
  reads (scan_once (S k)) (Str.of_Z z) (JInt z).
Proof. apply reads_number, scan_number_of_Z. Qed.

Lemma reads_float (k : nat) (t : string) :
  is_float_token t = true -> reads (scan_once (S k)) t (JFloat (FloatOfStr t)).
Proof.
  unfold is_float_token. intros H. apply reads_number.
  destruct (scan_number t) as [[[| | | [t' | ] | | |] [|]] |]; try discriminate H.
  apply String.eqb_eq in H. subst t'. reflexivity.
Qed.

Section Members.

Variable scan : string -> option (json * string).

(** A member followed by a comma and the next key *)
Lemma object_loop_more (n level : nat) (key text body : string) (v : json)
    (acc : list (string * json)) :
  reads scan text v ->
  object_loop scan (S n)
    (escape key
     ++ String dq (": " ++ text ++ "," ++ newline_indent level ++ String dq body))
    acc
  = object_loop scan n body (dict_set key v acc).
Proof.
  intros Hr.
  destruct (Hr ("," ++ newline_indent level ++ String dq body) eq_refl)
    as [Hscan Hws].
  cbn [object_loop]. rewrite scanstring_escape.
  change (skip_ws (": " ++ text ++ "," ++ newline_indent level ++ String dq body))
    with (String ":" (String " " (text ++ "," ++ newline_indent level
                                    ++ String dq body))).
  change (Ascii.eqb ":" ":") with true. cbn iota.
  change (skip_ws (String " " (text ++ "," ++ newline_indent level
                                 ++ String dq body)))
    with (skip_ws (text ++ "," ++ newline_indent level ++ String dq body)).
  rewrite Hws, Hscan.
  change (skip_ws ("," ++ newline_indent level ++ String dq body))
    with (String "," (newline_indent level ++ String dq body)).
  change (Ascii.eqb "," "}") with false.
  change (Ascii.eqb "," ",") with true. cbn iota.
  rewrite skip_ws_indent.
  change (skip_ws (String dq body)) with (String dq body).
  change (Ascii.eqb dq dq) with true. reflexivity.
Qed.

(** The last member, followed by the closing brace *)
Lemma object_loop_last (n level : nat) (key text rest : string) (v : json)
    (acc : list (string * json)) :
  reads scan text v ->
  object_loop scan (S n)
    (escape key ++ String dq (": " ++ text ++ newline_indent level ++ "}" ++ rest))
    acc
  = Some (dict_set key v acc, rest).
Proof.
  intros Hr.
  destruct (Hr (newline_indent level ++ "}" ++ rest) eq_refl) as [Hscan Hws].
  cbn [object_loop]. rewrite scanstring_escape.
  change (skip_ws (": " ++ text ++ newline_indent level ++ "}" ++ rest))
    with (String ":" (String " " (text ++ newline_indent level ++ "}" ++ rest))).
  change (Ascii.eqb ":" ":") with true. cbn iota.
  change (skip_ws (String " " (text ++ newline_indent level ++ "}" ++ rest)))
    with (skip_ws (text ++ newline_indent level ++ "}" ++ rest)).
  rewrite Hws, Hscan, skip_ws_indent.
  change (skip_ws ("}" ++ rest)) with (String "}" rest).
  change (Ascii.eqb "}" "}") with true. reflexivity.
Qed.

End Members.

(** *** One row *)

Ltac flatten :=
  repeat first [ rewrite append_assoc | progress cbn [append one] ].

(** The text of a row, its pieces in a row *)
Lemma encode_row_text (float_text : pyfloat -> string) (level : nat)
    (r : row) (rest : string) :
  encode float_text level (json_of_row r) ++ rest
  = String "{" (newline_indent (S level) ++ String dq (escape "#" ++ String dq
      (": " ++ Str.of_Z (num r) ++ "," ++ newline_indent (S level)
       ++ String dq (escape "Key" ++ String dq
      (": " ++ encode_str (Key r) ++ "," ++ newline_indent (S level)
       ++ String dq (escape "Value" ++ String dq
      (": " ++ value_text float_text (Value r) ++ "," ++ newline_indent (S level)
       ++ String dq (escape "Comments" ++ String dq
      (": " ++ encode_str (Comments r) ++ newline_indent level ++ "}" ++ rest))))))))).
Proof.
  unfold json_of_row. cbn [encode map String.concat fst snd].
  replace (encode float_text (S level) (json_of_value (Value r)))
    with (value_text float_text (Value r)) by (destruct (Value r); reflexivity).
  cbn [encode]. unfold encode_str at 1 3 5 7.
  flatten. reflexivity.
Qed.

Lemma reads_value (float_text : pyfloat -> string) (k : nat) (v : value) :
  value_ok float_text v = true ->
  reads (scan_once (S k)) (value_text float_text v)
        (json_of_value (reread_value float_text v)).
Proof.
  destruct v as [s | f]; cbn [value_ok value_text reread_value json_of_value].
  - intros _. apply reads_str.
  - apply reads_float.
Qed.

Lemma scan_once_object (fuel : nat) (s : string) :
  scan_once (S fuel) (String "{" s) = parse_object (scan_once fuel) fuel s.
Proof. reflexivity. Qed.

Lemma scan_once_array (fuel : nat) (s : string) :
  scan_once (S fuel) (String "[" s) = parse_array (scan_once fuel) fuel s.
Proof. reflexivity. Qed.

Lemma parse_object_members (scan : string -> option (json * string))
    (n level : nat) (body : string) :
  parse_object scan n (newline_indent level ++ String dq body)
  = match object_loop scan n body [] with
    | Some (ms, r') => Some (JObj ms, r')
    | None => None
    end.
Proof. unfold parse_object. rewrite skip_ws_indent. reflexivity. Qed.

(** A row is read back as the dict it was written from. *)
Lemma scan_once_row (float_text : pyfloat -> string) (k level : nat)
    (r : row) (rest : string) :
  value_ok float_text (Value r) = true ->
  scan_once (S (S (S (S (S k)))))
    (encode float_text level (json_of_row r) ++ rest)
  = Some (json_of_row (reread float_text r), rest).
Proof.
  intros Hv. rewrite encode_row_text.
  rewrite scan_once_object, parse_object_members.
  rewrite (object_loop_more _ _ _ "#" _ _ _ _ (reads_int _ (num r))).
  rewrite (object_loop_more _ _ _ "Key" _ _ _ _ (reads_str _ (Key r))).
  rewrite (object_loop_more _ _ _ "Value" _ _ _ _
             (reads_value float_text _ (Value r) Hv)).
  rewrite (object_loop_last _ _ _ "Comments" _ _ _ _ (reads_str _ (Comments r))).
  reflexivity.
Qed.

(** *** The list of rows *)

Lemma length_append (a b : string) :
  String.length (a ++ b) = (String.length a + String.length b)%nat.
Proof. induction a as [| x a IH]; simpl; [| rewrite IH]; reflexivity. Qed.

Lemma row_text_head (float_text : pyfloat -> string) (level : nat) (r : row) :
  exists t, encode float_text level (json_of_row r) = String "{" t.
Proof.
  eexists. rewrite <- (append_nil_r (encode float_text level (json_of_row r))).
  apply encode_row_text.
Qed.

Section Rows.

Variable float_text : pyfloat -> string.

Local Abbreviation items := (json_items float_text).

Lemma items_cons (r r' : row) (rows : list row) :
  items (r :: r' :: rows)
  = encode float_text 1 (json_of_row r) ++ "," ++ newline_indent 1
    ++ items (r' :: rows).
Proof. reflexivity. Qed.

Lemma items_head (r : row) (rows : list row) (tail : string) :
  exists t, items (r :: rows) ++ tail = String "{" t.
Proof.
  destruct (row_text_head float_text 1 r) as [t Ht].
  destruct rows as [| r' rows].
  - exists (t ++ tail). unfold json_items. cbn [map String.concat]. rewrite Ht.
    reflexivity.
  - exists ((t ++ "," ++ newline_indent 1 ++ items (r' :: rows)) ++ tail).
    rewrite items_cons, Ht. reflexivity.
Qed.

Lemma items_length (rows : list row) :
  (List.length rows <= String.length (items rows))%nat.
Proof.
  induction rows as [| r rows IH]; [apply Nat.le_0_l |].
  destruct (row_text_head float_text 1 r) as [t Ht].
  destruct rows as [| r' rows].
  - unfold json_items. cbn [map String.concat]. rewrite Ht. cbn. lia.
  - rewrite items_cons, Ht, !length_append. cbn [String.length List.length] in *.
    lia.
Qed.

Lemma array_loop_rows (k : nat) (rows : list row) :
  forall (r : row) (n : nat) (rest : string),
    (List.length rows < n)%nat ->
    forallb (fun x => value_ok float_text (Value x)) (r :: rows) = true ->
    array_loop (scan_once (S (S (S (S (S k)))))) n
      (items (r :: rows) ++ newline_indent 0 ++ "]" ++ rest)
    = Some (map json_of_row (map (reread float_text) (r :: rows)), rest).
Proof.
  induction rows as [| r' rows IH]; intros r n rest Hn Hok;
    (destruct n as [| n]; [inversion Hn |]);
    cbn [forallb] in Hok; apply andb_prop in Hok; destruct Hok as [Hr Hok].
  - unfold json_items. cbn [map String.concat array_loop].
    rewrite (scan_once_row float_text k 1 r _ Hr).
    rewrite skip_ws_indent. reflexivity.
  - rewrite items_cons. rewrite !append_assoc. cbn [array_loop].
    rewrite (scan_once_row float_text k 1 r _ Hr).
    change (skip_ws ("," ++ newline_indent 1
                     ++ items (r' :: rows) ++ newline_indent 0 ++ "]" ++ rest))
      with (String "," (newline_indent 1
                        ++ items (r' :: rows) ++ newline_indent 0 ++ "]" ++ rest)).
    change (Ascii.eqb "," "]") with false. change (Ascii.eqb "," ",") with true.
    cbn iota. rewrite skip_ws_indent.
    destruct (items_head r' rows (newline_indent 0 ++ "]" ++ rest)) as [t Ht].
    rewrite Ht. change (skip_ws (String "{" t)) with (String "{" t).
    rewrite <- Ht. rewrite (IH r' n rest); [reflexivity | | exact Hok].
    cbn [List.length] in Hn. lia.
Qed.

(** Reading the text written for the rows gives the rows back, a float
    as [float] of its text. *)
Lemma loads_dump (rows : list row) :
  forallb (fun x => value_ok float_text (Value x)) rows = true ->
  loads (dump float_text rows)
  = Some (json_of_rows (map (reread float_text) rows)).
Proof.
  intros Hok. destruct rows as [| r rows]; [reflexivity |].
  unfold loads, dump, json_of_rows.
  change (encode float_text 0 (JArr (map json_of_row (r :: rows))))
    with ("[" ++ newline_indent 1 ++ items (r :: rows) ++ newline_indent 0 ++ "]").
  pose proof (items_length (r :: rows)) as Hlen.
  remember (String.length
              ("[" ++ newline_indent 1 ++ items (r :: rows)
               ++ newline_indent 0 ++ "]")) as fuel eqn:Hfuel.
  assert (Hbig : exists k, fuel = S (S (S (S (S (S (k + List.length rows))))))).
  { exists (String.length (items (r :: rows)) - List.length rows)%nat.
    subst fuel. cbn [append String.length newline_indent spaces Nat.mul Nat.add].
    rewrite length_append. cbn [String.length List.length] in *. lia. }
  destruct Hbig as [k ->].
  change (skip_ws ("[" ++ newline_indent 1 ++ items (r :: rows)
                   ++ newline_indent 0 ++ "]"))
    with (String "[" (newline_indent 1 ++ items (r :: rows)
                      ++ newline_indent 0 ++ "]")).
  rewrite scan_once_array. unfold parse_array. rewrite skip_ws_indent.
  destruct (items_head r rows (newline_indent 0 ++ "]")) as [t Ht].
  rewrite Ht. change (skip_ws (String "{" t)) with (String "{" t).
  change (Ascii.eqb "{" "]") with false. cbn iota. rewrite <- Ht.
  replace (items (r :: rows) ++ newline_indent 0 ++ "]")
    with (items (r :: rows) ++ newline_indent 0 ++ "]" ++ "") by reflexivity.
  rewrite (array_loop_rows (k + List.length rows) rows r _ "");
    [reflexivity | lia | exact Hok].
Qed.

End Rows.

End JsonFacts.

(** ** Writing the rows as JSON and reading them again *)

Module JsonRoundTrip.

Import DocumentProcessor JsonText JsonFacts.

Lemma reread_strings (float_text : pyfloat -> string) (rows : list row) :
  all_strings rows = true -> map (reread float_text) rows = rows.
Proof.
  induction rows as [| [n k v c] rows IH]; [reflexivity |].
  cbn [all_strings forallb Value]. intros H. apply andb_prop in H.
  destruct H as [Hv H]. cbn [map]. rewrite (IH H).
  destruct v; [reflexivity | discriminate Hv].
Qed.

Lemma strings_ok (float_text : pyfloat -> string) (rows : list row) :
  all_strings rows = true ->
  forallb (fun x => value_ok float_text (Value x)) rows = true.
Proof.
  unfold all_strings. rewrite !forallb_forall. intros H r Hr.
  specialize (H r Hr). destruct (Value r); [reflexivity | discriminate H].
Qed.

Lemma read_write (name : string) (f : file) (fs : files) :
  read name (write name f fs) = Some f.
Proof. unfold write. cbn [read]. rewrite String.eqb_refl. reflexivity. Qed.

(** Two lists of rows that are the same list of dicts are the same. *)
Lemma json_of_rows_inj (rows rows' : list row) :
  json_of_rows rows = json_of_rows rows' -> rows = rows'.
Proof.
  unfold json_of_rows. intros H. injection H as H. revert rows' H.
  induction rows as [| [n k v c] rows IH]; intros [| [n' k' v' c'] rows'] H;
    try discriminate H; [reflexivity |].
  cbn [map] in H. injection H as Hn Hk Hv Hc Hrest.
  apply IH in Hrest. subst. f_equal.
  destruct v, v'; cbn in Hv; congruence.
Qed.



End JsonRoundTrip.


(** ** What a match holds *)

Module MatchFacts.

Import Re.

Lemma chars_of_chars (l : list ascii) : Str.chars (Str.of_chars l) = l.
Proof. induction l as [| c l IH]; simpl; [| rewrite IH]; reflexivity. Qed.

Lemma infix_refl (s : list ascii) : infix s s.
Proof. exists [], []. rewrite app_nil_r. reflexivity. Qed.

Lemma infix_nil (s : list ascii) : infix [] s.
Proof. exists [], s. reflexivity. Qed.

Lemma infix_app_l (t s pre : list ascii) : infix t s -> infix t (pre ++ s).
Proof.
  intros (a & b & ->). exists (pre ++ a), b. rewrite <- app_assoc. reflexivity.
Qed.

Lemma infix_trans (t u s : list ascii) : infix t u -> infix u s -> infix t s.
Proof.
  intros (a & b & ->) (c & d & ->). exists (c ++ a), (b ++ d).
  repeat rewrite <- app_assoc. reflexivity.
Qed.

Lemma caps_within_app_l (s pre : list ascii) (cs : caps) :
  caps_within s cs -> caps_within (pre ++ s) cs.
Proof.
  unfold caps_within. intros H. eapply Forall_impl; [| exact H].
  intros nt. apply infix_app_l.
Qed.

(** The text taken between two points of the input is the head of the
    input. *)
Lemma taken_prefix (pre s' : list ascii) :
  Str.chars (taken (pre ++ s') s') = pre.
Proof.
  unfold taken. rewrite chars_of_chars, length_app.
  replace (List.length pre + List.length s' - List.length s')%nat
    with (List.length pre) by lia.
  rewrite firstn_app, Nat.sub_diag, firstn_all. cbn [firstn].
  apply app_nil_r.
Qed.

Lemma caps_within_app (s : list ascii) (cs1 cs2 : caps) :
  caps_within s cs1 -> caps_within s cs2 -> caps_within s (cs1 ++ cs2).
Proof. unfold caps_within. intros H1 H2. apply Forall_app. split; assumption. Qed.

Section Run.

Context {R : Type}.

Local Abbreviation reaches := (@reaches R).

Lemma reaches_here (s : list ascii) (pos : nat) (cs : caps) kont res :
  kont s pos cs = Some res -> reaches s cs kont res.
Proof.
  intros H. exists [], s, pos, []. split; [reflexivity |].
  split; [constructor | exact H].
Qed.

Lemma reaches_tail (c : ascii) (s : list ascii) (cs : caps) kont res :
  reaches s cs kont res -> reaches (c :: s) cs kont res.
Proof.
  intros (pre & s' & pos' & new & -> & Hw & Hk).
  exists (c :: pre), s', pos', new. split; [reflexivity |].
  split; [apply (caps_within_app_l _ [c]); exact Hw | exact Hk].
Qed.

Lemma orelse_some (a : option R) (b : unit -> option R) (res : R) :
  orelse a b = Some res -> a = Some res \/ b tt = Some res.
Proof. unfold orelse. destruct a; auto. Qed.

Lemma rep_reaches (greedy : bool) (k : cls) (s : list ascii) :
  forall lo hi pos cs kont res,
    rep greedy k lo hi s pos cs kont = Some res -> reaches s cs kont res.
Proof.
  induction s as [| c s IH]; intros lo hi pos cs kont res H; cbn [rep] in H.
  - destruct lo; [| discriminate]. eapply reaches_here; eassumption.
  - assert (Hstop : match lo with 0%nat => kont (c :: s) pos cs | S _ => None end
                    = Some res -> reaches (c :: s) cs kont res).
    { destruct lo; [| discriminate]. apply reaches_here. }
    destruct (cls_match k c && hi_open hi)%bool; [| auto].
    destruct greedy; apply orelse_some in H; destruct H as [H | H]; auto;
      apply reaches_tail; eapply IH; eassumption.
Qed.

Lemma run_reaches (r : regex) :
  forall s pos cs kont res,
    run r s pos cs kont = Some res -> reaches s cs kont res.
Proof.
  induction r as [| k | | r1 IH1 r2 IH2 | r1 IH1 r2 IH2 | r1 IH1
                 | greedy lo hi k | n r1 IH1];
    intros s pos cs kont res H; cbn [run] in H.
  - eapply reaches_here; eassumption.
  - destruct s as [| c s]; [discriminate |].
    destruct (cls_match k c); [| discriminate].
    apply reaches_tail. eapply reaches_here; eassumption.
  - destruct pos; [| discriminate]. eapply reaches_here; eassumption.
  - apply IH1 in H. destruct H as (pre & s1 & p1 & new1 & -> & Hw1 & H).
    apply IH2 in H. destruct H as (pre2 & s2 & p2 & new2 & -> & Hw2 & H).
    exists (pre ++ pre2), s2, p2, (new2 ++ new1).
    split; [rewrite <- app_assoc; reflexivity |].
    split; [| rewrite <- app_assoc; exact H].
    apply caps_within_app; [apply caps_within_app_l; exact Hw2 | exact Hw1].
  - apply orelse_some in H. destruct H as [H | H]; [eapply IH1 | eapply IH2];
      eassumption.
  - apply orelse_some in H. destruct H as [H | H]; [eapply IH1; eassumption |].
    eapply reaches_here; eassumption.
  - eapply rep_reaches; eassumption.
  - apply IH1 in H. destruct H as (pre & s1 & p1 & new1 & -> & Hw1 & H).
    exists pre, s1, p1, ((n, taken (pre ++ s1) s1) :: new1).
    split; [reflexivity |]. split; [| exact H].
    constructor; [| exact Hw1]. cbn [snd]. rewrite taken_prefix.
    exists [], s1. reflexivity.
Qed.

End Run.

(** A match at a position: its text is the head of the input there, and
    its groups are cut out of the input there. *)
Lemma match_at_within (r : regex) (s : list ascii) (pos : nat) (m : match_obj) :
  match_at r s pos = Some m ->
  m_start m = pos
  /\ (exists post, s = Str.chars (m_text m) ++ post)
  /\ caps_within s (m_caps m).
Proof.
  unfold match_at. intros H. apply run_reaches in H.
  destruct H as (pre & s' & pos' & new & -> & Hw & H).
  injection H as <-. cbn [m_start m_text m_caps].
  split; [reflexivity |]. split.
  - exists s'. rewrite taken_prefix. reflexivity.
  - rewrite app_nil_r. exact Hw.
Qed.

Lemma search_from_within (r : regex) (s : list ascii) :
  forall pos m,
    search_from r s pos = Some m ->
    exists pre post,
      s = pre ++ Str.chars (m_text m) ++ post
      /\ m_start m = (pos + List.length pre)%nat
      /\ caps_within s (m_caps m).
Proof.
  induction s as [| c s IH]; intros pos m H; cbn [search_from] in H.
  - destruct (match_at r [] pos) as [m' |] eqn:Hm; [| discriminate].
    injection H as ->. apply match_at_within in Hm.
    destruct Hm as (Hs & (post & Hp) & Hw).
    exists [], post. cbn [app List.length]. rewrite Nat.add_0_r. auto.
  - destruct (match_at r (c :: s) pos) as [m' |] eqn:Hm.
    + injection H as ->. apply match_at_within in Hm.
      destruct Hm as (Hs & (post & Hp) & Hw).
      exists [], post. cbn [app List.length]. rewrite Nat.add_0_r. auto.
    + apply IH in H. destruct H as (pre & post & -> & Hs & Hw).
      exists (c :: pre), post. split; [reflexivity |].
      split; [cbn [List.length]; lia |].
      apply (caps_within_app_l _ [c]). exact Hw.
Qed.

Lemma lookup_within (s : list ascii) (n : nat) (cs : caps) (t : string) :
  caps_within s cs -> lookup n cs = Some t -> infix (Str.chars t) s.
Proof.
  induction cs as [| [i u] cs IH]; intros Hw H; [discriminate |].
  inversion Hw as [| ? ? Hu Hw']; subst. cbn [lookup] in H.
  destruct (Nat.eqb i n); [injection H as <-; exact Hu | auto].
Qed.

(** Every group of a match that [re.search] returns is a substring of
    the text searched. *)
Lemma group_substring (r : regex) (text : string) (m : match_obj) (n : nat) :
  search r text = Some m -> substring (group m n) text.
Proof.
  unfold search. intros H. apply search_from_within in H.
  destruct H as (pre & post & Hs & _ & Hw). unfold substring, group.
  destruct n as [| n].
  - exists pre, post. exact Hs.
  - destruct (lookup (S n) (m_caps m)) as [t |] eqn:Hl.
    + eapply lookup_within; eassumption.
    + apply infix_nil.
Qed.

End MatchFacts.

(** ** More about one pass of the pattern path *)

Module PassFacts.

Import DocumentProcessor PatternFacts MatchFacts.

Lemma when_pairs {X : Type} (o : option X) (f : X -> list row)
    (ps : list (Z * string)) :
  (forall x, map num_key (f x) = ps) -> subseq (map num_key (when o f)) ps.
Proof.
  intros H. destruct o; simpl.
  - rewrite H. apply subseq_refl.
  - apply subseq_nil_l.
Qed.

Ltac pairs_block :=
  repeat rewrite map_app;
  repeat first
    [ apply (subseq_app (A := Z * string))
    | apply when_pairs; intros; reflexivity
    | apply subseq_refl ].

Lemma personal_pairs (text : string) :
  subseq (map num_key (personal_rows text))
    ([(1, "First Name"); (2, "Last Name")] ++ [(3, "Date of Birth")]
     ++ [(4, "Birth City"); (5, "Birth State")] ++ [(6, "Age")]
     ++ [(7, "Blood Group")] ++ [(8, "Nationality")])%Z.
Proof. unfold personal_rows. pairs_block. Qed.

Lemma professional_pairs (text : string) :
  subseq (map num_key (professional_rows text))
    ([(9, "Joining Date of first professional role");
      (10, "Designation of first professional role");
      (11, "Salary of first professional role");
      (12, "Salary currency of first professional role")]
     ++ [(13, "Current Organization"); (14, "Current Joining Date");
         (15, "Current Designation"); (16, "Current Salary");
         (17, "Current Salary Currency")]
     ++ [(18, "Previous Organization"); (19, "Previous Joining Date");
         (20, "Previous end year")]
     ++ [(21, "Previous Starting Designation")])%Z.
Proof.
  unfold professional_rows. repeat rewrite map_app.
  apply (subseq_app (A := Z * string)); [pairs_block |].
  apply (subseq_app (A := Z * string)); [pairs_block |].
  destruct (Re.search prev_job_pattern text) as [m |]; cbn [when].
  - pairs_block.
  - apply subseq_nil_l.
Qed.

Lemma education_pairs (text : string) :
  subseq (map num_key (education_rows text))
    ([(22, "High School")] ++ [(23, "12th standard pass out year")]
     ++ [(24, "12th overall board score")] ++ [(25, "Undergraduate degree")]
     ++ [(26, "Undergraduate college")] ++ [(27, "Undergraduate year")]
     ++ [(28, "Undergraduate CGPA")] ++ [(29, "Graduation degree")]
     ++ [(30, "Graduation college")] ++ [(31, "Graduation year")]
     ++ [(32, "Graduation CGPA")])%Z.
Proof. unfold education_rows. pairs_block. Qed.

Lemma certification_pairs (text : string) :
  subseq (map num_key (certification_rows text))
    ([(33, "Certifications 1")] ++ [(34, "Certifications 2")]
     ++ [(35, "Certifications 3")] ++ [(36, "Certifications 4")])%Z.
Proof. unfold certification_rows. pairs_block. Qed.

Lemma technical_pairs (text : string) :
  subseq (map num_key (technical_rows text)) [(37, "Technical Proficiency")]%Z.
Proof. unfold technical_rows. pairs_block. Qed.

Lemma all_rows_pairs (text : string) :
  subseq (map num_key (all_rows text)) field_table.
Proof.
  unfold all_rows. repeat rewrite map_app.
  change field_table with
    (([(1, "First Name"); (2, "Last Name")] ++ [(3, "Date of Birth")]
      ++ [(4, "Birth City"); (5, "Birth State")] ++ [(6, "Age")]
      ++ [(7, "Blood Group")] ++ [(8, "Nationality")])
     ++ ([(9, "Joining Date of first professional role");
          (10, "Designation of first professional role");
          (11, "Salary of first professional role");
          (12, "Salary currency of first professional role")]
         ++ [(13, "Current Organization"); (14, "Current Joining Date");
             (15, "Current Designation"); (16, "Current Salary");
             (17, "Current Salary Currency")]
         ++ [(18, "Previous Organization"); (19, "Previous Joining Date");
             (20, "Previous end year")]
         ++ [(21, "Previous Starting Designation")])
     ++ ([(22, "High School")] ++ [(23, "12th standard pass out year")]
         ++ [(24, "12th overall board score")] ++ [(25, "Undergraduate degree")]
         ++ [(26, "Undergraduate college")] ++ [(27, "Undergraduate year")]
         ++ [(28, "Undergraduate CGPA")] ++ [(29, "Graduation degree")]
         ++ [(30, "Graduation college")] ++ [(31, "Graduation year")]
         ++ [(32, "Graduation CGPA")])
     ++ ([(33, "Certifications 1")] ++ [(34, "Certifications 2")]
         ++ [(35, "Certifications 3")] ++ [(36, "Certifications 4")])
     ++ [(37, "Technical Proficiency")])%Z.
  repeat apply (subseq_app (A := Z * string));
    auto using personal_pairs, professional_pairs, education_pairs,
      certification_pairs, technical_pairs.
Qed.

Lemma subseq_map {A B : Type} (f : A -> B) (l m : list A) :
  subseq l m -> subseq (map f l) (map f m).
Proof. induction 1; simpl; constructor; assumption. Qed.

Lemma subseq_NoDup {A : Type} (l m : list A) :
  subseq l m -> NoDup m -> NoDup l.
Proof.
  induction 1; intros Hm.
  - constructor.
  - inversion Hm; subst. auto.
  - inversion Hm as [| ? ? Hnot Hm']; subst. constructor; [| auto].
    intros Hin. apply Hnot. eapply subseq_In; eassumption.
Qed.

Lemma distinct_NoDup (l : list string) : distinct l = true -> NoDup l.
Proof.
  induction l as [| x l IH]; intros H; [constructor |].
  cbn [distinct] in H. apply andb_prop in H. destruct H as [Hx Hl].
  constructor; [| auto]. intros Hin.
  apply negb_true_iff in Hx. rewrite <- not_true_iff_false in Hx. apply Hx.
  apply existsb_exists. exists x. split; [exact Hin | apply String.eqb_refl].
Qed.

Lemma field_keys_distinct : NoDup (map snd field_table).
Proof. apply distinct_NoDup. vm_compute. reflexivity. Qed.

(** X1.  The values of the rows that hold a group of a match as it
    stands (names, places, organisations, designations, currencies,
    years) are substrings of the text: the pattern path invents none of
    them. *)
Theorem verbatim_values_are_substrings (text : string) (r : row) :
  In r (all_rows text) -> In (Key r) verbatim_keys ->
  exists v, Value r = VStr v /\ substring v text.
Proof.
  intros H Hk.
  unfold all_rows, personal_rows, professional_rows, education_rows,
    certification_rows, technical_rows in H.
  repeat match type of H with
    | In _ (_ ++ _) => apply in_app_or in H; destruct H as [H | H]
    | In _ (when ?o _) =>
        let E := fresh "E" in destruct o eqn:E; cbn [when] in H
    | In _ (_ :: _) =>
        destruct H as [H | H];
        [subst r; cbn [Key Value] in *;
         first
           [ solve [exfalso; cbn [In verbatim_keys] in Hk; intuition discriminate]
           | solve [eexists; split;
                    [reflexivity | eapply group_substring; eassumption]] ] |]
    | In _ [] => destruct H
    end.
Qed.

Lemma verbatim_values_are_substrings_witness :
  exists v, VStr "Indian" = VStr v /\ substring v "As an Indian national".
Proof.
  apply (verbatim_values_are_substrings "As an Indian national"
           (Row 8 "Nationality" (VStr "Indian")
              "Citizenship status is important for understanding his work authorization and visa requirements across different employment opportunities.")).
  - vm_compute. auto.
  - cbn. auto 10.
Defined.

(** X2.  In the rows a run on a new object returns, every row has the
    number and the key of one of the 37 fields, in the order of the
    fields and each at most once: there are between 1 and 37 rows, no
    key and no number twice, and a number always goes with the same
    key. *)
Theorem rows_follow_field_table
    (text : string) (rows : list row) (p : processor) :
  process_all (init (Some text)) = (inr rows, p) ->
  subseq (map num_key rows) field_table
  /\ (1 <= List.length rows <= 37)%nat
  /\ NoDup (map Key rows)
  /\ NoDup (map num rows)
  /\ fst (get_processing_summary p) = List.length rows.
Proof.
  intros H. apply fresh_run_rows in H. destruct H as (_ & -> & ->).
  pose proof (all_rows_pairs text) as Hsub.
  split; [exact Hsub |]. split; [| split; [| split]].
  - split.
    + pose proof (NoMatch.graduation_year_always text) as Hin.
      destruct (all_rows text); [destruct Hin | cbn; lia].
    + apply subseq_length in Hsub. rewrite length_map in Hsub. exact Hsub.
  - apply (subseq_map snd) in Hsub. rewrite map_map in Hsub.
    eapply subseq_NoDup; [exact Hsub | apply field_keys_distinct].
  - apply (subseq_map fst) in Hsub. rewrite map_map in Hsub.
    eapply subseq_NoDup; [exact Hsub |].
    change (map fst field_table) with (one_to 37).
    apply (NoDup_map_inv Z.to_nat). vm_compute.
    repeat constructor; cbn; lia.
  - reflexivity.
Qed.

Lemma rows_follow_field_table_witness :
  subseq (map num_key (all_rows alice_text)) field_table
  /\ (1 <= List.length (all_rows alice_text) <= 37)%nat.
Proof.
  destruct (rows_follow_field_table alice_text (all_rows alice_text)
              (Processor (Some alice_text) (all_rows alice_text) (run_log 7)))
    as (H1 & H2 & _).
  - vm_compute. reflexivity.
  - split; assumption.
Defined.

(** X3.  The row of the starting designation of the previous job is
    appended inside the [if] of the previous job: when it is among the
    rows, so are the organisation, the joining date and the end year of
    the previous job; and when the pattern of the previous job is not
    found it is not among the rows, even where its own pattern is
    found. *)
Theorem designation_needs_previous_job (text : string) :
  (In "Previous Starting Designation" (map Key (all_rows text)) ->
   In "Previous Organization" (map Key (all_rows text))
   /\ In "Previous Joining Date" (map Key (all_rows text))
   /\ In "Previous end year" (map Key (all_rows text)))
  /\ (Re.search prev_job_pattern text = None ->
      ~ In "Previous Starting Designation" (map Key (all_rows text))).
Proof.
  assert (Hnone : Re.search prev_job_pattern text = None ->
                  ~ In "Previous Starting Designation" (map Key (all_rows text))).
  { intros Hn Hin. apply in_map_iff in Hin. destruct Hin as (r & Hk & H).
    unfold all_rows, personal_rows, professional_rows, education_rows,
      certification_rows, technical_rows in H.
    rewrite Hn in H.
    repeat match type of H with
      | In _ (_ ++ _) => apply in_app_or in H; destruct H as [H | H]
      | In _ (when None _) => destruct H
      | In _ (when ?o _) => destruct o; cbn [when] in H
      | In _ (_ :: _) =>
          destruct H as [H | H]; [subst r; discriminate Hk |]
      | In _ [] => destruct H
      end. }
  split; [| exact Hnone].
  intros Hin. destruct (Re.search prev_job_pattern text) as [m |] eqn:Hm.
  - pose proof (NoMatch.matched_keys_present text
                  (FieldRule prev_job_pattern None
                     ["Previous Organization"; "Previous Joining Date";
                      "Previous end year"])) as Hp.
    assert (Hr : In (FieldRule prev_job_pattern None
                       ["Previous Organization"; "Previous Joining Date";
                        "Previous end year"]) field_rules)
      by (do 8 right; left; reflexivity).
    assert (Hmatch : rule_matches
                       (FieldRule prev_job_pattern None
                          ["Previous Organization"; "Previous Joining Date";
                           "Previous end year"]) text = true).
    { unfold rule_matches, is_match. cbn [fr_pattern fr_guard]. rewrite Hm.
      reflexivity. }
    repeat split; apply Hp; auto; cbn; auto.
  - exfalso. exact (Hnone eq_refl Hin).
Qed.

Lemma designation_needs_previous_job_witness :
  (In "Previous Organization" (map Key (all_rows previous_job_text))
   /\ In "Previous Joining Date" (map Key (all_rows previous_job_text))
   /\ In "Previous end year" (map Key (all_rows previous_job_text)))
  /\ is_match prev_designation_pattern designation_only_text = true
  /\ ~ In "Previous Starting Designation"
         (map Key (all_rows designation_only_text)).
Proof.
  split; [| split].
  - apply (proj1 (designation_needs_previous_job previous_job_text)).
    vm_compute. auto 10.
  - vm_compute. reflexivity.
  - apply (proj2 (designation_needs_previous_job designation_only_text)).
    vm_compute. reflexivity.
Defined.

(** *** Loading the text from a file *)

(** X4.  [load_from_file] on a file that can be read gives the object
    the text of the file and logs the loading; the rows and the log the
    object held stay.  [process_all] then raises if the file was empty,
    and otherwise returns the rows the object held before, followed by
    those of the text.  When opening or reading the file raises, be it a
    missing file or bytes that are not UTF-8, the method logs the error
    and raises it again; text and rows are as they were, and so is what
    [process_all] then gives. *)
Theorem load_then_process
    (path : string) (opened : exn + string) (p : processor) :
  match opened with
  | inr text =>
      load_from_file path opened p
      = (inr tt,
         Processor (Some text) (extracted_data p)
           (processing_log p ++ [LogLoaded path]))
      /\ fst (process_all (snd (load_from_file path opened p)))
         = (if String.eqb text ""
            then inl (ValueError
                        "No text content provided. Please load content first.")
            else inr (extracted_data p ++ all_rows text)%list)
  | inl e =>
      load_from_file path opened p
      = (inl e,
         Processor (text_content p) (extracted_data p)
           (processing_log p ++ [LogLoadError e]))
      /\ fst (process_all (snd (load_from_file path opened p)))
         = fst (process_all p)
  end.
Proof.
  destruct opened as [e | text]; (split; [reflexivity |]);
    rewrite !Rerun.process_all_result; cbn [load_from_file snd log
      text_content extracted_data].
  - reflexivity.
  - destruct text; reflexivity.
Qed.

(** A text is loaded into an object that holds a row already; a file
    that is missing is not. *)
Lemma load_then_process_witness :
  fst (process_all
         (snd (load_from_file "input.txt" (inr "x")
                 (Processor None [Row 8 "Nationality" (VStr "Indian") ""] []))))
  = inr [Row 8 "Nationality" (VStr "Indian") ""; graduation_year]
  /\ load_from_file "missing.txt" (inl (OSError "missing.txt")) (init None)
     = (inl (OSError "missing.txt"),
        Processor None [] [LogLoadError (OSError "missing.txt")]).
Proof.
  split.
  - rewrite (proj2 (load_then_process "input.txt" (inr "x")
                      (Processor None [Row 8 "Nationality" (VStr "Indian") ""] []))).
    vm_compute. reflexivity.
  - exact (proj1 (load_then_process "missing.txt" (inl (OSError "missing.txt"))
                    (init None))).
Defined.

(** *** Values that are converted *)

Lemma replace_char_removes (c : ascii) (s : string) :
  has_char c (Str.replace_char c "" s) = false.
Proof.
  induction s as [| x s IH]; [reflexivity |].
  cbn [Str.replace_char]. destruct (Ascii.eqb x c) eqn:E.
  - exact IH.
  - unfold has_char in *. cbn [Str.chars existsb]. rewrite IH.
    rewrite Ascii.eqb_sym, E. reflexivity.
Qed.

(** X5.  The two salary values hold no comma: the commas of the matched
    amount are taken out before the row is appended. *)
Theorem salary_has_no_comma (text : string) (r : row) :
  In r (all_rows text) -> In (Key r) salary_keys ->
  exists v, Value r = VStr v /\ has_char "," v = false.
Proof.
  intros H Hk.
  unfold all_rows, personal_rows, professional_rows, education_rows,
    certification_rows, technical_rows in H.
  repeat match type of H with
    | In _ (_ ++ _) => apply in_app_or in H; destruct H as [H | H]
    | In _ (when ?o _) => destruct o; cbn [when] in H
    | In _ (_ :: _) =>
        destruct H as [H | H];
        [subst r; cbn [Key Value] in *;
         first
           [ solve [exfalso; cbn [In salary_keys] in Hk; intuition discriminate]
           | solve [eexists; split; [reflexivity | apply replace_char_removes]] ] |]
    | In _ [] => destruct H
    end.
Qed.

Lemma salary_has_no_comma_witness :
  exists v, VStr "350000" = VStr v /\ has_char "," v = false.
Proof.
  apply (salary_has_no_comma first_job_text
           (Row 11 "Salary of first professional role" (VStr "350000") "")).
  - vm_compute. auto 10.
  - left. reflexivity.
Defined.

(** *** The technical summary *)

Lemma lstrip_suffix (s : string) :
  exists pre, Str.chars s = pre ++ Str.chars (Str.lstrip s).
Proof.
  induction s as [| c s IH]; [exists []; reflexivity |].
  cbn [Str.lstrip]. destruct (Char.is_space c).
  - destruct IH as [pre IH]. exists (c :: pre). cbn [Str.chars app].
    rewrite IH at 1. reflexivity.
  - exists []. reflexivity.
Qed.

Lemma rstrip_prefix (s : string) :
  exists post, Str.chars s = Str.chars (Str.rstrip s) ++ post.
Proof.
  induction s as [| c s IH]; [exists []; reflexivity |].
  destruct IH as [post IH]. cbn [Str.rstrip].
  destruct (Str.rstrip s) as [| d t] eqn:E.
  - destruct (Char.is_space c).
    + exists (c :: Str.chars s). reflexivity.
    + exists (Str.chars s). reflexivity.
  - exists post. cbn [Str.chars app] in *. rewrite IH. reflexivity.
Qed.

Lemma strip_substring (s : string) : substring (Str.strip s) s.
Proof.
  unfold substring, Str.strip.
  destruct (lstrip_suffix s) as [pre Hpre].
  destruct (rstrip_prefix (Str.lstrip s)) as [post Hpost].
  exists pre, post. rewrite Hpre at 1. rewrite Hpost at 1. reflexivity.
Qed.

Lemma lstrip_head (s : string) :
  match Str.lstrip s with
  | String c _ => Char.is_space c = false
  | EmptyString => True
  end.
Proof.
  induction s as [| c s IH]; [exact I |].
  cbn [Str.lstrip]. destruct (Char.is_space c) eqn:E; [exact IH | exact E].
Qed.

Lemma rstrip_head (c : ascii) (s : string) :
  Char.is_space c = false ->
  exists t, Str.rstrip (String c s) = String c t.
Proof.
  intros Hc. cbn [Str.rstrip].
  destruct (Str.rstrip s); [rewrite Hc |]; eexists; reflexivity.
Qed.

Lemma rstrip_idempotent (s : string) : Str.rstrip (Str.rstrip s) = Str.rstrip s.
Proof.
  induction s as [| c s IH]; [reflexivity |].
  cbn [Str.rstrip]. destruct (Str.rstrip s) as [| d t] eqn:E.
  - destruct (Char.is_space c) eqn:Hc; [reflexivity |].
    cbn [Str.rstrip]. rewrite Hc. reflexivity.
  - change (Str.rstrip (String c (String d t)))
      with (match Str.rstrip (String d t) with
            | EmptyString =>
                if Char.is_space c then EmptyString else String c EmptyString
            | String x r => String c (String x r)
            end).
    rewrite IH. reflexivity.
Qed.

(** Stripping a stripped text changes nothing. *)
Lemma strip_idempotent (s : string) : Str.strip (Str.strip s) = Str.strip s.
Proof.
  unfold Str.strip. pose proof (lstrip_head s) as Hh.
  destruct (Str.lstrip s) as [| c t] eqn:E; [reflexivity |].
  destruct (rstrip_head c t Hh) as [u Hu].
  replace (Str.lstrip (Str.rstrip (String c t))) with (Str.rstrip (String c t)).
  - apply rstrip_idempotent.
  - rewrite Hu. cbn [Str.lstrip]. rewrite Hh. reflexivity.
Qed.

(** X9.  The comment of the Technical Proficiency row is a substring of
    the text with no white space at its ends: stripping it again changes
    nothing. *)
Theorem technical_comment_is_stripped_text (text : string) (r : row) :
  In r (technical_rows text) ->
  substring (Comments r) text /\ Str.strip (Comments r) = Comments r.
Proof.
  unfold technical_rows. destruct (Re.search tech_pattern text) as [m |] eqn:Hm;
    cbn [when]; [| intros []].
  intros [<- | []]. cbn [Comments]. split.
  - eapply infix_trans; [apply strip_substring |].
    exact (group_substring _ _ _ 0 Hm).
  - apply strip_idempotent.
Qed.

Lemma technical_comment_is_stripped_text_witness :
  substring "In terms of technical proficiency, SQL."
            "x In terms of technical proficiency, SQL.  ".
Proof.
  apply (technical_comment_is_stripped_text
           "x In terms of technical proficiency, SQL.  "
           (Row 37 "Technical Proficiency" (VStr "")
              "In terms of technical proficiency, SQL.")).
  vm_compute. auto.
Defined.

End PassFacts.

(** ** The cells of the sheet *)

Module SheetFacts.

Import DocumentProcessor PatternFacts MatchFacts.

Lemma chars_append (a b : string) :
  Str.chars (a ++ b)%string = Str.chars a ++ Str.chars b.
Proof.
  induction a as [| c a IH]; [reflexivity |]. cbn. rewrite IH. reflexivity.
Qed.

Lemma clean_append (a b : string) : clean (a ++ b)%string = clean a && clean b.
Proof.
  unfold clean. rewrite chars_append, existsb_app, negb_orb. reflexivity.
Qed.

Lemma clean_cons (c : ascii) (s : string) :
  clean (String c s) = negb (illegal_character c) && clean s.
Proof. unfold clean. cbn [Str.chars existsb]. rewrite negb_orb. reflexivity. Qed.

Lemma infix_clean (t s : string) :
  substring t s -> clean s = true -> clean t = true.
Proof.
  unfold substring, infix, clean. intros (pre & post & H) Hs.
  rewrite H, !existsb_app in Hs.
  destruct (existsb illegal_character (Str.chars t)); [| reflexivity].
  rewrite orb_true_r in Hs. discriminate.
Qed.

Lemma prefix_clean (n : nat) (s : string) :
  clean s = true -> clean (String.substring 0 n s) = true.
Proof.
  revert s. induction n as [| n IH]; intros s H.
  - destruct s; reflexivity.
  - destruct s as [| c s]; [reflexivity |].
    cbn [String.substring]. rewrite clean_cons in *.
    apply andb_prop in H. destruct H as [Hc Hs].
    rewrite Hc. cbn. apply IH. exact Hs.
Qed.

(** The sheet writer takes a text that holds none of the characters it
    refuses. *)
Lemma clean_not_refused (s : string) : clean s = true -> refused s = false.
Proof.
  intros H. apply (prefix_clean (N.to_nat 32767)) in H.
  unfold clean in H. apply negb_true_iff in H. exact H.
Qed.

Lemma clean_uint (d : Decimal.uint) : clean (NilEmpty.string_of_uint d) = true.
Proof.
  induction d; cbn [NilEmpty.string_of_uint]; try reflexivity;
    rewrite clean_cons, IHd; reflexivity.
Qed.

Lemma clean_of_nat (n : nat) : clean (Str.of_nat n) = true.
Proof. apply clean_uint. Qed.

Lemma clean_zeros (n : nat) : clean (Date.zeros n) = true.
Proof.
  induction n as [| n IH]; [reflexivity |].
  cbn [Date.zeros]. rewrite clean_append, IH. reflexivity.
Qed.

Lemma clean_pad (w n : nat) : clean (Date.pad w n) = true.
Proof.
  unfold Date.pad. rewrite clean_append, clean_zeros, clean_of_nat. reflexivity.
Qed.

Lemma clean_iso_or (fallback s : string) :
  clean fallback = true -> clean (Date.iso_or fallback s) = true.
Proof.
  intros H. unfold Date.iso_or. destruct (Date.strptime s) as [dt |]; [| exact H].
  unfold Date.strftime.
  rewrite !clean_append, clean_of_nat, !clean_pad. reflexivity.
Qed.

Lemma clean_replace_char (a : ascii) (s : string) :
  clean s = true -> clean (Str.replace_char a "" s) = true.
Proof.
  induction s as [| c s IH]; intros H; [reflexivity |].
  rewrite clean_cons in H. apply andb_prop in H. destruct H as [Hc Hs].
  cbn [Str.replace_char]. destruct (Ascii.eqb c a).
  - cbn. auto.
  - rewrite clean_cons, Hc. cbn. auto.
Qed.

Lemma clean_strip (s : string) : clean s = true -> clean (Str.strip s) = true.
Proof. apply infix_clean. apply PassFacts.strip_substring. Qed.

Lemma clean_group (r : Re.regex) (text : string) (m : Re.match_obj) (n : nat) :
  Re.search r text = Some m -> clean text = true -> clean (Re.group m n) = true.
Proof. intros H. apply infix_clean. eapply group_substring; eassumption. Qed.

Ltac clean_leaf :=
  first
    [ reflexivity
    | eapply clean_group; eassumption
    | apply clean_iso_or; reflexivity
    | apply clean_replace_char; eapply clean_group; eassumption
    | apply clean_strip; eapply clean_group; eassumption ].

Ltac clean_cell :=
  repeat rewrite clean_append;
  repeat (apply andb_true_intro; split);
  clean_leaf.

(** The cells of one pass are made of the text and of the constants of
    the source: on a text without such characters they hold none. *)
Lemma rows_clean (text : string) (r : row) :
  clean text = true -> In r (all_rows text) -> row_clean r = true.
Proof.
  intros Hc H.
  unfold all_rows, personal_rows, professional_rows, education_rows,
    certification_rows, technical_rows in H.
  repeat match type of H with
    | In _ (_ ++ _) => apply in_app_or in H; destruct H as [H | H]
    | In _ (when ?o _) =>
        let E := fresh "E" in destruct o eqn:E; cbn [when] in H
    | In _ (_ :: _) =>
        destruct H as [H | H];
        [subst r; unfold row_clean; cbn [Key Value Comments];
         apply andb_true_intro; split; [apply andb_true_intro; split |];
         clean_cell |]
    | In _ [] => destruct H
    end.
Qed.

Lemma find_no {A : Type} (f : A -> bool) (l : list A) :
  (forall x, In x l -> f x = false) -> find f l = None.
Proof.
  induction l as [| a l IH]; intros H; [reflexivity |].
  cbn [find]. rewrite (H a (or_introl eq_refl)). apply IH.
  intros x Hx. apply H. right. exact Hx.
Qed.

Lemma cell_texts_clean (rows : list row) (s : string) :
  (forall r, In r rows -> row_clean r = true) ->
  In s (cell_texts rows) -> clean s = true.
Proof.
  intros H Hs. unfold cell_texts in Hs.
  apply in_app_or in Hs. destruct Hs as [Hs | Hs];
    [| apply in_app_or in Hs; destruct Hs as [Hs | Hs]].
  - apply in_map_iff in Hs. destruct Hs as (r & <- & Hr).
    apply H in Hr. unfold row_clean in Hr.
    apply andb_prop in Hr. destruct Hr as [Hr _].
    apply andb_prop in Hr. destruct Hr as [Hr _]. exact Hr.
  - apply in_flat_map in Hs. destruct Hs as (r & Hr & Hs).
    apply H in Hr. unfold row_clean in Hr.
    apply andb_prop in Hr. destruct Hr as [Hr _].
    apply andb_prop in Hr. destruct Hr as [_ Hr].
    destruct (Value r) as [v | f]; [| destruct Hs].
    destruct Hs as [<- | []]. exact Hr.
  - apply in_map_iff in Hs. destruct Hs as (r & <- & Hr).
    apply H in Hr. unfold row_clean in Hr.
    apply andb_prop in Hr. destruct Hr as [_ Hr]. exact Hr.
Qed.

(** On a text without such characters the sheet writer refuses no cell. *)
Lemma clean_text_is_taken (text : string) :
  clean text = true -> find refused (cell_texts (all_rows text)) = None.
Proof.
  intros Hc. apply find_no. intros s Hs. apply clean_not_refused.
  apply (cell_texts_clean (all_rows text)); [| exact Hs].
  intros r. apply rows_clean. exact Hc.
Qed.

End SheetFacts.

(** ** C4: a field whose pattern does not match *)

Module UnmatchedField.

Import DocumentProcessor PatternFacts NoMatch SheetFacts.




End UnmatchedField.

(** ** The fields that are found *)

Module FieldFacts.

Import DocumentProcessor PatternFacts NoMatch PassFacts.

(** A sublist that holds exactly the elements of a list without
    repetition that pass a test is the list filtered by the test. *)
Lemma subseq_filter {A : Type} (f : A -> bool) (l m : list A) :
  subseq l m -> NoDup m ->
  (forall x, In x m -> (In x l <-> f x = true)) ->
  l = filter f m.
Proof.
  induction 1 as [| x l m Hs IH | x l m Hs IH]; intros Hnd Hiff.
  - reflexivity.
  - inversion Hnd as [| ? ? Hnot Hnd']; subst. cbn [filter].
    destruct (f x) eqn:Hx.
    + exfalso. apply Hnot. apply (subseq_In l m x Hs).
      apply (Hiff x); [left; reflexivity | exact Hx].
    + apply IH; [exact Hnd' |]. intros y Hy. apply Hiff. right. exact Hy.
  - inversion Hnd as [| ? ? Hnot Hnd']; subst. cbn [filter].
    assert (Hx : f x = true).
    { apply (Hiff x); left; reflexivity. }
    rewrite Hx. f_equal. apply IH; [exact Hnd' |].
    intros y Hy. specialize (Hiff y (or_intror Hy)).
    split.
    + intros Hin. apply Hiff. right. exact Hin.
    + intros Hf. apply Hiff in Hf.
      destruct Hf as [-> | Hf]; [contradiction | exact Hf].
Qed.

Lemma same_key_same_number {A B : Type} (t : list (A * B)) (n n' : A) (k : B) :
  NoDup (map snd t) -> In (n, k) t -> In (n', k) t -> n = n'.
Proof.
  induction t as [| [a b] t IH]; intros Hnd H H'; [destruct H |].
  cbn [map snd] in Hnd. inversion Hnd as [| ? ? Hnot Hnd']; subst.
  destruct H as [H | H]; destruct H' as [H' | H'].
  - congruence.
  - injection H as -> ->. exfalso. apply Hnot.
    apply in_map_iff. exists (n', k). auto.
  - injection H' as -> ->. exfalso. apply Hnot.
    apply in_map_iff. exists (n, k). auto.
  - auto.
Qed.

Lemma same_number_same_key {A B : Type} (t : list (A * B)) (n : A) (k k' : B) :
  NoDup (map fst t) -> In (n, k) t -> In (n, k') t -> k = k'.
Proof.
  induction t as [| [a b] t IH]; intros Hnd H H'; [destruct H |].
  cbn [map fst] in Hnd. inversion Hnd as [| ? ? Hnot Hnd']; subst.
  destruct H as [H | H]; destruct H' as [H' | H'].
  - congruence.
  - injection H as -> ->. exfalso. apply Hnot.
    apply in_map_iff. exists (n, k'). auto.
  - injection H' as -> ->. exfalso. apply Hnot.
    apply in_map_iff. exists (n, k). auto.
  - auto.
Qed.

Lemma table_NoDup : NoDup field_table.
Proof. apply (NoDup_map_inv snd). apply field_keys_distinct. Qed.

Lemma field_numbers_distinct : NoDup (map fst field_table).
Proof.
  vm_compute. repeat (constructor; [cbn; intuition discriminate |]).
  constructor.
Qed.

(** The row of the starting designation of the previous job is inside
    the [if] of the previous job. *)
Lemma designation_absent (text : string) (x : row) :
  Re.search prev_job_pattern text = None ->
  In x (all_rows text) -> Key x <> "Previous Starting Designation"%string.
Proof.
  intros Hn H Hk.
  unfold all_rows, personal_rows, professional_rows, education_rows,
    certification_rows, technical_rows in H.
  rewrite Hn in H.
  repeat match type of H with
    | In _ (_ ++ _) => apply in_app_or in H; destruct H as [H | H]
    | In _ (when None _) => destruct H
    | In _ (when ?o _) => destruct o; cbn [when] in H
    | In _ (_ :: _) =>
        destruct H as [H | H]; [subst x; discriminate Hk |]
    | In _ [] => destruct H
    end.
Qed.

Lemma is_match_false (r : Re.regex) (text : string) :
  is_match r text = false -> Re.search r text = None.
Proof.
  unfold is_match. destruct (Re.search r text); [discriminate | reflexivity].
Qed.

(** No row has a key of a rule that is not found. *)
Lemma unfound_keys_absent (text : string) (r : field_rule) (x : row) :
  In r field_rules -> rule_matches r text = false ->
  In x (all_rows text) -> ~ In (Key x) (fr_keys r).
Proof.
  intros Hr Hm Hx. unfold rule_matches in Hm.
  apply andb_false_iff in Hm. destruct Hm as [Hm | Hm].
  - apply (unmatched_keys_absent text r x);
      [exact Hr | apply is_match_false; exact Hm | exact Hx].
  - unfold field_rules in Hr. cbn [In] in Hr.
    repeat (destruct Hr as [<- | Hr];
            [cbn [fr_guard fr_keys] in *; try discriminate Hm |]);
      [| destruct Hr].
    intros [Hk | []]. symmetry in Hk.
    exact (designation_absent text x (is_match_false _ _ Hm) Hx Hk).
Qed.

(** Every field of the table but the graduation year has its rule. *)
Lemma table_keys_have_rules :
  forallb (fun nk =>
             String.eqb (snd nk) "Graduation year"
             || existsb (fun r => existsb (String.eqb (snd nk)) (fr_keys r))
                  field_rules) field_table = true.
Proof. vm_compute. reflexivity. Qed.

(** A field of the table is among the rows of one pass, under its
    number and its key, exactly when it is found. *)
Lemma found_iff (text : string) (n : Z) (k : string) :
  In (n, k) field_table ->
  (In (n, k) (map num_key (all_rows text)) <-> found text k = true).
Proof.
  intros Ht. split.
  - intros Hin. apply in_map_iff in Hin. destruct Hin as (x & Hx & Hin).
    injection Hx as Hn Hk.
    unfold found. destruct (String.eqb k "Graduation year") eqn:Hg; [reflexivity |].
    cbn [orb].
    destruct (existsb (fun r => existsb (String.eqb k) (fr_keys r)
                                && rule_matches r text) field_rules) eqn:E;
      [reflexivity | exfalso].
    pose proof table_keys_have_rules as Hall.
    rewrite forallb_forall in Hall. specialize (Hall (n, k) Ht).
    cbn [snd] in Hall. rewrite Hg in Hall. cbn [orb] in Hall.
    apply existsb_exists in Hall. destruct Hall as (r & Hr & Hkr).
    apply existsb_exists in Hkr. destruct Hkr as (k' & Hk' & Heq).
    apply String.eqb_eq in Heq. subst k'.
    assert (Hm : rule_matches r text = false).
    { destruct (rule_matches r text) eqn:Hm; [| reflexivity].
      assert (Hex : existsb (fun r => existsb (String.eqb k) (fr_keys r)
                                      && rule_matches r text) field_rules = true).
      { apply existsb_exists. exists r. split; [exact Hr |].
        rewrite Hm, andb_true_r. apply existsb_exists. exists k.
        split; [exact Hk' | apply String.eqb_refl]. }
      rewrite Hex in E. discriminate E. }
    apply (unfound_keys_absent text r x Hr Hm Hin). rewrite Hk. exact Hk'.
  - intros Hf.
    assert (Hkey : In k (map Key (all_rows text))).
    { unfold found in Hf. apply orb_true_iff in Hf. destruct Hf as [Hf | Hf].
      - apply String.eqb_eq in Hf. subst k.
        apply in_map_iff. exists graduation_year.
        split; [reflexivity | apply graduation_year_always].
      - apply existsb_exists in Hf. destruct Hf as (r & Hr & Hf).
        apply andb_prop in Hf. destruct Hf as [Hk Hm].
        apply existsb_exists in Hk. destruct Hk as (k' & Hk' & Heq).
        apply String.eqb_eq in Heq. subst k'.
        apply (matched_keys_present text r k Hr Hm Hk'). }
    apply in_map_iff in Hkey. destruct Hkey as (x & Hk & Hx).
    apply in_map_iff. exists x. split; [| exact Hx].
    unfold num_key. rewrite Hk. f_equal.
    apply (same_key_same_number field_table (num x) n k field_keys_distinct);
      [| exact Ht].
    apply (subseq_In _ _ _ (all_rows_pairs text)).
    apply in_map_iff. exists x. split; [| exact Hx].
    unfold num_key. rewrite Hk. reflexivity.
Qed.

(** The numbers and keys of one pass are those of the table, with the
    fields that are not found left out. *)
Lemma all_rows_fields (text : string) :
  map num_key (all_rows text) = fields_found text.
Proof.
  unfold fields_found. apply subseq_filter.
  - apply all_rows_pairs.
  - apply table_NoDup.
  - intros [n k] Ht. cbn [snd]. apply found_iff. exact Ht.
Qed.

(** A number of the table is the number of a row exactly when the row of
    its field is there. *)
Lemma number_iff_pair (text : string) (n : Z) (k : string) :
  In (n, k) field_table ->
  (In n (map num (all_rows text)) <-> In (n, k) (map num_key (all_rows text))).
Proof.
  intros Ht. split.
  - intros Hin. apply in_map_iff in Hin. destruct Hin as (x & Hn & Hx).
    apply in_map_iff. exists x. split; [| exact Hx].
    unfold num_key. rewrite Hn. f_equal.
    apply (same_number_same_key field_table n (Key x) k field_numbers_distinct);
      [| exact Ht].
    apply (subseq_In _ _ _ (all_rows_pairs text)).
    apply in_map_iff. exists x. split; [| exact Hx].
    unfold num_key. rewrite Hn. reflexivity.
  - intros Hin. apply in_map_iff in Hin. destruct Hin as (x & Hx & Hin).
    injection Hx as Hn _. apply in_map_iff. exists x. auto.
Qed.

End FieldFacts.

(** ** C1: the numbers of the rows *)

Module Numbering.

Import AIDocumentProcessor DocumentProcessor PatternFacts StructuredFacts
  FieldFacts.

(** When every field is found the numbers are 1, ..., 37. *)
Lemma all_fields_numbers (text : string) :
  List.length (all_rows text) = 37%nat ->
  map num (all_rows text) = one_to 37.
Proof.
  intros H. apply subseq_full; [apply all_rows_nums |].
  rewrite length_map, one_to_length. exact H.
Qed.

(** C1, as the code has it.  On the structured path the numbers of the
    rows are exactly 1, 2, ..., n, for the constant data of every text
    and for any other nested data.  On the pattern path each row carries
    the number fixed for its field: the numbers and keys of the rows are
    those of the table of the 37 fields with the fields that are not
    found left out, and a number of the table is the number of a row
    exactly when its field is found.  Hence the numbers are 1, ..., 37
    with gaps, strictly increasing, never reused, and between 1 and
    37. *)
Theorem sequence_numbers
    (text : string) (rows : list row) (p : processor)
    (d : ai_data) (structured : list row) :
  process_all (init (Some text)) = (inr rows, p) ->
  structure_ai_output d = inr structured ->
  map num structured = one_to (List.length structured)
  /\ (exists rows', process_document text = inr rows'
                    /\ map num rows' = one_to (List.length rows'))
  /\ map num_key rows = fields_found text
  /\ map num rows = map fst (fields_found text)
  /\ (forall n k, In (n, k) field_table ->
                  (In n (map num rows) <-> found text k = true))
  /\ subseq (map num rows) (one_to 37)
  /\ StronglySorted Z.lt (map num rows)
  /\ (forall z, In z (map num rows) -> (1 <= z <= 37)%Z).
Proof.
  intros Hrun Hstruct.
  apply fresh_run_rows in Hrun. destruct Hrun as (_ & -> & _).
  split; [apply (structure_ai_output_numbered d); assumption |].
  split.
  { destruct (process_document text) as [e | rows'] eqn:Hp.
    - discriminate Hp.
    - exists rows'. split; [reflexivity |].
      apply structure_ai_output_numbered with (d := simulate_ai_extraction text).
      exact Hp. }
  split; [apply all_rows_fields |].
  split; [rewrite <- all_rows_fields, map_map; reflexivity |].
  split.
  { intros n k Ht. rewrite (number_iff_pair text n k Ht).
    apply found_iff. exact Ht. }
  pose proof (all_rows_nums text) as Hsub.
  split; [exact Hsub |]. split.
  - eapply subseq_sorted; [exact Hsub | apply one_to_sorted].
  - intros z Hz. apply (one_to_bounds 37). eapply subseq_In; eassumption.
Qed.

Lemma sequence_numbers_witness :
  map num (all_rows alice_text) = [1; 2; 3; 4; 5; 6; 31]%Z
  /\ map num_key (all_rows alice_text)
     = [(1, "First Name"); (2, "Last Name"); (3, "Date of Birth");
        (4, "Birth City"); (5, "Birth State"); (6, "Age");
        (31, "Graduation year")]%Z%string
  /\ (In 7%Z (map num (all_rows alice_text))
      <-> found alice_text "Blood Group" = true)
  /\ found alice_text "Blood Group" = false.
Proof.
  destruct (sequence_numbers alice_text (all_rows alice_text)
              (Processor (Some alice_text) (all_rows alice_text)
                 (run_log (List.length (all_rows alice_text))))
              (simulate_ai_extraction alice_text)
              (match process_document alice_text with inr r => r | inl _ => [] end))
    as (_ & _ & Hpairs & Hnums & Hiff & _).
  - apply process_all_fresh. discriminate.
  - vm_compute. reflexivity.
  - split; [rewrite Hnums; vm_compute; reflexivity |].
    split; [rewrite Hpairs; vm_compute; reflexivity |].
    split; [apply Hiff; vm_compute; auto 10 | vm_compute; reflexivity].
Defined.

(** C1 as stated fails on the pattern path: on the text [x] no pattern
    matches, the run produces the single row of the graduation year, and
    its number is 31, not 1. *)
Lemma sequence_numbers_counterexample :
  exists rows p,
    process_all (init (Some "x")) = (inr rows, p)
    /\ map num rows = [31%Z]
    /\ map num rows <> one_to (List.length rows).
Proof.
  eexists. eexists. split; [vm_compute; reflexivity |].
  split; [reflexivity |]. vm_compute. discriminate.
Qed.

End Numbering.

(** ** More about the structured path *)

Module FlattenFacts.

Import AIDocumentProcessor StructuredFacts.

Lemma each_item_keys label comment (d : dict) :
  forall a,
    map Key (fst (each_item label comment d a))
    = map Key (fst a) ++ map (fun kv => label (fst kv)) d
    /\ map Value (fst (each_item label comment d a))
       = map Value (fst a) ++ map (fun kv => VStr (snd kv)) d.
Proof.
  unfold each_item. induction d as [| kv d IH]; intros a; cbn [fold_left map].
  - rewrite !app_nil_r. split; reflexivity.
  - destruct (IH (bump (put (label (fst kv)) (snd kv) (comment (fst kv)) a)))
      as [IHk IHv].
    rewrite IHk, IHv. unfold bump, put. cbn [fst snd].
    rewrite !map_app. cbn [map Key Value]. rewrite <- !app_assoc.
    split; reflexivity.
Qed.

Lemma each_item_Key label comment (d : dict) (a : acc) :
  map Key (fst (each_item label comment d a))
  = map Key (fst a) ++ map (fun kv => label (fst kv)) d.
Proof. apply each_item_keys. Qed.

Lemma each_item_Value label comment (d : dict) (a : acc) :
  map Value (fst (each_item label comment d a))
  = map Value (fst a) ++ map (fun kv => VStr (snd kv)) d.
Proof. apply each_item_keys. Qed.

Lemma step_Key (key value comment : string) (a : acc) :
  map Key (fst (bump (put key value comment a))) = map Key (fst a) ++ [key].
Proof. unfold bump, put. cbn [fst]. rewrite map_app. reflexivity. Qed.

Lemma step_Value (key value comment : string) (a : acc) :
  map Value (fst (bump (put key value comment a)))
  = map Value (fst a) ++ [VStr value].
Proof. unfold bump, put. cbn [fst]. rewrite map_app. reflexivity. Qed.

Lemma each_certification_keys (certs : list dict) :
  forall i a a',
    each_certification i certs a = inr a' ->
    forallb has_name certs = true
    /\ map Key (fst a')
       = map Key (fst a)
         ++ map (fun j => "Certifications " ++ Str.of_nat (j + 1))%string
              (seq i (List.length certs))
    /\ map Value (fst a')
       = map Value (fst a) ++ map (fun c => VStr (name_of c)) certs.
Proof.
  induction certs as [| cert certs IH]; intros i a a' H; cbn [each_certification] in H.
  - injection H as <-. cbn [forallb List.length seq map]. rewrite !app_nil_r.
    repeat split.
  - destruct (get "name" cert) as [name |] eqn:Hn; [| discriminate].
    apply IH in H. destruct H as (Hall & Hk & Hv).
    cbn [forallb]. unfold has_name at 1. rewrite Hn, Hall.
    split; [reflexivity |].
    rewrite Hk, Hv. unfold bump, put. cbn [fst snd].
    rewrite !map_app. cbn [map Key Value List.length seq].
    rewrite <- !app_assoc. unfold name_of at 2. unfold get_or. rewrite Hn.
    split; reflexivity.
Qed.

Lemma each_certification_fails (certs : list dict) :
  forall i a e,
    each_certification i certs a = inl e ->
    e = KeyError "name" /\ forallb has_name certs = false.
Proof.
  induction certs as [| cert certs IH]; intros i a e H; cbn [each_certification] in H.
  - discriminate.
  - cbn [forallb]. unfold has_name at 1.
    destruct (get "name" cert) as [name |] eqn:Hn.
    + apply IH in H. destruct H as [-> ->]. split; reflexivity.
    + injection H as <-. split; reflexivity.
Qed.

(** X6.  On nested data of the shape of [ai_data] (every key that the
    method subscripts outside the certifications is there, with a value
    of the kind it expects), [structure_ai_output] raises exactly when
    some certification has no name, and then it is a [KeyError] for
    [name]; when every certification has a name it returns rows. *)
Theorem structure_fails_on_nameless_certification (d : ai_data) :
  match structure_ai_output d with
  | inl e => e = KeyError "name" /\ forallb has_name (certifications d) = false
  | inr rows => forallb has_name (certifications d) = true
  end.
Proof.
  unfold structure_ai_output.
  match goal with
  | |- context [each_certification 0 (certifications d) ?a0] =>
      destruct (each_certification 0 (certifications d) a0) as [e | a] eqn:Hc
  end.
  - eapply each_certification_fails; eassumption.
  - apply each_certification_keys in Hc. exact (proj1 Hc).
Qed.

(** X7.  The rows that [structure_ai_output] returns hold the values of
    the nested data in the order it visits them (personal information,
    first, current and previous role, school, undergraduate and
    graduation record, certifications, technical summary), each item of
    a dict in the order of the dict, with the labels of the formatters:
    as many rows as the data have fields. *)
Theorem structured_rows_in_order (d : ai_data) (rows : list row) :
  structure_ai_output d = inr rows ->
  map Key rows = keys_in_order d
  /\ map Value rows = map VStr (values_in_order d)
  /\ List.length rows = List.length (values_in_order d).
Proof.
  intros H.
  assert (Hkv : map Key rows = keys_in_order d
                /\ map Value rows = map VStr (values_in_order d)).
  { unfold structure_ai_output in H.
    match type of H with
    | match each_certification 0 (certifications d) ?a0 with _ => _ end = _ =>
        destruct (each_certification 0 (certifications d) a0) as [e | a] eqn:Hc;
        [discriminate |]
    end.
    injection H as <-.
    apply each_certification_keys in Hc. destruct Hc as (_ & Hk & Hv).
    rewrite !map_app, Hk, Hv.
    repeat first [ rewrite each_item_Key | rewrite step_Key ].
    repeat first [ rewrite each_item_Value | rewrite step_Value ].
    cbn [fst map app].
    unfold keys_in_order, values_in_order.
    rewrite !map_app, !map_map. cbn [map].
    rewrite <- !app_assoc. cbn [app]. split; reflexivity. }
  destruct Hkv as [Hk Hv]. split; [exact Hk |]. split; [exact Hv |].
  rewrite <- (length_map Value rows), Hv, length_map. reflexivity.
Qed.

Lemma structured_rows_in_order_witness :
  map Key (match process_document "" with inr rows => rows | inl _ => [] end)
  = keys_in_order (simulate_ai_extraction "")
  /\ List.length (match process_document "" with inr rows => rows | inl _ => [] end)
     = 37%nat.
Proof.
  destruct (structured_rows_in_order (simulate_ai_extraction "")
              (match process_document "" with inr rows => rows | inl _ => [] end))
    as (Hk & _ & Hl).
  - vm_compute. reflexivity.
  - split; [exact Hk | rewrite Hl; reflexivity].
Defined.

Example nameless_certification :
  structure_ai_output nameless_data = inl (KeyError "name").
Proof. reflexivity. Qed.

(** *** Labels *)

Lemma to_upper_underscore (c : ascii) :
  Ascii.eqb "_" (Char.to_upper c) = Ascii.eqb "_" c.
Proof. destruct c as [[] [] [] [] [] [] [] []]; reflexivity. Qed.

Lemma to_lower_underscore (c : ascii) :
  Ascii.eqb "_" (Char.to_lower c) = Ascii.eqb "_" c.
Proof. destruct c as [[] [] [] [] [] [] [] []]; reflexivity. Qed.

Lemma title_from_underscore (s : string) :
  forall b, has_char "_" (Str.title_from b s) = has_char "_" s.
Proof.
  induction s as [| c s IH]; intros b; [reflexivity |].
  unfold has_char in *. cbn [Str.title_from Str.chars existsb]. rewrite IH.
  destruct b; [rewrite to_lower_underscore | rewrite to_upper_underscore];
    reflexivity.
Qed.

Lemma replace_underscore_removes (s : string) :
  has_char "_" (Str.replace_char "_" " " s) = false.
Proof.
  induction s as [| x s IH]; [reflexivity |].
  cbn [Str.replace_char]. destruct (Ascii.eqb x "_") eqn:E.
  - exact IH.
  - unfold has_char in *. cbn [Str.chars existsb]. rewrite IH.
    rewrite Ascii.eqb_sym, E. reflexivity.
Qed.

Lemma get_in (key v : string) (d : dict) :
  get key d = Some v -> In v (map snd d).
Proof.
  induction d as [| [k x] d IH]; [discriminate |]. cbn [get map snd].
  destruct (String.eqb k key);
    [intros [= ->]; left; reflexivity | intros H; right; apply IH, H].
Qed.

(** X8.  A label of the personal information never holds an underscore,
    whatever the key: the labels of the table hold none, and the
    fallback replaces every underscore of the key by a space before it
    title-cases. *)
Theorem personal_label_has_no_underscore (key : string) :
  has_char "_" (format_key_name key) = false.
Proof.
  unfold format_key_name, get_or.
  destruct (get key key_mapping) as [v |] eqn:H.
  - apply get_in in H. cbn [key_mapping map snd In] in H.
    repeat (destruct H as [<- | H]; [reflexivity |]). destruct H.
  - unfold Str.title. rewrite title_from_underscore.
    apply replace_underscore_removes.
Qed.

End FlattenFacts.
